(** * AiModularLibrary: the checked call, the router and the vendor adapters

    A shallow embedding of [main.py] ([ai_call_checked]), [api_router.py]
    ([APIRouter.communicate_with_ai]) and the adapters
    [vendors/openai_client.py] and [vendors/gemini_client.py].

    Conventions of the embedding:
    - a Python [str] is a list of Unicode code points ([pystr]); [len],
      [==] and [strip] are the operations on code points;
    - a Python number used for money is any type with the arithmetic of
      the class [Number]; the instance [float_Number] is binary64, the
      arithmetic CPython runs, and [Q_Number] is exact;
    - a call that can raise returns [Ok] or [Raised]; the checked call runs
      in the monad [M], which threads the local [total_cost] and the list
      of router calls made so far, and keeps both when an exception passes;
    - the provider and the router are not deterministic: they are
      functions of the number of calls already made in the invocation;
    - [APIRouter(logger)] reads the configuration file and the keys of
      the three vendors: what it does is the parameter ([Raised] when it
      fails, [Ok] with the registry and the router it built), read by the
      entry points at the line that constructs the router; [cfg] is the
      content of [model_config['models']];
    - the dictionaries have the keys the code reads; a text the provider
      may leave out ([message.content], [usage]) is an option, and so is
      the [cost] key, which is absent unless a price was asked for; the
      prices of the registry are floats;
    - logging is observational only and is left out. *)

From Stdlib Require Import ZArith NArith QArith List String Ascii Bool Lia.
From Stdlib Require Import Floats.PrimFloat Floats.FloatOps Floats.SpecFloat.
Import ListNotations.

Set Implicit Arguments.
Local Close Scope Q_scope.
Local Open Scope list_scope.

(** ** Python strings *)

Definition pystr := list N.

(** A literal of the source, given by its ASCII text. *)
Definition lit (s : string) : pystr :=
  map N_of_ascii (list_ascii_of_string s).

Definition pystr_eq_dec : forall a b : pystr, {a = b} + {a <> b} :=
  list_eq_dec N.eq_dec.

Definition pystr_eqb (a b : pystr) : bool :=
  if pystr_eq_dec a b then true else false.

(** [len(s)] *)
Definition len (s : pystr) : Z := Z.of_nat (List.length s).

(** [str.isspace] on one code point: the white space table of CPython. *)
Definition isspace (c : N) : bool :=
  ((9 <=? c) && (c <=? 13) || (28 <=? c) && (c <=? 32)
   || (c =? 133) || (c =? 160) || (c =? 5760)
   || (8192 <=? c) && (c <=? 8202)
   || (c =? 8232) || (c =? 8233) || (c =? 8239) || (c =? 8287)
   || (c =? 12288))%N.

Fixpoint lstrip (s : pystr) : pystr :=
  match s with
  | [] => []
  | c :: r => if isspace c then lstrip r else s
  end.

Definition rstrip (s : pystr) : pystr := rev (lstrip (rev s)).

(** [s.strip()] *)
Definition strip (s : pystr) : pystr := rstrip (lstrip s).

(** Truth value of an optional string: [None] and [''] are false. *)
Definition truthy (o : option pystr) : bool :=
  match o with
  | None | Some [] => false
  | Some (_ :: _) => true
  end.

(** A value that is a [str] or [None]. *)
Definition optstr_eq_dec : forall a b : option pystr, {a = b} + {a <> b}.
Proof. decide equality. apply pystr_eq_dec. Defined.

(** [str(x)], as an f-string formats a value. *)
Definition py_str (x : option pystr) : pystr :=
  match x with
  | Some t => t
  | None => lit "None"
  end.

(** [len(set(l))] *)
Definition len_set (l : list (option pystr)) : nat :=
  List.length (nodup optstr_eq_dec l).

Definition newline : pystr := [10%N].

(** ** Python numbers *)

Class Number (C : Type) : Type := {
  nzero : C;                 (* the literal [0.0] *)
  nadd : C -> C -> C;        (* [+] *)
  nmul : C -> C -> C;        (* [*] *)
  of_int : Z -> option C     (* the conversion of an [int] operand;
                                [None] when it raises [OverflowError] *)
}.

(** binary64: the conversion rounds to nearest, ties to even, and fails
    for the integers that round beyond the largest float, as CPython's
    does. *)
Definition float_of_int (z : Z) : option float :=
  match binary_normalize prec emax z 0 false with
  | S754_infinity _ | S754_nan => None
  | f => Some (SF2Prim f)
  end.

#[export] Instance float_Number : Number float := {
  nzero := PrimFloat.zero;
  nadd := PrimFloat.add;
  nmul := PrimFloat.mul;
  of_int := float_of_int
}.

(** Exact arithmetic. *)
#[export] Instance Q_Number : Number Q := {
  nzero := 0%Q;
  nadd := Qplus;
  nmul := Qmult;
  of_int := fun z => Some (inject_Z z)
}.

(** A number written as an integer literal in the scenarios. *)
Definition num {C : Type} `{Number C} (z : Z) : C :=
  match of_int z with
  | Some x => x
  | None => nzero
  end.

(** ** Exceptions and call outcomes *)

(** The exception classes the code raises or catches; [ProviderError]
    stands for the classes of the vendor SDKs and of the operating
    system. All are subclasses of [Exception], so [except Exception]
    catches each of them. *)
Inductive exn : Type :=
| ValueError (msg : pystr)
| Exception (msg : pystr)
| AttributeError (msg : pystr)
| OverflowError (msg : pystr)
| ProviderError (msg : pystr).

(** [str(e)] *)
Definition str_exn (e : exn) : pystr :=
  match e with
  | ValueError m | Exception m | AttributeError m | OverflowError m
  | ProviderError m => m
  end.

(** [None.name]: the attribute [name] is read of [None]. *)
Definition no_attribute (name : string) : exn :=
  AttributeError
    (lit "'NoneType' object has no attribute '" ++ lit name ++ lit "'").

(** The exception of the conversion of an [int] too large for a float. *)
Definition too_large : exn :=
  OverflowError (lit "int too large to convert to float").

Inductive outcome (A : Type) : Type :=
| Ok (a : A)
| Raised (e : exn).
Arguments Ok {A} a.
Arguments Raised {A} e.

(** ** The data model *)

(** An entry of [model_config.json]. *)
Record model_info (C : Type) : Type := {
  vendor : pystr;
  vendor_model_id : pystr;
  type : pystr;
  price_per_input_tokens : C;
  price_per_output_tokens : C
}.

(** [model_config['models'].items()], in the order of the file. *)
Definition model_config (C : Type) : Type := list (pystr * model_info C).

(** The dictionaries the adapters, the router and the two entry points
    return. [prompt] and [attempts] are set by the entry points only, and
    [cost] only when a price was asked for. *)
Record result_dict (C : Type) : Type := {
  prompt : option pystr;
  response : option pystr;                (* a [str] or [None] *)
  model_used : pystr;
  finish_reason : pystr;
  attempts : option Z;
  cost : option C
}.

(** [model_name in config] and [config[model_name]] *)
Fixpoint lookup {C : Type} (cfg : model_config C) (name : pystr)
  : option (model_info C) :=
  match cfg with
  | [] => None
  | (n, info) :: rest =>
      if pystr_eqb n name then Some info else lookup rest name
  end.

(** [f"Model '{model_name}' not found in configuration"] *)
Definition not_found_msg (model_name : pystr) : pystr :=
  lit "Model '" ++ model_name ++ lit "' not found in configuration".

(** The signature every adapter's [call_api] has: model name, prompt,
    system message, temperature, max tokens, calculate_cost. *)
Definition adapter (C : Type) : Type :=
  pystr -> pystr -> option pystr -> Q -> option Z -> bool ->
  outcome (result_dict C).

(** [if max_tokens:] keeps a limit that is neither [None] nor [0]. *)
Definition max_tokens_param (max_tokens : option Z) : option Z :=
  match max_tokens with
  | Some z => if (z =? 0)%Z then None else Some z
  | None => None
  end.

(** [n * x] for an [int] [n] and a float [x]: the [int] is converted. *)
Definition int_times {C : Type} `{Number C} (n : Z) (x : C) : outcome C :=
  match of_int n with
  | Some f => Ok (nmul f x)
  | None => Raised too_large
  end.

(** [try: body except Exception as e: raise Exception(prefix + str(e))] *)
Definition reraise {A : Type} (prefix : pystr) (body : outcome A)
  : outcome A :=
  match body with
  | Ok a => Ok a
  | Raised e => Raised (Exception (prefix ++ str_exn e))
  end.

(** ** vendors/openai_client.py *)

Module OpenAIClient.
Section Client.
Context {C : Type} `{Number C}.

(** The keyword arguments of [chat.completions.create]. *)
Record api_params : Type := {
  model : pystr;
  messages : list (pystr * pystr);        (* role, content *)
  temperature : Q;
  max_tokens : option Z
}.

(** [response.usage] *)
Record completion_usage : Type := {
  prompt_tokens : Z;
  completion_tokens : Z
}.

(** What the adapter reads of the provider's reply:
    [choices[0].message.content], which is a [str] or [None],
    [choices[0].finish_reason], and [usage], which the reply may lack. *)
Record completion : Type := {
  content : option pystr;
  choice_finish_reason : pystr;
  usage : option completion_usage
}.

Definition _get_model_info (cfg : model_config C) (model_name : pystr)
  : outcome (model_info C) :=
  match lookup cfg model_name with
  | None => Raised (ValueError (not_found_msg model_name))
  | Some info =>
      if pystr_eqb (vendor info) (lit "OpenAI") then Ok info
      else Raised (ValueError
             (lit "Model '" ++ model_name ++ lit "' is not an OpenAI model"))
  end.

Definition _calculate_cost (info : model_info C)
    (input_tokens output_tokens : Z) : outcome C :=
  match int_times input_tokens (price_per_input_tokens info) with
  | Raised e => Raised e
  | Ok input_cost =>
      match int_times output_tokens (price_per_output_tokens info) with
      | Raised e => Raised e
      | Ok output_cost =>
          let total_cost := nadd input_cost output_cost in
          Ok total_cost
      end
  end.

(** The body of [try:] once the provider has replied. *)
Definition read_reply (info : model_info C) (calculate_cost : bool)
    (resp : completion) : outcome (result_dict C) :=
  let result :=
    {| prompt := None;
       response := content resp;
       model_used := vendor_model_id info;
       finish_reason := choice_finish_reason resp;
       attempts := None;
       cost := None |} in
  if calculate_cost then
    match usage resp with
    | None => Raised (no_attribute "prompt_tokens")
    | Some u =>
        let input_tokens := prompt_tokens u in
        let output_tokens := completion_tokens u in
        match _calculate_cost info input_tokens output_tokens with
        | Raised e => Raised e
        | Ok total_cost =>
            Ok {| prompt := prompt result;
                  response := response result;
                  model_used := model_used result;
                  finish_reason := finish_reason result;
                  attempts := attempts result;
                  cost := Some total_cost |}
        end
    end
  else Ok result.

Definition call_api (cfg : model_config C)
    (create : api_params -> outcome completion) : adapter C :=
  fun model_name prompt system_message temperature max_tokens calculate_cost =>
  match _get_model_info cfg model_name with
  | Raised e => Raised e
  | Ok info =>
      let vendor_model_id := vendor_model_id info in
      let messages :=
        (if truthy system_message
         then [(lit "system", match system_message with
                              | Some m => m | None => [] end)]
         else [])
        ++ [(lit "user", prompt)] in
      let api_params :=
        {| model := vendor_model_id; messages := messages;
           temperature := temperature;
           max_tokens := max_tokens_param max_tokens |} in
      reraise (lit "OpenAI API call failed: ")
        match create api_params with
        | Raised e => Raised e
        | Ok resp => read_reply info calculate_cost resp
        end
  end.
End Client.
End OpenAIClient.

(** ** vendors/gemini_client.py *)

Module GeminiClient.
Section Client.
Context {C : Type} `{Number C}.

Record generation_config : Type := {
  temperature : Q;
  max_output_tokens : option Z
}.

(** [response.usage_metadata] *)
Record usage_metadata : Type := {
  prompt_token_count : Z;
  candidates_token_count : Z
}.

(** The provider's reply: the adapter reads [text] only; the reason the
    generation finished for and the token counts of the provider are in
    the reply and are not read. A reply whose [text] cannot be read
    raises where it is read, inside [try:], as a failed call does. *)
Record generation : Type := {
  text : pystr;
  candidate_finish_reason : pystr;
  reply_usage : option usage_metadata
}.

Definition _get_model_info (cfg : model_config C) (model_name : pystr)
  : outcome (model_info C) :=
  match lookup cfg model_name with
  | None => Raised (ValueError (not_found_msg model_name))
  | Some info =>
      if pystr_eqb (vendor info) (lit "Gemini") then Ok info
      else Raised (ValueError
             (lit "Model '" ++ model_name ++ lit "' is not a Gemini model"))
  end.

Definition _calculate_cost (info : model_info C)
    (input_tokens output_tokens : Z) : outcome C :=
  match int_times input_tokens (price_per_input_tokens info) with
  | Raised e => Raised e
  | Ok input_cost =>
      match int_times output_tokens (price_per_output_tokens info) with
      | Raised e => Raised e
      | Ok output_cost =>
          let total_cost := nadd input_cost output_cost in
          Ok total_cost
      end
  end.

Definition _estimate_tokens (text : pystr) : Z := (len text / 4)%Z.

Definition full_prompt (prompt : pystr) (system_message : option pystr)
  : pystr :=
  match system_message with
  | Some (c :: m) =>
      lit "[System: " ++ (c :: m) ++ lit "]" ++ newline ++ newline ++ prompt
  | _ => prompt
  end.

(** The body of [try:] once the provider has replied. *)
Definition read_reply (info : model_info C) (full_prompt : pystr)
    (calculate_cost : bool) (resp : generation) : outcome (result_dict C) :=
  let result :=
    {| prompt := None;
       response := Some (text resp);
       model_used := vendor_model_id info;
       finish_reason := lit "stop";
       attempts := None;
       cost := None |} in
  if calculate_cost then
    let input_tokens := _estimate_tokens full_prompt in
    let output_tokens := _estimate_tokens (text resp) in
    match _calculate_cost info input_tokens output_tokens with
    | Raised e => Raised e
    | Ok total_cost =>
        Ok {| prompt := prompt result;
              response := response result;
              model_used := model_used result;
              finish_reason := finish_reason result;
              attempts := attempts result;
              cost := Some total_cost |}
    end
  else Ok result.

Definition call_api (cfg : model_config C)
    (generate_content :
       pystr -> generation_config -> pystr -> outcome generation)
  : adapter C :=
  fun model_name prompt system_message temperature max_tokens calculate_cost =>
  match _get_model_info cfg model_name with
  | Raised e => Raised e
  | Ok info =>
      let vendor_model_id := vendor_model_id info in
      let full_prompt := full_prompt prompt system_message in
      let generation_config :=
        {| temperature := temperature;
           max_output_tokens := max_tokens_param max_tokens |} in
      reraise (lit "Gemini API call failed: ")
        match generate_content vendor_model_id generation_config full_prompt
        with
        | Raised e => Raised e
        | Ok resp => read_reply info full_prompt calculate_cost resp
        end
  end.
End Client.
End GeminiClient.

(** ** api_router.py *)

Module APIRouter.
Section Router.
Context {C : Type}.

Definition _get_model_info (cfg : model_config C) (model_name : pystr)
  : outcome (model_info C) :=
  match lookup cfg model_name with
  | None => Raised (ValueError (not_found_msg model_name))
  | Some info => Ok info
  end.

(** The keys of [vendor_clients]. *)
Definition vendor_clients : list pystr :=
  [lit "OpenAI"; lit "Anthropic"; lit "Gemini"].

(** The three clients of [vendor_clients]; the Anthropic adapter is not
    part of the sources at hand and stays a parameter. *)
Variables (openai anthropic gemini : adapter C).

Definition communicate_with_ai (cfg : model_config C)
    (model_name prompt : pystr) (system_message : option pystr)
    (temperature : Q) (max_tokens : option Z) (check_for_price : bool)
  : outcome (result_dict C) :=
  match _get_model_info cfg model_name with
  | Raised e => Raised e
  | Ok info =>
      let vendor := vendor info in
      if negb (existsb (pystr_eqb vendor) vendor_clients)
      then Raised (ValueError
             (lit "Vendor '" ++ vendor
              ++ lit "' not supported or client not implemented"))
      else
        let attempt :=
          if pystr_eqb vendor (lit "OpenAI") then
            openai model_name prompt system_message temperature
              max_tokens check_for_price
          else if pystr_eqb vendor (lit "Anthropic") then
            anthropic model_name prompt system_message temperature
              max_tokens check_for_price
          else if pystr_eqb vendor (lit "Gemini") then
            gemini model_name prompt system_message temperature
              max_tokens check_for_price
          else Raised (ValueError
                 (lit "Vendor '" ++ vendor ++ lit "' not yet implemented")) in
        match attempt with
        | Ok result => Ok result
        | Raised e =>
            Raised (Exception
              (lit "API call failed for model '" ++ model_name
               ++ lit "' (vendor: " ++ vendor ++ lit "): " ++ str_exn e))
        end
  end.
End Router.
End APIRouter.

(** ** main.py: the state of one checked call *)

(** One call of [router.communicate_with_ai] made by the checked call:
    the arguments passed and what came back. *)
Record call (C : Type) : Type := {
  call_model : pystr;
  call_prompt : pystr;
  call_check_for_price : bool;
  call_outcome : outcome (result_dict C)
}.

(** The router as the checked call sees it: the outcome of the call
    number [n] of the invocation with the given model name, prompt and
    [check_for_price]. *)
Definition router (C : Type) : Type :=
  nat -> pystr -> pystr -> bool -> outcome (result_dict C).

(** The local variable [total_cost] and the calls made so far, oldest
    first. *)
Record state (C : Type) : Type := {
  total_cost : C;
  calls : list (call C)
}.

(** A statement of the body of [ai_call_checked]: it runs from a state and
    ends normally or by an exception, in a new state either way. *)
Definition M (C A : Type) : Type := state C -> outcome A * state C.

Definition ret {C A : Type} (a : A) : M C A := fun s => (Ok a, s).

Definition raise {C A : Type} (e : exn) : M C A := fun s => (Raised e, s).

Definition get {C : Type} : M C (state C) := fun s => (Ok s, s).

Definition bind {C A B : Type} (m : M C A) (k : A -> M C B) : M C B :=
  fun s =>
    match m s with
    | (Ok a, s') => k a s'
    | (Raised e, s') => (Raised e, s')
    end.

(** [try: body except Exception as e: handler e] *)
Definition try_except {C A : Type} (body : M C A) (handler : exn -> M C A)
  : M C A :=
  fun s =>
    match body s with
    | (Ok a, s') => (Ok a, s')
    | (Raised e, s') => handler e s'
    end.

Declare Scope py_scope.
Delimit Scope py_scope with py.
Notation "x <- m ;; k" := (bind m (fun x => k))
  (at level 100, m at next level, right associativity) : py_scope.
Notation "m ;; k" := (bind m (fun _ => k))
  (at level 100, right associativity) : py_scope.
Local Open Scope py_scope.

(** ** main.py: [ai_call_checked] *)

Definition allowed_vendors : list pystr :=
  [lit "OpenAI"; lit "Anthropic"; lit "Gemini"].

(** [str(allowed_vendors)] *)
Definition allowed_vendors_repr : pystr :=
  lit "['OpenAI', 'Anthropic', 'Gemini']".

(** The sentinel the budget model is asked to answer with. *)
Definition FALSE_sentinel : pystr := lit "%FALSE%".

(** The f-string [validation_prompt]. *)
Definition validation_prompt (prompt : pystr)
    (responses : list (option pystr)) : pystr :=
  lit "You are a validation expert. I will give you an original prompt and three AI responses. "
  ++ newline
  ++ lit "Your task is to check if all three responses are identical and valid."
  ++ newline ++ newline
  ++ lit "Original prompt: " ++ prompt ++ newline ++ newline
  ++ lit "Response 1: " ++ py_str (nth 0 responses None) ++ newline
  ++ lit "Response 2: " ++ py_str (nth 1 responses None) ++ newline
  ++ lit "Response 3: " ++ py_str (nth 2 responses None) ++ newline ++ newline
  ++ lit "If all three responses are identical and valid, respond with the correct answer only."
  ++ newline
  ++ lit "If they are not identical or invalid, respond with exactly: %FALSE%"
  ++ newline ++ newline
  ++ lit "Your response:".

(** The loop over [model_config_data['models'].items()] that sets
    [high_model] and [budget_model]: every matching entry assigns, so a
    later entry replaces an earlier one. *)
Definition find_models {C : Type} (cfg : model_config C) (vendor_ : pystr)
  : option pystr * option pystr :=
  fold_left
    (fun (acc : option pystr * option pystr) (item : pystr * model_info C) =>
       let (high_model, budget_model) := acc in
       let (model_name, info) := item in
       if pystr_eqb (vendor info) vendor_ then
         if pystr_eqb (type info) (lit "high") then
           (Some model_name, budget_model)
         else if pystr_eqb (type info) (lit "budget") then
           (high_model, Some model_name)
         else acc
       else acc)
    cfg (None, None).

Definition no_high_msg (vendor_ : pystr) : pystr :=
  lit "No high model found for vendor: " ++ vendor_
  ++ lit ". High models are required for response generation.".

Definition no_budget_msg (vendor_ : pystr) : pystr :=
  lit "No budget model found for vendor: " ++ vendor_
  ++ lit ". Budget models are required for response validation.".

Definition not_allowed_msg (vendor_ : pystr) : pystr :=
  lit "Vendor '" ++ vendor_ ++ lit "' not allowed. Allowed vendors: "
  ++ allowed_vendors_repr.

Definition failed_msg (vendor_ : pystr) : pystr :=
  lit "Failed to get validated response after 5 attempts for vendor: "
  ++ vendor_.

Section Checked.
Context {C : Type} `{Number C}.
Variable rt : router C.
Variables (vendor_ prompt_ : pystr) (check_for_price : bool).

(** [router.communicate_with_ai(model_name=..., prompt=...,
    check_for_price=check_for_price)], recorded in [calls]. *)
Definition communicate (model_name p : pystr) : M C (result_dict C) :=
  fun s =>
    let o := rt (List.length (calls s)) model_name p check_for_price in
    (o, {| total_cost := total_cost s;
           calls := calls s ++ [{| call_model := model_name;
                                   call_prompt := p;
                                   call_check_for_price := check_for_price;
                                   call_outcome := o |}] |}).

(** [if check_for_price and 'cost' in result: total_cost += result['cost']] *)
Definition add_cost (result : result_dict C) : M C unit :=
  fun s =>
    match check_for_price, cost result with
    | true, Some c =>
        (Ok tt, {| total_cost := nadd (total_cost s) c; calls := calls s |})
    | _, _ => (Ok tt, s)
    end.

Variables (high_model budget_model : pystr).

(** [x.strip()] for a value that is a [str] or [None]. *)
Definition strip_of (x : option pystr) : M C pystr :=
  match x with
  | Some t => ret (strip t)
  | None => raise (no_attribute "strip")
  end.

(** [for i in range(3):] the sampling loop, from the list [responses]
    collected so far. *)
Fixpoint sample (range : list nat) (responses : list (option pystr))
  : M C (list (option pystr)) :=
  match range with
  | [] => ret responses
  | _ :: range' =>
      result <- communicate high_model prompt_ ;;
      add_cost result ;;
      sample range' (responses ++ [response result])
  end.

(** The body of [try:] in attempt [attempt]: [Some result] when it
    returns [result] from the function, [None] when it ends by
    [continue]. *)
Definition attempt_body (attempt : nat) : M C (option (result_dict C)) :=
  responses <- sample (seq 0 3) [] ;;
  if (len_set responses =? 1)%nat then
    let validation_prompt := validation_prompt prompt_ responses in
    validation_result <- communicate budget_model validation_prompt ;;
    validation_response <- strip_of (response validation_result) ;;
    add_cost validation_result ;;
    if pystr_eqb validation_response FALSE_sentinel then ret None
    else
      s <- get ;;
      ret (Some
             {| prompt := Some prompt_;
                response := Some validation_response;
                model_used :=
                  high_model ++ lit " (validated by " ++ budget_model ++ lit ")";
                finish_reason := lit "validated";
                attempts := Some (Z.of_nat attempt + 1)%Z;
                cost := if check_for_price then Some (total_cost s) else None |})
  else ret None.

(** One iteration of [for attempt in range(5):], with its
    [except Exception as e: if attempt == 4: raise e]. *)
Definition attempt_step (attempt : nat) : M C (option (result_dict C)) :=
  try_except (attempt_body attempt)
    (fun e => if (attempt =? 4)%nat then raise e else ret None).

(** [for attempt in range(5):], left by [return] as soon as an iteration
    returns. *)
Fixpoint attempts_loop (range : list nat) : M C (option (result_dict C)) :=
  match range with
  | [] => ret None
  | attempt :: range' =>
      r <- attempt_step attempt ;;
      match r with
      | Some result => ret (Some result)
      | None => attempts_loop range'
      end
  end.

(** The code from [total_cost = 0.0] on, once both models are found. *)
Definition validate : M C (result_dict C) :=
  r <- attempts_loop (seq 0 5) ;;
  match r with
  | Some result => ret result
  | None =>
      let error_msg := failed_msg vendor_ in
      s <- get ;;
      ret {| prompt := Some prompt_;
             response := Some (lit "ERROR: " ++ error_msg);
             model_used := high_model ++ lit " (validation failed)";
             finish_reason := lit "validation_failed";
             attempts := Some 5%Z;
             cost := if check_for_price then Some (total_cost s) else None |}
  end.
End Checked.

(** The state a checked call starts in: [total_cost = 0.0], no call made. *)
Definition initial_state {C : Type} `{Number C} : state C :=
  {| total_cost := nzero; calls := [] |}.

(** What [APIRouter(logger=logger)] does when an entry point runs it:
    it raises (a missing key of a vendor, a configuration file that
    cannot be read), or it gives the router with its [model_config]. *)
Definition construction (C : Type) : Type :=
  outcome (model_config C * router C).

(** The construction succeeds, with the registry [cfg] and the router
    [rt]. *)
Definition constructed {C : Type} (cfg : model_config C) (rt : router C)
  : construction C :=
  Ok (cfg, rt).

(** [ai_call_checked(vendor, prompt, check_for_price)]: what it returns
    or raises, and the final [total_cost] and calls. [if not high_model:]
    holds of [None] and of the empty name. *)
Definition ai_call_checked {C : Type} `{Number C}
    (new_router : construction C)
    (vendor_ prompt_ : pystr) (check_for_price : bool)
  : outcome (result_dict C) * state C :=
  if negb (existsb (pystr_eqb vendor_) allowed_vendors) then
    (Raised (ValueError (not_allowed_msg vendor_)), initial_state)
  else
    match new_router with
    | Raised e => (Raised e, initial_state)
    | Ok (cfg, rt) =>
        let (high_model, budget_model) := find_models cfg vendor_ in
        match high_model with
        | Some (c :: h) =>
            match budget_model with
            | Some (c' :: b) =>
                validate rt vendor_ prompt_ check_for_price (c :: h) (c' :: b)
                  initial_state
            | _ => (Raised (ValueError (no_budget_msg vendor_)), initial_state)
            end
        | _ => (Raised (ValueError (no_high_msg vendor_)), initial_state)
        end
    end.

(** ** Vocabulary of the specification *)

(** An entry of the registry has vendor [vendor_] and role [role]. *)
Definition has_role {C : Type} (vendor_ role : pystr)
    (item : pystr * model_info C) : bool :=
  pystr_eqb (vendor (snd item)) vendor_ && pystr_eqb (type (snd item)) role.

(** The first model of the registry with the vendor and the role, as the
    specification words the lookup. *)
Definition first_with_role {C : Type} (cfg : model_config C)
    (vendor_ role : pystr) : option pystr :=
  option_map fst (find (has_role vendor_ role) cfg).

(** The last model of the registry with the vendor and the role. *)
Definition last_with_role {C : Type} (cfg : model_config C)
    (vendor_ role : pystr) : option pystr :=
  first_with_role (rev cfg) vendor_ role.

(** The cost a call reported: none when it raised or when its result has
    no [cost] key. *)
Definition reported_cost {C : Type} (c : call C) : option C :=
  match call_outcome c with
  | Ok r => cost r
  | Raised _ => None
  end.

(** The costs reported by a list of calls, in the order of the calls. *)
Fixpoint reported_costs {C : Type} (l : list (call C)) : list C :=
  match l with
  | [] => []
  | c :: l' =>
      match reported_cost c with
      | Some x => x :: reported_costs l'
      | None => reported_costs l'
      end
  end.

(** The sum of a list of costs, added one after the other to [0.0]. *)
Definition sum_costs {C : Type} `{Number C} (l : list C) : C :=
  fold_left nadd l nzero.

(** The record of a call that came back with [r]. *)
Definition returned {C : Type} (model_name p : pystr) (check : bool)
    (r : result_dict C) : call C :=
  {| call_model := model_name; call_prompt := p;
     call_check_for_price := check; call_outcome := Ok r |}.

(** [total_cost] after the cost of [r] was taken into account. *)
Definition charge {C : Type} `{Number C} (check_for_price : bool)
    (r : result_dict C) (total : C) : C :=
  match check_for_price, cost r with
  | true, Some c => nadd total c
  | _, _ => total
  end.

(** The record of a call that raised [e]. *)
Definition failed {C : Type} (model_name p : pystr) (check : bool)
    (e : exn) : call C :=
  {| call_model := model_name; call_prompt := p;
     call_check_for_price := check; call_outcome := Raised e |}.

(** The dictionary returned on success. *)
Definition validated_result {C : Type} (prompt_ : pystr)
    (check_for_price : bool) (high_model budget_model : pystr)
    (attempt : nat) (validation_response : pystr) (total : C)
  : result_dict C :=
  {| prompt := Some prompt_;
     response := Some validation_response;
     model_used :=
       high_model ++ lit " (validated by " ++ budget_model ++ lit ")";
     finish_reason := lit "validated";
     attempts := Some (Z.of_nat attempt + 1)%Z;
     cost := if check_for_price then Some total else None |}.

(** The dictionary returned when the five attempts are used up. *)
Definition failure_result {C : Type} (vendor_ prompt_ : pystr)
    (check_for_price : bool) (high_model : pystr) (total : C)
  : result_dict C :=
  {| prompt := Some prompt_;
     response := Some (lit "ERROR: " ++ failed_msg vendor_);
     model_used := high_model ++ lit " (validation failed)";
     finish_reason := lit "validation_failed";
     attempts := Some 5%Z;
     cost := if check_for_price then Some total else None |}.

(** [total_cost] after the verification result [v]: its cost is taken
    into account when its text could be stripped. *)
Definition charge_verification {C : Type} `{Number C}
    (check_for_price : bool) (v : result_dict C) (total : C) : C :=
  match response v with
  | Some _ => charge check_for_price v total
  | None => total
  end.

(** What an attempt makes of the verification result [v], with the total
    reached: the exception of [None.strip()], [continue] for the
    sentinel, and the validated dictionary otherwise. *)
Definition verdict {C : Type} (prompt_ : pystr)
    (check_for_price : bool) (high_model budget_model : pystr)
    (attempt : nat) (v : result_dict C) (total : C)
  : outcome (option (result_dict C)) :=
  match response v with
  | None => Raised (no_attribute "strip")
  | Some t =>
      if pystr_eqb (strip t) FALSE_sentinel then Ok None
      else Ok (Some (validated_result prompt_ check_for_price high_model
                       budget_model attempt (strip t) total))
  end.

(** The state after three samples and the verification call of an
    attempt begun in [s]. *)
Definition after_verification {C : Type} `{Number C} (prompt_ : pystr)
    (check_for_price : bool) (high_model budget_model : pystr)
    (s : state C) (r1 r2 r3 v : result_dict C) : state C :=
  {| total_cost :=
       charge_verification check_for_price v
         (charge check_for_price r3
            (charge check_for_price r2
               (charge check_for_price r1 (total_cost s))));
     calls :=
       calls s
       ++ [returned high_model prompt_ check_for_price r1;
           returned high_model prompt_ check_for_price r2;
           returned high_model prompt_ check_for_price r3;
           returned budget_model
             (validation_prompt prompt_
                [response r1; response r2; response r3])
             check_for_price v] |}.

(** What the function makes of the way the loop ended: the result of an
    attempt, the failure dictionary, or the exception of the fifth
    attempt. *)
Definition finish {C : Type} (vendor_ prompt_ : pystr)
    (check_for_price : bool) (high_model : pystr)
    (r : outcome (option (result_dict C)) * state C)
  : outcome (result_dict C) * state C :=
  match r with
  | (Ok (Some res), s) => (Ok res, s)
  | (Ok None, s) =>
      (Ok (failure_result vendor_ prompt_ check_for_price high_model
             (total_cost s)), s)
  | (Raised e, s) => (Raised e, s)
  end.

(** The vendor is allowed and the loop over the registry leaves
    [high_model] and [budget_model], both non-empty names. *)
Definition resolves {C : Type} (cfg : model_config C) (vendor_ : pystr)
    (high_model budget_model : pystr) : Prop :=
  existsb (pystr_eqb vendor_) allowed_vendors = true
  /\ find_models cfg vendor_ = (Some high_model, Some budget_model)
  /\ high_model <> [] /\ budget_model <> [].

(** *** Accounting of a run *)

Section Vocabulary.
Context {C : Type} `{Number C}.
Variable rt : router C.
Variable prompt_ : pystr.
Variable check_for_price : bool.

(** A verification that came back without a text: a call that asked
    another prompt than the original one and whose result has [None] for
    [response]. Reading it raises before its cost is looked at. *)
Definition unread (c : call C) : bool :=
  negb (pystr_eqb (call_prompt c) prompt_)
  && match call_outcome c with
     | Ok r => match response r with None => true | Some _ => false end
     | Raised _ => false
     end.

(** The calls whose result the loop read to the end. *)
Definition read (new : list (call C)) : list (call C) :=
  filter (fun c => negb (unread c)) new.

(** The costs [add_cost] takes from a list of calls. *)
Definition charged (new : list (call C)) : list C :=
  if check_for_price then reported_costs (read new) else [].

(** The calls [new], made as the calls number [n], [n+1], ... of the
    invocation, record what the router answered. *)
Fixpoint faithful (n : nat) (new : list (call C)) : Prop :=
  match new with
  | [] => True
  | c :: new' =>
      (call_outcome c = rt n (call_model c) (call_prompt c) check_for_price
       /\ call_check_for_price c = check_for_price)
      /\ faithful (S n) new'
  end.

(** [s'] comes from [s] by at most [k] router calls, each recorded as
    answered, and each reported cost added to the total in order. *)
Definition extends (k : nat) (s s' : state C) : Prop :=
  exists new,
    calls s' = calls s ++ new
    /\ total_cost s' = fold_left nadd (charged new) (total_cost s)
    /\ faithful (List.length (calls s)) new
    /\ (List.length new <= k)%nat.

Definition preserves (k : nat) {A : Type} (m : M C A) : Prop :=
  forall s, extends k s (snd (m s)).
End Vocabulary.

(** The router of [main.py]: [APIRouter(logger)] over the loaded
    configuration, called with [model_name], [prompt] and
    [check_for_price] only, so with the defaults [system_message=None],
    [temperature=0.7] and [max_tokens=None]. The providers answer by the
    number of the call. *)
Definition library_router {C : Type} `{Number C} (cfg : model_config C)
    (openai_create :
       nat -> OpenAIClient.api_params -> outcome OpenAIClient.completion)
    (anthropic : nat -> adapter C)
    (gemini_generate :
       nat -> pystr -> GeminiClient.generation_config -> pystr ->
       outcome GeminiClient.generation)
  : router C :=
  fun n model_name p check_for_price =>
    APIRouter.communicate_with_ai
      (OpenAIClient.call_api cfg (openai_create n))
      (anthropic n)
      (GeminiClient.call_api cfg (gemini_generate n))
      cfg model_name p None (7 # 10)%Q None check_for_price.

(** ** Scenarios *)

(** A router that answers the calls of an invocation from a script. *)
Definition scripted {C : Type} (script : list (outcome (result_dict C)))
  : router C :=
  fun n _ _ _ => nth n script (Raised (Exception (lit "script exhausted"))).

Definition answer {C : Type} (t : string) (c : option C)
  : outcome (result_dict C) :=
  Ok {| prompt := None; response := Some (lit t); model_used := lit "mock";
        finish_reason := lit "stop"; attempts := None; cost := c |}.

Definition entry {C : Type} `{Number C} (name vendor_ id role : string)
    (price_in price_out : Z) : pystr * model_info C :=
  (lit name,
   {| vendor := lit vendor_; vendor_model_id := lit id; type := lit role;
      price_per_input_tokens := num price_in;
      price_per_output_tokens := num price_out |}).

(** A registry with one high and one budget model for Gemini and OpenAI. *)
Definition demo_config {C : Type} `{Number C} : model_config C :=
  [ entry "gpt4" "OpenAI" "gpt-4" "high" 3 6;
    entry "gpt35" "OpenAI" "gpt-3.5-turbo" "budget" 1 2;
    entry "gemini25pro" "Gemini" "gemini-2.5-pro" "high" 2 4;
    entry "gemini25flash" "Gemini" "gemini-2.5-flash" "budget" 1 1;
    entry "gemini15flash" "Gemini" "gemini-1.5-flash" "none" 1 1 ].

(** A registry with two high models for Gemini. *)
Definition two_high_config {C : Type} `{Number C} : model_config C :=
  [ entry "gemini25pro" "Gemini" "gemini-2.5-pro" "high" 2 4;
    entry "gemini15pro" "Gemini" "gemini-1.5-pro" "high" 2 4;
    entry "gemini25flash" "Gemini" "gemini-2.5-flash" "budget" 1 1 ].

(** A registry without a budget model for Gemini. *)
Definition no_budget_config {C : Type} `{Number C} : model_config C :=
  [ entry "gemini25pro" "Gemini" "gemini-2.5-pro" "high" 2 4;
    entry "gpt35" "OpenAI" "gpt-3.5-turbo" "budget" 1 2 ].

Definition capital_prompt : pystr := lit "What is the capital of France?".

Definition paris {C : Type} `{Number C} : outcome (result_dict C) :=
  answer "Paris" (Some (num 3)).

Definition berlin {C : Type} `{Number C} : outcome (result_dict C) :=
  answer "Berlin" (Some (num 3)).

Definition broken {C : Type} : outcome (result_dict C) :=
  Raised (Exception (lit "API call failed for model 'gemini25pro' (vendor: Gemini): Gemini API call failed: 503")).

(** Three equal samples, confirmed by the budget model. *)
Definition script_validated {C : Type} `{Number C}
  : list (outcome (result_dict C)) :=
  [paris; paris; paris; answer "Paris" (Some (num 1))].

(** Three equal samples; the budget model's answer ends with a newline. *)
Definition script_trailing_newline {C : Type} `{Number C}
  : list (outcome (result_dict C)) :=
  [paris; paris; paris;
   Ok {| prompt := None; response := Some (lit "Paris" ++ newline);
         model_used := lit "mock"; finish_reason := lit "stop";
         attempts := None; cost := Some (num 1) |}].

(** The budget model answers the sentinel followed by a newline, then
    confirms in the second attempt. *)
Definition script_padded_sentinel {C : Type} `{Number C}
  : list (outcome (result_dict C)) :=
  [paris; paris; paris;
   Ok {| prompt := None; response := Some (FALSE_sentinel ++ newline);
         model_used := lit "mock"; finish_reason := lit "stop";
         attempts := None; cost := Some (num 1) |};
   paris; paris; paris; answer "Paris" (Some (num 1))].

(** Five attempts, each rejected by the budget model. *)
Definition script_exhausted {C : Type} `{Number C}
  : list (outcome (result_dict C)) :=
  List.concat
    (repeat [paris; paris; paris; answer "%FALSE%" (Some (num 1))] 5).

(** A failing first call, three attempts without consensus, and a
    failing call in the fifth attempt. *)
Definition script_broken {C : Type} `{Number C}
  : list (outcome (result_dict C)) :=
  [broken;
   paris; berlin; paris;
   paris; paris; berlin;
   berlin; paris; paris;
   paris; broken].

(** Answers of which only some carry a cost. *)
Definition script_partial_costs {C : Type} `{Number C}
  : list (outcome (result_dict C)) :=
  [answer "Paris" None; paris; answer "Paris" None;
   answer "Paris" (Some (num 1))].

(** A router that gives the same answer to every call. *)
Definition fixed {C : Type} (o : outcome (result_dict C)) : router C :=
  fun _ _ _ _ => o.

(** A router that answers by the model asked: one answer for the high
    model, another for every other model. *)
Definition by_model {C : Type} (high_model : pystr)
    (sample verdict : outcome (result_dict C)) : router C :=
  fun _ model_name _ _ =>
    if pystr_eqb model_name high_model then sample else verdict.

(** A router whose answer to the call number [n] is a text of [n]
    letters. *)
Definition counting {C : Type} `{Number C} : router C :=
  fun n _ _ _ =>
    Ok {| prompt := None; response := Some (repeat 97%N n);
          model_used := lit "mock"; finish_reason := lit "stop";
          attempts := None; cost := Some (num 1) |}.

(** A Gemini provider that always generates ["Paris"], cut off by the
    token limit. *)
Definition gemini_paris (n : nat) (model_id : pystr)
    (config : GeminiClient.generation_config) (full_prompt : pystr)
  : outcome GeminiClient.generation :=
  Ok {| GeminiClient.text := lit "Paris";
        GeminiClient.candidate_finish_reason := lit "MAX_TOKENS";
        GeminiClient.reply_usage := None |}.

(** An OpenAI provider that answers ["Paris"] and reports its usage. *)
Definition openai_paris (n : nat) (params : OpenAIClient.api_params)
  : outcome OpenAIClient.completion :=
  Ok {| OpenAIClient.content := Some (lit "Paris");
        OpenAIClient.choice_finish_reason := lit "stop";
        OpenAIClient.usage :=
          Some {| OpenAIClient.prompt_tokens := 14;
                  OpenAIClient.completion_tokens := 2 |} |}.

(** A Gemini provider whose reply reports the token counts it used. *)
Definition gemini_with_usage (n : nat) (model_id : pystr)
    (config : GeminiClient.generation_config) (full_prompt : pystr)
  : outcome GeminiClient.generation :=
  Ok {| GeminiClient.text := lit "Paris";
        GeminiClient.candidate_finish_reason := lit "STOP";
        GeminiClient.reply_usage :=
          Some {| GeminiClient.prompt_token_count := 8;
                  GeminiClient.candidates_token_count := 2 |} |}.

(** An OpenAI provider whose reply has no usage report. *)
Definition openai_without_usage (n : nat) (params : OpenAIClient.api_params)
  : outcome OpenAIClient.completion :=
  Ok {| OpenAIClient.content := Some (lit "Paris");
        OpenAIClient.choice_finish_reason := lit "stop";
        OpenAIClient.usage := None |}.

(** An OpenAI provider that answers ["Paris"], except to the call number
    3 of the invocation, the verification of the first attempt: that
    reply has no text. Every reply reports its usage. *)
Definition openai_no_content (n : nat) (params : OpenAIClient.api_params)
  : outcome OpenAIClient.completion :=
  Ok {| OpenAIClient.content :=
          if (n =? 3)%nat then None else Some (lit "Paris");
        OpenAIClient.choice_finish_reason :=
          if (n =? 3)%nat then lit "content_filter" else lit "stop";
        OpenAIClient.usage :=
          Some {| OpenAIClient.prompt_tokens := 14;
                  OpenAIClient.completion_tokens := 2 |} |}.

(** An OpenAI provider that answers ["Paris"] and reports its usage; its
    replies to the verifications of the first two attempts, the calls
    number 3 and 7, have no text. *)
Definition openai_no_content_twice (n : nat)
    (params : OpenAIClient.api_params) : outcome OpenAIClient.completion :=
  Ok {| OpenAIClient.content :=
          if ((n =? 3) || (n =? 7))%nat then None else Some (lit "Paris");
        OpenAIClient.choice_finish_reason :=
          if ((n =? 3) || (n =? 7))%nat then lit "content_filter"
          else lit "stop";
        OpenAIClient.usage :=
          Some {| OpenAIClient.prompt_tokens := 14;
                  OpenAIClient.completion_tokens := 2 |} |}.

(** Answers of which the first and the third carry no cost; the
    verification of the first attempt comes back without a text and with
    a cost; the second attempt is confirmed. *)
Definition script_unread_verification {C : Type} `{Number C}
  : list (outcome (result_dict C)) :=
  [answer "Paris" None; paris; answer "Paris" None;
   Ok {| prompt := None; response := None; model_used := lit "mock";
         finish_reason := lit "content_filter"; attempts := None;
         cost := Some (num 1) |};
   paris; paris; paris; answer "Paris" (Some (num 1))].

(** An adapter that is never reached. *)
Definition no_adapter {C : Type} (n : nat) : adapter C :=
  fun _ _ _ _ _ _ => Raised (Exception (lit "not configured")).

(** ** main.py: [ai_call_simple] *)

(** [ai_call_simple(model_name, prompt, check_for_price)]: the router is
    constructed and called once, the first call of the invocation; the
    dictionary that comes back gets the key [prompt]; no exception is
    caught. *)
Definition ai_call_simple {C : Type} (new_router : construction C)
    (model_name prompt_ : pystr) (check_for_price : bool)
  : outcome (result_dict C) :=
  match new_router with
  | Raised e => Raised e
  | Ok (_, rt) =>
      match rt 0%nat model_name prompt_ check_for_price with
      | Ok result =>
          Ok {| prompt := Some prompt_;
                response := response result;
                model_used := model_used result;
                finish_reason := finish_reason result;
                attempts := attempts result;
                cost := cost result |}
      | Raised e => Raised e
      end
  end.

(** ** api_router.py: the read accessors *)

(** A dictionary from strings to values, in insertion order. *)
Definition dict (A : Type) : Type := list (pystr * A).

(** [d.get(k)] *)
Fixpoint dict_get {A : Type} (d : dict A) (k : pystr) : option A :=
  match d with
  | [] => None
  | (k', x) :: d' => if pystr_eqb k' k then Some x else dict_get d' k
  end.

(** [k in d] *)
Definition dict_mem {A : Type} (d : dict A) (k : pystr) : bool :=
  match dict_get d k with
  | Some _ => true
  | None => false
  end.

(** [d[k].append(x)] for a key [k] of [d]; the key keeps its place. *)
Fixpoint dict_append {A : Type} (d : dict (list A)) (k : pystr) (x : A)
  : dict (list A) :=
  match d with
  | [] => []
  | (k', l) :: d' =>
      if pystr_eqb k' k then (k', l ++ [x]) :: d'
      else (k', l) :: dict_append d' k x
  end.

(** [APIRouter.list_available_models]: the model names grouped by
    vendor. *)
Definition list_available_models {C : Type} (cfg : model_config C)
  : dict (list pystr) :=
  fold_left
    (fun (models_by_vendor : dict (list pystr))
         (item : pystr * model_info C) =>
       let (model_name, info) := item in
       let vendor_ := vendor info in
       let models_by_vendor :=
         if negb (dict_mem models_by_vendor vendor_)
         then models_by_vendor ++ [(vendor_, [])]
         else models_by_vendor in
       dict_append models_by_vendor vendor_ model_name)
    cfg [].

(** [APIRouter.get_model_info] *)
Definition get_model_info {C : Type} (cfg : model_config C)
    (model_name : pystr) : outcome (model_info C) :=
  APIRouter._get_model_info cfg model_name.

(** The names of the models of a vendor, in the order of the registry. *)
Definition models_of {C : Type} (cfg : model_config C) (vendor_ : pystr)
  : list pystr :=
  map fst (filter (fun item => pystr_eqb (vendor (snd item)) vendor_) cfg).

(** What the router makes of the outcome of the adapter it called: a
    result is passed on, an exception is raised again as an [Exception]
    that names the model and the vendor. *)
Definition routed {C : Type} (model_name vendor_ : pystr)
    (o : outcome (result_dict C)) : outcome (result_dict C) :=
  match o with
  | Ok r => Ok r
  | Raised e =>
      Raised (Exception
        (lit "API call failed for model '" ++ model_name
         ++ lit "' (vendor: " ++ vendor_ ++ lit "): " ++ str_exn e))
  end.

(** The routers [rt] and [rt'] give the same answers to the calls number
    [a] to [b - 1] of an invocation. *)
Definition same_answers {C : Type} (rt rt' : router C)
    (check_for_price : bool) (a b : nat) : Prop :=
  forall n model_name p,
    (a <= n < b)%nat ->
    rt' n model_name p check_for_price = rt n model_name p check_for_price.

(** The [try:] of an adapter ended by [e0]: the provider raised it, or
    the provider replied and reading the reply raised it. *)
Definition try_failed {R A : Type} (reply : outcome R)
    (read : R -> outcome A) (e0 : exn) : Prop :=
  reply = Raised e0
  \/ exists resp, reply = Ok resp /\ read resp = Raised e0.

(** *** The cost rule, as the specification words it *)

(** The token counts of the specification's rule: those of the
    provider's usage report when the reply has one, otherwise the number
    of characters of each text divided by 4, rounded down. *)
Definition spec_token_counts (reported : option (Z * Z))
    (input_text output_text : pystr) : Z * Z :=
  match reported with
  | Some counts => counts
  | None => ((len input_text / 4)%Z, (len output_text / 4)%Z)
  end.

(** [input_tokens * price_in + output_tokens * price_out], when both
    counts convert to floats. *)
Definition spec_cost {C : Type} `{Number C} (info : model_info C)
    (counts : Z * Z) : option C :=
  match of_int (fst counts), of_int (snd counts) with
  | Some i, Some o =>
      Some (nadd (nmul i (price_per_input_tokens info))
              (nmul o (price_per_output_tokens info)))
  | _, _ => None
  end.

(** *** The calls of an attempt *)

Section CallShapes.
Context {C : Type}.
Variables (prompt_ : pystr) (check_for_price : bool).
Variables (high_model budget_model : pystr).

(** A sample: the high model is asked the original prompt. *)
Definition is_sample (c : call C) : Prop :=
  call_model c = high_model /\ call_prompt c = prompt_
  /\ call_check_for_price c = check_for_price.

(** The call came back with the text [t], a string or [None]. *)
Definition answered_with (t : option pystr) (c : call C) : Prop :=
  exists r, call_outcome c = Ok r /\ response r = t.

(** A verification of the text [t]: the budget model is asked the
    validation prompt built from the original prompt and three times
    [t]. *)
Definition is_verification (t : option pystr) (c : call C) : Prop :=
  call_model c = budget_model
  /\ call_prompt c = validation_prompt prompt_ [t; t; t]
  /\ call_check_for_price c = check_for_price.

(** The calls of one attempt: one to three samples, then at most one
    verification, which comes only after three samples that came back
    with the same text, and verifies that text. *)
Definition attempt_calls (g : list (call C)) : Prop :=
  exists samples verifications,
    g = samples ++ verifications
    /\ Forall is_sample samples
    /\ (1 <= List.length samples <= 3)%nat
    /\ (List.length verifications <= 1)%nat
    /\ (forall c,
          In c verifications ->
          List.length samples = 3%nat
          /\ exists t, Forall (answered_with t) samples
                       /\ is_verification t c).
End CallShapes.

(** * Properties *)

(** ** Strings *)

Lemma pystr_eqb_eq (a b : pystr) : pystr_eqb a b = true <-> a = b.
Proof.
  unfold pystr_eqb. destruct (pystr_eq_dec a b); split; congruence.
Qed.

Lemma pystr_eqb_neq (a b : pystr) : pystr_eqb a b = false <-> a <> b.
Proof.
  unfold pystr_eqb. destruct (pystr_eq_dec a b); split; congruence.
Qed.

Lemma pystr_eqb_refl (a : pystr) : pystr_eqb a a = true.
Proof. now apply pystr_eqb_eq. Qed.

(** [len(set([a, b, c])) == 1] is the equality of the three. *)
Lemma len_set_three (a b c : option pystr) :
  (len_set [a; b; c] =? 1)%nat = true <-> a = b /\ b = c.
Proof.
  unfold len_set. rewrite Nat.eqb_eq. simpl.
  destruct (optstr_eq_dec b a) as [Hba|Hba];
    destruct (optstr_eq_dec c a) as [Hca|Hca];
    destruct (optstr_eq_dec c b) as [Hcb|Hcb];
    cbn; (split; [intros Hx | intros [Hx Hy]]);
    solve [ discriminate | split; congruence | reflexivity
          | exfalso; congruence ].
Qed.

Lemma strip_sentinel : strip FALSE_sentinel = FALSE_sentinel.
Proof. reflexivity. Qed.

(** The validation prompt is never the original prompt: it contains it
    and more. *)
Lemma validation_prompt_neq (p : pystr) (responses : list (option pystr)) :
  validation_prompt p responses <> p.
Proof.
  intros Heq. apply (f_equal (@List.length N)) in Heq.
  unfold validation_prompt in Heq.
  repeat (rewrite length_app in Heq; simpl in Heq). lia.
Qed.

(** ** Accounting: what a run adds to the calls and to the total *)

Lemma reported_costs_app {C : Type} (l1 l2 : list (call C)) :
  reported_costs (l1 ++ l2) = reported_costs l1 ++ reported_costs l2.
Proof.
  induction l1 as [|c l1 IH]; simpl; [reflexivity|].
  destruct (reported_cost c); simpl; now rewrite IH.
Qed.

Section Accounting.
Context {C : Type} `{Number C}.
Variable rt : router C.
Variables (prompt_ : pystr) (check_for_price : bool).
Variables (high_model budget_model : pystr).

Local Abbreviation charged := (charged prompt_ check_for_price).
Local Abbreviation faithful := (faithful rt check_for_price).
Local Abbreviation extends := (extends rt prompt_ check_for_price).
Local Abbreviation preserves := (preserves rt prompt_ check_for_price).

Lemma charged_app (l1 l2 : list (call C)) :
  charged (l1 ++ l2) = charged l1 ++ charged l2.
Proof.
  unfold charged, read. destruct check_for_price; [|reflexivity].
  rewrite filter_app. apply reported_costs_app.
Qed.

Lemma faithful_app (n : nat) (l1 l2 : list (call C)) :
  faithful n (l1 ++ l2) <-> faithful n l1 /\ faithful (n + List.length l1) l2.
Proof.
  revert n. induction l1 as [|c l1 IH]; intros n; simpl.
  - rewrite Nat.add_0_r. tauto.
  - rewrite IH. replace (S n + List.length l1)%nat
      with (n + S (List.length l1))%nat by lia. tauto.
Qed.

Lemma extends_refl (s : state C) : extends 0 s s.
Proof.
  exists []. rewrite app_nil_r. unfold charged.
  destruct check_for_price; simpl; auto.
Qed.

Lemma extends_weaken (k k' : nat) (s s' : state C) :
  (k <= k')%nat -> extends k s s' -> extends k' s s'.
Proof.
  intros Hk (new & Hc & Ht & Hf & Hl). exists new. repeat split; auto. lia.
Qed.

Lemma extends_trans (k1 k2 : nat) (s1 s2 s3 : state C) :
  extends k1 s1 s2 -> extends k2 s2 s3 -> extends (k1 + k2) s1 s3.
Proof.
  intros (n1 & Hc1 & Ht1 & Hf1 & Hl1) (n2 & Hc2 & Ht2 & Hf2 & Hl2).
  exists (n1 ++ n2). repeat split.
  - rewrite Hc2, Hc1. now rewrite app_assoc.
  - rewrite Ht2, Ht1, charged_app. now rewrite fold_left_app.
  - apply faithful_app. split; [assumption|].
    rewrite Hc1, length_app in Hf2. exact Hf2.
  - rewrite length_app. lia.
Qed.

Lemma preserves_weaken (k k' : nat) (A : Type) (m : M C A) :
  (k <= k')%nat -> preserves k m -> preserves k' m.
Proof. intros Hk Hm s. eapply extends_weaken; eauto. Qed.

Lemma preserves_ret (A : Type) (a : A) : preserves 0 (ret (C := C) a).
Proof. intros s. apply extends_refl. Qed.

Lemma preserves_raise (A : Type) (e : exn) :
  preserves 0 (raise (C := C) (A := A) e).
Proof. intros s. apply extends_refl. Qed.

Lemma preserves_get : preserves 0 (get (C := C)).
Proof. intros s. apply extends_refl. Qed.

Lemma preserves_bind (k1 k2 : nat) (A B : Type) (m : M C A) (f : A -> M C B) :
  preserves k1 m -> (forall a, preserves k2 (f a)) ->
  preserves (k1 + k2) (bind m f).
Proof.
  intros Hm Hf s. unfold bind. specialize (Hm s).
  destruct (m s) as [[a|e] s1]; simpl in *.
  - eapply extends_trans; [exact Hm|apply Hf].
  - eapply extends_weaken; [|exact Hm]. lia.
Qed.

Lemma preserves_try_except (k1 k2 : nat) (A : Type) (body : M C A)
    (handler : exn -> M C A) :
  preserves k1 body -> (forall e, preserves k2 (handler e)) ->
  preserves (k1 + k2) (try_except body handler).
Proof.
  intros Hm Hf s. unfold try_except. specialize (Hm s).
  destruct (body s) as [[a|e] s1]; simpl in *.
  - eapply extends_weaken; [|exact Hm]. lia.
  - eapply extends_trans; [exact Hm|apply Hf].
Qed.

(** A router call followed by [add_cost] on its result. *)
Lemma call_step (A : Type) (model_name p : pystr)
    (f : result_dict C -> M C A) (s : state C) :
  bind (communicate rt check_for_price model_name p)
    (fun r => bind (add_cost check_for_price r) (fun _ => f r)) s
  = match rt (List.length (calls s)) model_name p check_for_price with
    | Ok r =>
        f r {| total_cost := charge check_for_price r (total_cost s);
               calls := calls s
                        ++ [returned model_name p check_for_price r] |}
    | Raised e =>
        (Raised e,
         {| total_cost := total_cost s;
            calls := calls s ++ [failed model_name p check_for_price e] |})
    end.
Proof.
  unfold bind, communicate, add_cost, charge, returned, failed.
  destruct (rt (List.length (calls s)) model_name p check_for_price) as [r|e];
    [|reflexivity].
  destruct check_for_price; [destruct (cost r)|]; reflexivity.
Qed.

(** A call whose result is read to the end: a sample, or a verification
    that carries a text. *)
Lemma extends_returned (model_name p : pystr) (r : result_dict C)
    (s : state C) :
  p = prompt_ \/ response r <> None ->
  rt (List.length (calls s)) model_name p check_for_price = Ok r ->
  extends 1 s
    {| total_cost := charge check_for_price r (total_cost s);
       calls := calls s ++ [returned model_name p check_for_price r] |}.
Proof.
  intros Hread Hr. exists [returned model_name p check_for_price r].
  simpl. repeat split; auto.
  assert (Hu : unread prompt_ (returned model_name p check_for_price r)
               = false).
  { unfold unread. simpl. destruct Hread as [->|Hread].
    - now rewrite pystr_eqb_refl.
    - destruct (response r); [apply andb_false_r|congruence]. }
  unfold charged, read, charge. simpl. rewrite Hu. simpl.
  unfold reported_cost. simpl.
  destruct check_for_price; [destruct (cost r)|]; reflexivity.
Qed.

(** A verification that came back without a text: its cost is not
    added. *)
Lemma extends_unread (model_name p : pystr) (r : result_dict C)
    (s : state C) :
  p <> prompt_ -> response r = None ->
  rt (List.length (calls s)) model_name p check_for_price = Ok r ->
  extends 1 s
    {| total_cost := total_cost s;
       calls := calls s ++ [returned model_name p check_for_price r] |}.
Proof.
  intros Hp Hnone Hr. exists [returned model_name p check_for_price r].
  simpl. repeat split; auto.
  assert (Hu : unread prompt_ (returned model_name p check_for_price r)
               = true).
  { unfold unread. simpl. rewrite Hnone.
    apply pystr_eqb_neq in Hp. now rewrite Hp. }
  unfold charged, read. simpl. rewrite Hu.
  destruct check_for_price; reflexivity.
Qed.

Lemma extends_failed (model_name p : pystr) (e : exn) (s : state C) :
  rt (List.length (calls s)) model_name p check_for_price = Raised e ->
  extends 1 s
    {| total_cost := total_cost s;
       calls := calls s ++ [failed model_name p check_for_price e] |}.
Proof.
  intros Hr. exists [failed model_name p check_for_price e].
  simpl. repeat split; auto.
  unfold charged, read, unread. simpl. rewrite andb_false_r. simpl.
  destruct check_for_price; reflexivity.
Qed.

(** A sample. *)
Lemma preserves_call (k : nat) (A : Type) (model_name : pystr)
    (f : result_dict C -> M C A) :
  (forall r, preserves k (f r)) ->
  preserves (1 + k)
    (bind (communicate rt check_for_price model_name prompt_)
       (fun r => bind (add_cost check_for_price r) (fun _ => f r))).
Proof.
  intros Hf s. rewrite call_step.
  destruct (rt (List.length (calls s)) model_name prompt_ check_for_price)
    as [r|e] eqn:Hr.
  - eapply extends_trans;
      [apply extends_returned with (r := r); [now left|exact Hr]|apply Hf].
  - simpl. eapply extends_weaken; [|apply extends_failed; exact Hr]. lia.
Qed.

(** The verification call, [strip] on its text, and [add_cost] on its
    result. *)
Lemma verify_step (A : Type) (model_name p : pystr)
    (f : result_dict C -> pystr -> M C A) (s : state C) :
  bind (communicate rt check_for_price model_name p)
    (fun r => bind (strip_of (response r))
       (fun t => bind (add_cost check_for_price r) (fun _ => f r t))) s
  = match rt (List.length (calls s)) model_name p check_for_price with
    | Ok r =>
        match response r with
        | Some t =>
            f r (strip t)
              {| total_cost := charge check_for_price r (total_cost s);
                 calls := calls s
                          ++ [returned model_name p check_for_price r] |}
        | None =>
            (Raised (no_attribute "strip"),
             {| total_cost := total_cost s;
                calls := calls s
                         ++ [returned model_name p check_for_price r] |})
        end
    | Raised e =>
        (Raised e,
         {| total_cost := total_cost s;
            calls := calls s ++ [failed model_name p check_for_price e] |})
    end.
Proof.
  unfold bind, communicate, add_cost, charge, returned, failed, strip_of.
  destruct (rt (List.length (calls s)) model_name p check_for_price) as [r|e];
    [|reflexivity].
  destruct (response r); [|reflexivity]. unfold ret.
  destruct check_for_price; [destruct (cost r)|]; reflexivity.
Qed.

Lemma preserves_verify (k : nat) (A : Type) (model_name p : pystr)
    (f : result_dict C -> pystr -> M C A) :
  p <> prompt_ ->
  (forall r t, preserves k (f r t)) ->
  preserves (1 + k)
    (bind (communicate rt check_for_price model_name p)
       (fun r => bind (strip_of (response r))
          (fun t => bind (add_cost check_for_price r) (fun _ => f r t)))).
Proof.
  intros Hp Hf s. rewrite verify_step.
  destruct (rt (List.length (calls s)) model_name p check_for_price)
    as [r|e] eqn:Hr.
  - destruct (response r) as [t|] eqn:Ht.
    + eapply extends_trans;
        [apply extends_returned with (r := r); [right; congruence|exact Hr]
        |apply Hf].
    + simpl. eapply extends_weaken; [|apply extends_unread; eauto]. lia.
  - simpl. eapply extends_weaken; [|apply extends_failed; exact Hr]. lia.
Qed.

Lemma preserves_sample (range : list nat)
    (responses : list (option pystr)) :
  preserves (List.length range)
    (sample rt prompt_ check_for_price high_model range responses).
Proof.
  revert responses. induction range as [|i range IH]; intros responses.
  - apply preserves_ret.
  - simpl sample. apply (preserves_call (k := List.length range)).
    intros r. apply IH.
Qed.

Lemma preserves_attempt_body (attempt : nat) :
  preserves 4
    (attempt_body rt prompt_ check_for_price high_model budget_model attempt).
Proof.
  unfold attempt_body.
  apply (preserves_bind (k1 := 3) (k2 := 1)); [apply preserves_sample|].
  intros responses. destruct (len_set responses =? 1)%nat.
  - apply preserves_verify with (k := 0%nat)
      (f := fun r t =>
              if pystr_eqb t FALSE_sentinel then ret None else _).
    + apply validation_prompt_neq.
    + intros r t. destruct (pystr_eqb t FALSE_sentinel).
      * apply preserves_ret.
      * apply (preserves_bind (k1 := 0) (k2 := 0)); [apply preserves_get|].
        intros s0. apply preserves_ret.
  - apply (preserves_weaken (k := 0)); [lia|apply preserves_ret].
Qed.

Lemma preserves_attempt_step (attempt : nat) :
  preserves 4
    (attempt_step rt prompt_ check_for_price high_model budget_model attempt).
Proof.
  unfold attempt_step.
  apply (preserves_try_except (k1 := 4) (k2 := 0));
    [apply preserves_attempt_body|].
  intros e. destruct (attempt =? 4)%nat;
    [apply preserves_raise|apply preserves_ret].
Qed.

Lemma preserves_attempts_loop (range : list nat) :
  preserves (4 * List.length range)
    (attempts_loop rt prompt_ check_for_price high_model budget_model range).
Proof.
  induction range as [|a range IH].
  - apply preserves_ret.
  - simpl attempts_loop.
    apply (preserves_weaken (k := 4 + 4 * List.length range));
      [simpl; lia|].
    apply preserves_bind; [apply preserves_attempt_step|].
    intros [res|]; [|exact IH].
    apply (preserves_weaken (k := 0)); [lia|apply preserves_ret].
Qed.

Lemma preserves_validate (vendor_ : pystr) :
  preserves 20
    (validate rt vendor_ prompt_ check_for_price high_model budget_model).
Proof.
  unfold validate.
  apply (preserves_bind (k1 := 20) (k2 := 0));
    [apply (preserves_attempts_loop (seq 0 5))|].
  intros [res|]; [apply preserves_ret|].
  apply (preserves_bind (k1 := 0) (k2 := 0)); [apply preserves_get|].
  intros s0. apply preserves_ret.
Qed.
End Accounting.

(** ** One attempt *)

Section Attempt.
Context {C : Type} `{Number C}.
Variable rt : router C.
Variables (prompt_ : pystr) (check_for_price : bool).
Variables (high_model budget_model : pystr).

Local Abbreviation sampling := (sample rt prompt_ check_for_price high_model).
Local Abbreviation body :=
  (attempt_body rt prompt_ check_for_price high_model budget_model).
Local Abbreviation step :=
  (attempt_step rt prompt_ check_for_price high_model budget_model).
Local Abbreviation sampled := (returned high_model prompt_ check_for_price).
Local Abbreviation verified_state :=
  (after_verification prompt_ check_for_price high_model budget_model).

(** One round of the sampling loop, followed by the rest of the attempt. *)
Lemma sample_bind (A : Type) (i : nat) (range : list nat)
    (responses : list (option pystr))
    (K : list (option pystr) -> M C A) (s : state C) :
  bind (sampling (i :: range) responses) K s
  = match rt (List.length (calls s)) high_model prompt_ check_for_price with
    | Ok r =>
        bind (sampling range (responses ++ [response r])) K
          {| total_cost := charge check_for_price r (total_cost s);
             calls := calls s ++ [sampled r] |}
    | Raised e =>
        (Raised e,
         {| total_cost := total_cost s;
            calls := calls s
                     ++ [failed high_model prompt_ check_for_price e] |})
    end.
Proof.
  unfold bind at 1. simpl sample. rewrite call_step.
  destruct (rt (List.length (calls s)) high_model prompt_ check_for_price);
    reflexivity.
Qed.

(** The attempt in which the three samples come back and agree, and the
    verification call comes back. *)
Lemma attempt_body_verdict (attempt : nat) (s : state C)
    (r1 r2 r3 v : result_dict C) :
  let n := List.length (calls s) in
  rt n high_model prompt_ check_for_price = Ok r1 ->
  rt (n + 1) high_model prompt_ check_for_price = Ok r2 ->
  rt (n + 2) high_model prompt_ check_for_price = Ok r3 ->
  response r1 = response r2 -> response r2 = response r3 ->
  rt (n + 3) budget_model
     (validation_prompt prompt_ [response r1; response r2; response r3])
     check_for_price = Ok v ->
  body attempt s
  = (verdict prompt_ check_for_price high_model budget_model attempt v
       (total_cost (verified_state s r1 r2 r3 v)),
     verified_state s r1 r2 r3 v).
Proof.
  intros n H1 H2 H3 E12 E23 Hv. subst n.
  unfold attempt_body. simpl seq.
  rewrite sample_bind, H1. rewrite sample_bind. cbn [calls total_cost].
  rewrite length_app. cbn [List.length]. rewrite H2.
  rewrite sample_bind. cbn [calls total_cost].
  rewrite !length_app. cbn [List.length].
  replace (List.length (calls s) + 1 + 1)%nat
    with (List.length (calls s) + 2)%nat by lia.
  rewrite H3. unfold bind at 1. cbn [sample ret app].
  assert (Hset : (len_set [response r1; response r2; response r3] =? 1)%nat
                 = true) by (apply len_set_three; auto).
  rewrite Hset.
  etransitivity.
  { apply verify_step with
    (f := fun r t =>
            if pystr_eqb t FALSE_sentinel
            then ret None
            else bind get (fun s0 =>
                   ret (Some (validated_result prompt_ check_for_price
                                high_model budget_model attempt
                                t (total_cost s0))))). }
  cbn [calls total_cost]. rewrite !length_app. cbn [List.length].
  replace (List.length (calls s) + 1 + 1 + 1)%nat
    with (List.length (calls s) + 3)%nat by lia.
  rewrite Hv. unfold after_verification, verdict, charge_verification.
  rewrite <- !app_assoc. cbn [app].
  destruct (response v) as [t|]; [|reflexivity].
  destruct (pystr_eqb (strip t) FALSE_sentinel); reflexivity.
Qed.

(** The same attempt when the verification carries a text. *)
Lemma attempt_body_agree (attempt : nat) (s : state C)
    (r1 r2 r3 v : result_dict C) (t : pystr) :
  let n := List.length (calls s) in
  rt n high_model prompt_ check_for_price = Ok r1 ->
  rt (n + 1) high_model prompt_ check_for_price = Ok r2 ->
  rt (n + 2) high_model prompt_ check_for_price = Ok r3 ->
  response r1 = response r2 -> response r2 = response r3 ->
  rt (n + 3) budget_model
     (validation_prompt prompt_ [response r1; response r2; response r3])
     check_for_price = Ok v ->
  response v = Some t ->
  body attempt s
  = (if pystr_eqb (strip t) FALSE_sentinel then Ok None
     else Ok (Some (validated_result prompt_ check_for_price high_model
                      budget_model attempt (strip t)
                      (total_cost (verified_state s r1 r2 r3 v)))),
     verified_state s r1 r2 r3 v).
Proof.
  intros n H1 H2 H3 E12 E23 Hv Ht.
  rewrite (attempt_body_verdict attempt s H1 H2 H3 E12 E23 Hv).
  unfold verdict. now rewrite Ht.
Qed.

(** The same attempt when the verification carries no text: [strip]
    raises, and the cost of the verification is not added. *)
Lemma attempt_body_no_text (attempt : nat) (s : state C)
    (r1 r2 r3 v : result_dict C) :
  let n := List.length (calls s) in
  rt n high_model prompt_ check_for_price = Ok r1 ->
  rt (n + 1) high_model prompt_ check_for_price = Ok r2 ->
  rt (n + 2) high_model prompt_ check_for_price = Ok r3 ->
  response r1 = response r2 -> response r2 = response r3 ->
  rt (n + 3) budget_model
     (validation_prompt prompt_ [response r1; response r2; response r3])
     check_for_price = Ok v ->
  response v = None ->
  body attempt s
  = (Raised (no_attribute "strip"), verified_state s r1 r2 r3 v)
  /\ total_cost (verified_state s r1 r2 r3 v)
     = charge check_for_price r3
         (charge check_for_price r2
            (charge check_for_price r1 (total_cost s))).
Proof.
  intros n H1 H2 H3 E12 E23 Hv Ht.
  rewrite (attempt_body_verdict attempt s H1 H2 H3 E12 E23 Hv).
  unfold verdict, after_verification, charge_verification.
  rewrite Ht. split; reflexivity.
Qed.

(** An attempt returns from the function only through the double gate:
    three samples that came back and agree, and a verification answer
    that came back with a text that is not the sentinel once stripped. *)
Lemma attempt_body_returns (attempt : nat) (s s' : state C)
    (res : result_dict C) :
  body attempt s = (Ok (Some res), s') ->
  exists r1 r2 r3 v t,
    let n := List.length (calls s) in
    rt n high_model prompt_ check_for_price = Ok r1
    /\ rt (n + 1) high_model prompt_ check_for_price = Ok r2
    /\ rt (n + 2) high_model prompt_ check_for_price = Ok r3
    /\ response r1 = response r2 /\ response r2 = response r3
    /\ rt (n + 3) budget_model
         (validation_prompt prompt_ [response r1; response r2; response r3])
         check_for_price = Ok v
    /\ response v = Some t
    /\ strip t <> FALSE_sentinel
    /\ s' = verified_state s r1 r2 r3 v
    /\ res = validated_result prompt_ check_for_price high_model
               budget_model attempt (strip t) (total_cost s').
Proof.
  destruct (rt (List.length (calls s)) high_model prompt_ check_for_price)
    as [r1|e1] eqn:H1;
    [|unfold attempt_body; simpl seq; rewrite sample_bind, H1; discriminate].
  destruct (rt (List.length (calls s) + 1) high_model prompt_ check_for_price)
    as [r2|e2] eqn:H2.
  2:{ unfold attempt_body; simpl seq. rewrite sample_bind, H1, sample_bind.
      cbn [calls total_cost]. rewrite length_app. cbn [List.length].
      rewrite H2. discriminate. }
  destruct (rt (List.length (calls s) + 2) high_model prompt_ check_for_price)
    as [r3|e3] eqn:H3.
  2:{ unfold attempt_body; simpl seq. rewrite sample_bind, H1, sample_bind.
      cbn [calls total_cost]. rewrite length_app. cbn [List.length].
      rewrite H2, sample_bind. cbn [calls total_cost].
      rewrite !length_app. cbn [List.length].
      replace (List.length (calls s) + 1 + 1)%nat
        with (List.length (calls s) + 2)%nat by lia.
      rewrite H3. discriminate. }
  destruct (len_set [response r1; response r2; response r3] =? 1)%nat
    eqn:Hset.
  2:{ unfold attempt_body; simpl seq. rewrite sample_bind, H1, sample_bind.
      cbn [calls total_cost]. rewrite length_app. cbn [List.length].
      rewrite H2, sample_bind. cbn [calls total_cost].
      rewrite !length_app. cbn [List.length].
      replace (List.length (calls s) + 1 + 1)%nat
        with (List.length (calls s) + 2)%nat by lia.
      rewrite H3. unfold bind at 1. cbn [sample ret app].
      rewrite Hset. discriminate. }
  apply len_set_three in Hset. destruct Hset as [E12 E23].
  destruct (rt (List.length (calls s) + 3) budget_model
              (validation_prompt prompt_
                 [response r1; response r2; response r3])
              check_for_price) as [v|ev] eqn:Hv.
  - rewrite (attempt_body_verdict attempt s H1 H2 H3 E12 E23 Hv).
    unfold verdict. destruct (response v) as [t|] eqn:Ht; [|discriminate].
    destruct (pystr_eqb (strip t) FALSE_sentinel) eqn:Hs;
      [discriminate|].
    intros Hrun. injection Hrun as Hres Hs'.
    exists r1, r2, r3, v, t. cbv zeta.
    apply pystr_eqb_neq in Hs. subst s'. repeat split; auto.
  - unfold attempt_body; simpl seq. rewrite sample_bind, H1, sample_bind.
    cbn [calls total_cost]. rewrite length_app. cbn [List.length].
    rewrite H2, sample_bind. cbn [calls total_cost].
    rewrite !length_app. cbn [List.length].
    replace (List.length (calls s) + 1 + 1)%nat
      with (List.length (calls s) + 2)%nat by lia.
    rewrite H3. unfold bind at 1. cbn [sample ret app].
    assert (Hset : (len_set [response r1; response r2; response r3] =? 1)%nat
                   = true) by (apply len_set_three; auto).
    rewrite Hset.
    unfold bind, communicate. cbn [calls total_cost].
    rewrite !length_app. cbn [List.length].
    replace (List.length (calls s) + 1 + 1 + 1)%nat
      with (List.length (calls s) + 3)%nat by lia.
    rewrite Hv. discriminate.
Qed.
End Attempt.

(** ** The loop over the attempts *)

Section Loop.
Context {C : Type} `{Number C}.
Variable rt : router C.
Variables (vendor_ prompt_ : pystr) (check_for_price : bool).
Variables (high_model budget_model : pystr).

Local Abbreviation body :=
  (attempt_body rt prompt_ check_for_price high_model budget_model).
Local Abbreviation step :=
  (attempt_step rt prompt_ check_for_price high_model budget_model).
Local Abbreviation loop :=
  (attempts_loop rt prompt_ check_for_price high_model budget_model).
Local Abbreviation run_validate :=
  (validate rt vendor_ prompt_ check_for_price high_model budget_model).

Lemma attempt_step_ok (attempt : nat) (s s' : state C)
    (r : option (result_dict C)) :
  body attempt s = (Ok r, s') -> step attempt s = (Ok r, s').
Proof. intros Hb. unfold attempt_step, try_except. now rewrite Hb. Qed.

(** The handler of every attempt but the fifth swallows the exception. *)
Lemma attempt_step_absorbs (attempt : nat) (s s' : state C) (e : exn) :
  attempt <> 4%nat -> body attempt s = (Raised e, s') ->
  step attempt s = (Ok None, s').
Proof.
  intros Ha Hb. unfold attempt_step, try_except. rewrite Hb.
  apply Nat.eqb_neq in Ha. now rewrite Ha.
Qed.

(** The handler of the fifth attempt raises the exception again. *)
Lemma attempt_step_last (s s' : state C) (e : exn) :
  body 4 s = (Raised e, s') -> step 4 s = (Raised e, s').
Proof. intros Hb. unfold attempt_step, try_except. now rewrite Hb. Qed.

Lemma attempt_step_some (attempt : nat) (s s' : state C)
    (res : result_dict C) :
  step attempt s = (Ok (Some res), s') -> body attempt s = (Ok (Some res), s').
Proof.
  unfold attempt_step, try_except.
  destruct (body attempt s) as [[r|e] s1]; [auto|].
  destruct (attempt =? 4)%nat; discriminate.
Qed.

Lemma attempt_step_raised (attempt : nat) (s s' : state C) (e : exn) :
  step attempt s = (Raised e, s') ->
  attempt = 4%nat /\ body attempt s = (Raised e, s').
Proof.
  unfold attempt_step, try_except.
  destruct (body attempt s) as [[r|e0] s1]; [discriminate|].
  destruct (attempt =? 4)%nat eqn:Ha; [|discriminate].
  apply Nat.eqb_eq in Ha. intros Hx. injection Hx as -> ->. auto.
Qed.

Lemma attempts_loop_cons (attempt : nat) (range : list nat) (s : state C) :
  loop (attempt :: range) s
  = match step attempt s with
    | (Ok (Some res), s1) => (Ok (Some res), s1)
    | (Ok None, s1) => loop range s1
    | (Raised e, s1) => (Raised e, s1)
    end.
Proof.
  simpl attempts_loop. unfold bind.
  destruct (step attempt s) as [[[res|]|e] s1]; reflexivity.
Qed.

(** The loop over [l1 ++ l2] runs [l2] when [l1] ended without a result. *)
Lemma attempts_loop_app (l1 l2 : list nat) (s s1 : state C) :
  loop l1 s = (Ok None, s1) -> loop (l1 ++ l2) s = loop l2 s1.
Proof.
  revert s. induction l1 as [|a l1 IH]; intros s.
  - simpl. unfold ret. intros Hx. now injection Hx as ->.
  - rewrite <- app_comm_cons, !attempts_loop_cons.
    destruct (step a s) as [[[res|]|e] s2]; try discriminate. apply IH.
Qed.

(** A result of the loop is the result of one attempt, begun when the
    attempts before it had all ended without one. *)
Lemma attempts_loop_returns (range : list nat) (s s' : state C)
    (res : result_dict C) :
  loop range s = (Ok (Some res), s') ->
  exists l1 attempt l2 s1,
    range = l1 ++ attempt :: l2
    /\ loop l1 s = (Ok None, s1)
    /\ body attempt s1 = (Ok (Some res), s').
Proof.
  revert s. induction range as [|a range IH]; intros s.
  - discriminate.
  - rewrite attempts_loop_cons.
    destruct (step a s) as [[[r|]|e] s2] eqn:Hs; try discriminate.
    + intros Hx. injection Hx as -> ->.
      exists [], a, range, s. repeat split. now apply attempt_step_some.
    + intros Hx. destruct (IH _ Hx) as (l1 & b & l2 & s1 & -> & Hl & Hb).
      exists (a :: l1), b, l2, s1. repeat split; auto.
      rewrite attempts_loop_cons, Hs. exact Hl.
Qed.

(** An exception leaves the loop only from the attempt with index 4. *)
Lemma attempts_loop_raised (range : list nat) (s s' : state C) (e : exn) :
  loop range s = (Raised e, s') ->
  exists l1 l2 s1,
    range = l1 ++ 4%nat :: l2
    /\ loop l1 s = (Ok None, s1)
    /\ body 4 s1 = (Raised e, s').
Proof.
  revert s. induction range as [|a range IH]; intros s.
  - discriminate.
  - rewrite attempts_loop_cons.
    destruct (step a s) as [[[r|]|e0] s2] eqn:Hs; try discriminate.
    + intros Hx. destruct (IH _ Hx) as (l1 & l2 & s1 & -> & Hl & Hb).
      exists (a :: l1), l2, s1. repeat split; auto.
      rewrite attempts_loop_cons, Hs. exact Hl.
    + intros Hx. injection Hx as -> ->.
      apply attempt_step_raised in Hs. destruct Hs as [-> Hb].
      exists [], range, s. repeat split. exact Hb.
Qed.

Lemma validate_run (s : state C) :
  run_validate s
  = match loop (seq 0 5) s with
    | (Ok (Some res), s1) => (Ok res, s1)
    | (Ok None, s1) =>
        (Ok (failure_result vendor_ prompt_ check_for_price high_model
               (total_cost s1)), s1)
    | (Raised e, s1) => (Raised e, s1)
    end.
Proof.
  unfold validate, bind.
  destruct (loop (seq 0 5) s) as [[[res|]|e] s1]; reflexivity.
Qed.
End Loop.

(** The position of an element of [seq 0 n] is the element. *)
Lemma seq_split (n a : nat) (l1 l2 : list nat) :
  seq 0 n = l1 ++ a :: l2 ->
  a = List.length l1 /\ (a < n)%nat /\ l1 = seq 0 a
  /\ l2 = seq (S a) (n - S a).
Proof.
  intros Hs.
  assert (Hlen : List.length (seq 0 n) = List.length (l1 ++ a :: l2))
    by now rewrite Hs.
  rewrite length_seq, length_app in Hlen. simpl in Hlen.
  assert (Ha : a = List.length l1).
  { assert (Hn : nth (List.length l1) (seq 0 n) 0%nat = a)
      by (rewrite Hs, nth_middle; reflexivity).
    rewrite seq_nth in Hn by lia. simpl in Hn. congruence. }
  split; [exact Ha|]. split; [lia|].
  assert (Hsplit : seq 0 n = seq 0 a ++ a :: seq (S a) (n - S a)).
  { replace n with (a + S (n - S a))%nat at 1 by lia.
    rewrite seq_app. simpl. reflexivity. }
  rewrite Hsplit in Hs.
  assert (Hl : List.length (seq 0 a) = List.length l1)
    by (rewrite length_seq; exact Ha).
  destruct (app_eq_app _ _ _ _ Hs) as [l [[H1 H2]|[H1 H2]]].
  - assert (l = []) as ->.
    { apply (f_equal (@List.length nat)) in H1.
      rewrite length_app in H1. destruct l; [reflexivity|simpl in H1; lia]. }
    rewrite app_nil_r in H1. simpl in H2. split; congruence.
  - assert (l = []) as ->.
    { apply (f_equal (@List.length nat)) in H1.
      rewrite length_app in H1. destruct l; [reflexivity|simpl in H1; lia]. }
    rewrite app_nil_r in H1. simpl in H2. split; congruence.
Qed.

(** ** The whole call *)

Section Call.
Context {C : Type} `{Number C}.
Variable cfg : model_config C.
Variable rt : router C.
Variables (vendor_ prompt_ : pystr) (check_for_price : bool).

Local Abbreviation run := (ai_call_checked (constructed cfg rt)
    vendor_ prompt_ check_for_price).

(** The call either stops on its configuration, before any router call,
    or runs the loop with the two models found. *)
Lemma ai_call_checked_inv :
  (exists msg, run = (Raised (ValueError msg), initial_state))
  \/ (exists high_model budget_model,
        find_models cfg vendor_ = (Some high_model, Some budget_model)
        /\ run = validate rt vendor_ prompt_ check_for_price high_model
                   budget_model initial_state).
Proof.
  unfold ai_call_checked, constructed.
  destruct (negb (existsb (pystr_eqb vendor_) allowed_vendors));
    [left; eauto|].
  destruct (find_models cfg vendor_) as [[[|c h]|] [[|c' b]|]];
    try (left; eexists; reflexivity).
  right. exists (c :: h), (c' :: b). auto.
Qed.

(** Whatever the outcome, the final state accounts for at most twenty
    router calls made from the initial state. *)
Lemma ai_call_checked_extends :
  extends rt prompt_ check_for_price 20 initial_state (snd run).
Proof.
  destruct ai_call_checked_inv as [(msg & ->)|(hm & bm & _ & ->)].
  - simpl. eapply extends_weaken; [|apply extends_refl]. lia.
  - apply preserves_validate.
Qed.

(** A returned dictionary is the result of an attempt or the failure
    dictionary built after five attempts without one. *)
Lemma ai_call_checked_returns (res : result_dict C) (s' : state C) :
  run = (Ok res, s') ->
  exists high_model budget_model,
    find_models cfg vendor_ = (Some high_model, Some budget_model)
    /\ ((exists attempt s1,
           (attempt < 5)%nat
           /\ attempts_loop rt prompt_ check_for_price high_model budget_model
                (seq 0 attempt) initial_state = (Ok None, s1)
           /\ attempt_body rt prompt_ check_for_price high_model budget_model
                attempt s1 = (Ok (Some res), s'))
        \/ (attempts_loop rt prompt_ check_for_price high_model budget_model
              (seq 0 5) initial_state = (Ok None, s')
            /\ res = failure_result vendor_ prompt_ check_for_price high_model
                       (total_cost s'))).
Proof.
  destruct ai_call_checked_inv as [(msg & ->)|(hm & bm & Hf & ->)];
    [discriminate|].
  rewrite validate_run.
  destruct (attempts_loop rt prompt_ check_for_price hm bm (seq 0 5)
              initial_state) as [[[r|]|e] s1] eqn:Hl; try discriminate.
  - intros Hx. injection Hx as -> ->. exists hm, bm. split; [exact Hf|].
    left. apply attempts_loop_returns in Hl.
    destruct Hl as (l1 & a & l2 & s0 & Hsplit & Hl1 & Hb).
    apply seq_split in Hsplit. destruct Hsplit as (_ & Ha & -> & _).
    exists a, s0. auto.
  - intros Hx. injection Hx as <- ->. exists hm, bm. split; [exact Hf|].
    right. auto.
Qed.
End Call.

Lemma validated_not_failed :
  lit "validation_failed" <> lit "validated".
Proof. discriminate. Qed.

(** C1. A result with status [validated] comes from an attempt in which
    the three samples of the high model came back with the same text and
    the budget model's verification answer came back different from the
    sentinel [%FALSE%]: these are the last four router calls of the run,
    made in the attempt the [attempts] field names, after the attempts
    before it had ended without a result. *)
Theorem validated_only_after_consensus_and_verification
    {C : Type} `{Number C} (cfg : model_config C) (rt : router C)
    (vendor_ prompt_ : pystr) (check_for_price : bool)
    (res : result_dict C) (s' : state C) :
  ai_call_checked (constructed cfg rt)
      vendor_ prompt_ check_for_price = (Ok res, s') ->
  finish_reason res = lit "validated" ->
  exists high_model budget_model attempt s1 earlier r1 r2 r3 v t,
    find_models cfg vendor_ = (Some high_model, Some budget_model)
    /\ attempts_loop rt prompt_ check_for_price high_model budget_model
         (seq 0 attempt) initial_state = (Ok None, s1)
    /\ attempts res = Some (Z.of_nat attempt + 1)%Z
    /\ earlier = calls s1
    /\ calls s'
       = earlier
         ++ [returned high_model prompt_ check_for_price r1;
             returned high_model prompt_ check_for_price r2;
             returned high_model prompt_ check_for_price r3;
             returned budget_model
               (validation_prompt prompt_
                  [response r1; response r2; response r3])
               check_for_price v]
    /\ rt (List.length earlier) high_model prompt_ check_for_price = Ok r1
    /\ rt (List.length earlier + 1) high_model prompt_ check_for_price = Ok r2
    /\ rt (List.length earlier + 2) high_model prompt_ check_for_price = Ok r3
    /\ rt (List.length earlier + 3) budget_model
         (validation_prompt prompt_ [response r1; response r2; response r3])
         check_for_price = Ok v
    /\ response r1 = response r2 /\ response r2 = response r3
    /\ response v = Some t
    /\ t <> FALSE_sentinel
    /\ strip t <> FALSE_sentinel.
Proof.
  intros Hrun Hfin.
  destruct (ai_call_checked_returns _ _ _ _ _ Hrun)
    as (hm & bm & Hf & [(a & s1 & Ha & Hl & Hb)|(Hl & ->)]).
  - apply attempt_body_returns in Hb.
    destruct Hb as (r1 & r2 & r3 & v & t & H1 & H2 & H3 & E12 & E23 & Hv
                    & Ht & Hs & -> & ->).
    exists hm, bm, a, s1, (calls s1), r1, r2, r3, v, t.
    repeat split; auto.
    intros Heq. apply Hs. rewrite Heq. apply strip_sentinel.
  - exfalso. exact (validated_not_failed Hfin).
Qed.

(** The run of the first scenario: consensus on ["Paris"], confirmed. *)
Lemma validated_only_after_consensus_and_verification_witness :
  exists res s' high_model budget_model earlier r1 r2 r3 v,
    ai_call_checked (C := float)
        (constructed demo_config (scripted script_validated))
      (lit "Gemini") capital_prompt true = (Ok res, s')
    /\ finish_reason res = lit "validated"
    /\ find_models (C := float) demo_config (lit "Gemini")
       = (Some high_model, Some budget_model)
    /\ calls s'
       = earlier
         ++ [returned high_model capital_prompt true r1;
             returned high_model capital_prompt true r2;
             returned high_model capital_prompt true r3;
             returned budget_model
               (validation_prompt capital_prompt
                  [response r1; response r2; response r3]) true v]
    /\ response r1 = response r2 /\ response r2 = response r3
    /\ response v <> Some FALSE_sentinel.
Proof.
  eexists. eexists.
  assert (Hrun : ai_call_checked (C := float) (constructed demo_config
                   (scripted script_validated)) (lit "Gemini")
                   capital_prompt true
                 = (Ok (validated_result capital_prompt true
                          (lit "gemini25pro") (lit "gemini25flash") 0
                          (lit "Paris") 10%float),
                    {| total_cost := 10%float;
                       calls := map (fun o => {| call_model := fst o;
                                                 call_prompt := fst (snd o);
                                                 call_check_for_price := true;
                                                 call_outcome := snd (snd o) |})
                         [(lit "gemini25pro", (capital_prompt, paris));
                          (lit "gemini25pro", (capital_prompt, paris));
                          (lit "gemini25pro", (capital_prompt, paris));
                          (lit "gemini25flash",
                           (validation_prompt capital_prompt
                              [Some (lit "Paris"); Some (lit "Paris");
                               Some (lit "Paris")],
                            answer "Paris" (Some 1%float)))] |}))
    by (vm_compute; reflexivity).
  destruct (validated_only_after_consensus_and_verification
              demo_config (scripted script_validated) (lit "Gemini")
              capital_prompt true Hrun eq_refl)
    as (hm & bm & a & s1 & earlier & r1 & r2 & r3 & v & t & Hf & _ & _ & _
        & Hc & _ & _ & _ & _ & E12 & E23 & Ht & Hv & _).
  exists hm, bm, earlier, r1, r2, r3, v.
  split; [exact Hrun|]. split; [reflexivity|].
  repeat split; auto. rewrite Ht. congruence.
Defined.

Lemma validate_finish {C : Type} `{Number C} (rt : router C)
    (vendor_ prompt_ : pystr) (check_for_price : bool)
    (high_model budget_model : pystr) (s : state C) :
  validate rt vendor_ prompt_ check_for_price high_model budget_model s
  = finish vendor_ prompt_ check_for_price high_model
      (attempts_loop rt prompt_ check_for_price high_model budget_model
         (seq 0 5) s).
Proof. rewrite validate_run. unfold finish. reflexivity. Qed.

(** With both models found the call is the loop and what follows it. *)
Lemma resolves_run {C : Type} `{Number C} (cfg : model_config C)
    (rt : router C) (vendor_ prompt_ : pystr) (check_for_price : bool)
    (high_model budget_model : pystr) :
  resolves cfg vendor_ high_model budget_model ->
  ai_call_checked (constructed cfg rt) vendor_ prompt_ check_for_price
  = finish vendor_ prompt_ check_for_price high_model
      (attempts_loop rt prompt_ check_for_price high_model budget_model
         (seq 0 5) initial_state).
Proof.
  intros (Hv & Hf & Hh & Hb). unfold ai_call_checked, constructed.
  rewrite Hv, Hf. simpl negb. cbv iota.
  destruct high_model as [|c h]; [congruence|].
  destruct budget_model as [|c' b]; [congruence|].
  apply validate_finish.
Qed.

(** A dictionary is returned only when the router was constructed. *)
Lemma returned_only_when_constructed {C : Type} `{Number C}
    (new_router : construction C) (vendor_ prompt_ : pystr)
    (check_for_price : bool) (res : result_dict C) :
  fst (ai_call_checked new_router vendor_ prompt_ check_for_price) = Ok res ->
  exists cfg rt, new_router = constructed cfg rt.
Proof.
  destruct new_router as [[cfg rt]|e]; [intros _; now exists cfg, rt|].
  unfold ai_call_checked.
  destruct (negb (existsb (pystr_eqb vendor_) allowed_vendors)); discriminate.
Qed.

(** C6. The [attempts] field of every returned dictionary is between 1
    and 5, and it is 5 when the status is [validation_failed]; the loop is
    finite: a run makes at most twenty router calls, however it ends. *)
Theorem attempts_between_one_and_five
    {C : Type} `{Number C} (new_router : construction C)
    (vendor_ prompt_ : pystr) (check_for_price : bool) :
  let run := ai_call_checked new_router vendor_ prompt_ check_for_price in
  (List.length (calls (snd run)) <= 20)%nat
  /\ forall res : result_dict C,
       fst run = Ok res ->
       exists k : Z,
         attempts res = Some k /\ (1 <= k <= 5)%Z
         /\ (finish_reason res = lit "validation_failed" -> k = 5%Z).
Proof.
  intros run. destruct new_router as [[cfg rt]|e0].
  2:{ subst run. unfold ai_call_checked.
      destruct (negb (existsb (pystr_eqb vendor_) allowed_vendors));
        (split; [simpl; lia|discriminate]). }
  change (Ok (cfg, rt)) with (constructed cfg rt) in run. split.
  - destruct (ai_call_checked_extends cfg rt vendor_ prompt_ check_for_price)
      as (new & Hc & _ & _ & Hl).
    fold run in Hc. rewrite Hc. simpl. exact Hl.
  - intros res Hres.
    assert (Hrun : run = (Ok res, snd run))
      by (destruct run; simpl in *; congruence).
    destruct (ai_call_checked_returns _ _ _ _ _ Hrun)
      as (hm & bm & Hf & [(a & s1 & Ha & Hl & Hb)|(Hl & Heq)]).
    + apply attempt_body_returns in Hb.
      destruct Hb as (r1 & r2 & r3 & v & t & _ & _ & _ & _ & _ & _ & _ & _
                      & _ & ->).
      exists (Z.of_nat a + 1)%Z. simpl. split; [reflexivity|].
      split; [lia|]. intros Hx. symmetry in Hx.
      exfalso. exact (validated_not_failed Hx).
    + exists 5%Z. rewrite Heq. simpl. repeat split; auto; lia.
Qed.

(** The exhausted run: five rejected attempts, twenty calls. *)
Lemma attempts_between_one_and_five_witness :
  let run := ai_call_checked (C := float)
               (constructed demo_config (scripted script_exhausted))
               (lit "Gemini") capital_prompt true in
  exists res k,
    fst run = Ok res /\ finish_reason res = lit "validation_failed"
    /\ attempts res = Some k /\ (1 <= k <= 5)%Z /\ k = 5%Z
    /\ (List.length (calls (snd run)) <= 20)%nat.
Proof.
  intros run.
  destruct (attempts_between_one_and_five (C := float)
              (constructed demo_config (scripted script_exhausted))
              (lit "Gemini") capital_prompt true)
    as [Hcalls Hres].
  fold run in Hcalls, Hres.
  assert (Hrun : fst run
                 = Ok (failure_result (lit "Gemini") capital_prompt true
                         (lit "gemini25pro") (total_cost (snd run))))
    by (vm_compute; reflexivity).
  destruct (Hres _ Hrun) as (k & Hk & Hrange & Hfive).
  eexists. exists k. split; [exact Hrun|].
  split; [reflexivity|]. split; [exact Hk|]. split; [exact Hrange|].
  split; [apply Hfive; reflexivity|exact Hcalls].
Defined.

(** ** Resolution of the models *)

Lemma find_models_rev {C : Type} (l : model_config C) (vendor_ : pystr) :
  find_models (rev l) vendor_
  = (first_with_role l vendor_ (lit "high"),
     first_with_role l vendor_ (lit "budget")).
Proof.
  unfold first_with_role.
  induction l as [|[name info] l IH]; [reflexivity|].
  unfold find_models in *. cbn [rev find]. rewrite fold_left_app, IH.
  cbn [fold_left].
  change (has_role vendor_ (lit "high") (name, info))
    with (pystr_eqb (vendor info) vendor_
          && pystr_eqb (type info) (lit "high")).
  change (has_role vendor_ (lit "budget") (name, info))
    with (pystr_eqb (vendor info) vendor_
          && pystr_eqb (type info) (lit "budget")).
  destruct (pystr_eqb (vendor info) vendor_); cbn [andb]; [|reflexivity].
  destruct (pystr_eqb (type info) (lit "high")) eqn:Hh.
  - apply pystr_eqb_eq in Hh. rewrite Hh. reflexivity.
  - destruct (pystr_eqb (type info) (lit "budget")); reflexivity.
Qed.

(** The loop over the registry keeps, for each role, the last model of
    the vendor with that role. *)
Lemma find_models_last {C : Type} (cfg : model_config C) (vendor_ : pystr) :
  find_models cfg vendor_
  = (last_with_role cfg vendor_ (lit "high"),
     last_with_role cfg vendor_ (lit "budget")).
Proof.
  unfold last_with_role. rewrite <- find_models_rev.
  now rewrite rev_involutive.
Qed.

(** C5, as the code has it. Before the loop the call resolves each role
    to the last model of the registry with the vendor and the role. For a
    vendor of the allow list that lacks a high model, or else lacks a
    budget model, it raises the error of the missing role in the initial
    state: no router call was made and the total is zero. ([truthy] is
    false of a role without a model, and of one whose last model has the
    empty name.) Otherwise it runs the loop with the two models resolved. *)
Theorem models_resolved_before_loop
    {C : Type} `{Number C} (cfg : model_config C) (rt : router C)
    (vendor_ prompt_ : pystr) (check_for_price : bool) :
  existsb (pystr_eqb vendor_) allowed_vendors = true ->
  let high_model := last_with_role cfg vendor_ (lit "high") in
  let budget_model := last_with_role cfg vendor_ (lit "budget") in
  let run := ai_call_checked (constructed cfg rt)
      vendor_ prompt_ check_for_price in
  find_models cfg vendor_ = (high_model, budget_model)
  /\ (truthy high_model = false ->
      run = (Raised (ValueError (no_high_msg vendor_)), initial_state))
  /\ (truthy high_model = true -> truthy budget_model = false ->
      run = (Raised (ValueError (no_budget_msg vendor_)), initial_state))
  /\ (forall h b,
        high_model = Some h -> budget_model = Some b ->
        h <> [] -> b <> [] ->
        run = validate rt vendor_ prompt_ check_for_price h b initial_state)
  /\ calls (initial_state (C := C)) = []
  /\ total_cost (initial_state (C := C)) = nzero.
Proof.
  intros Hv high_model budget_model run.
  pose proof (find_models_last cfg vendor_) as Hf.
  fold high_model budget_model in Hf.
  split; [exact Hf|]. subst run. unfold ai_call_checked, constructed.
  rewrite Hv, Hf. cbn [negb].
  repeat split.
  - intros Ht. destruct high_model as [[|c h]|]; try discriminate;
      reflexivity.
  - intros Ht Hb. destruct high_model as [[|c h]|]; try discriminate.
    destruct budget_model as [[|c' b]|]; try discriminate; reflexivity.
  - intros h b -> -> Hh Hb.
    destruct h as [|c h]; [congruence|].
    destruct b as [|c' b]; [congruence|]. reflexivity.
Qed.

(** Gemini without a budget model: the error of the missing role, no
    call. *)
Lemma models_resolved_before_loop_witness :
  ai_call_checked (C := float)
      (constructed no_budget_config (scripted script_validated))
    (lit "Gemini") capital_prompt true
  = (Raised (ValueError (no_budget_msg (lit "Gemini"))), initial_state)
  /\ calls (initial_state (C := float)) = [].
Proof.
  destruct (models_resolved_before_loop (C := float) no_budget_config
              (scripted script_validated) (lit "Gemini") capital_prompt true
              eq_refl)
    as (_ & _ & Hb & _ & Hc & _).
  split; [|exact Hc]. apply Hb; reflexivity.
Defined.

(** C5 as the specification words it fails: with two high models for the
    vendor, the first of the registry is [gemini25pro], and the samples
    are asked of [gemini15pro]. And a vendor outside the allow list that
    has no high model is refused as not allowed, which is not the error
    of a missing role. *)
Lemma first_model_with_role_counterexample :
  let run := ai_call_checked (C := float) (constructed two_high_config
               (scripted script_validated)) (lit "Gemini") capital_prompt true in
  let refused := ai_call_checked (C := float) (constructed demo_config
                   (scripted script_validated)) (lit "DeepSeek")
                   capital_prompt true in
  (first_with_role (C := float) demo_config (lit "DeepSeek") (lit "high")
   = None
   /\ fst refused = Raised (ValueError (not_allowed_msg (lit "DeepSeek")))
   /\ not_allowed_msg (lit "DeepSeek") <> no_high_msg (lit "DeepSeek")
   /\ not_allowed_msg (lit "DeepSeek") <> no_budget_msg (lit "DeepSeek"))
  /\ first_with_role (C := float) two_high_config (lit "Gemini") (lit "high")
  = Some (lit "gemini25pro")
  /\ fst (find_models (C := float) two_high_config (lit "Gemini"))
     = Some (lit "gemini15pro")
  /\ map (@call_model float) (calls (snd run))
     = [lit "gemini15pro"; lit "gemini15pro"; lit "gemini15pro";
        lit "gemini25flash"]
  /\ fst (find_models (C := float) two_high_config (lit "Gemini"))
     <> first_with_role (C := float) two_high_config (lit "Gemini")
          (lit "high").
Proof.
  repeat split; try (vm_compute; reflexivity); vm_compute; discriminate.
Qed.

(** ** The decision of an attempt *)

(** C2, as the code has it. When the three samples agree and the
    verification call comes back, the attempt is rejected, and the loop
    goes on with the next attempt, exactly when the verification answer
    with leading and trailing white space removed equals [%FALSE%];
    otherwise the attempt returns the result. *)
Theorem rejected_iff_stripped_sentinel
    {C : Type} `{Number C} (rt : router C) (prompt_ : pystr)
    (check_for_price : bool) (high_model budget_model : pystr)
    (attempt : nat) (range : list nat) (s : state C)
    (r1 r2 r3 v : result_dict C) (t : pystr) :
  let n := List.length (calls s) in
  rt n high_model prompt_ check_for_price = Ok r1 ->
  rt (n + 1) high_model prompt_ check_for_price = Ok r2 ->
  rt (n + 2) high_model prompt_ check_for_price = Ok r3 ->
  response r1 = response r2 -> response r2 = response r3 ->
  rt (n + 3) budget_model
     (validation_prompt prompt_ [response r1; response r2; response r3])
     check_for_price = Ok v ->
  response v = Some t ->
  let s4 := after_verification prompt_ check_for_price high_model
              budget_model s r1 r2 r3 v in
  let loop := attempts_loop rt prompt_ check_for_price high_model
                budget_model in
  (attempt_step rt prompt_ check_for_price high_model budget_model attempt s
   = (Ok None, s4)
   <-> strip t = FALSE_sentinel)
  /\ (strip t = FALSE_sentinel ->
      loop (attempt :: range) s = loop range s4)
  /\ (strip t <> FALSE_sentinel ->
      loop (attempt :: range) s
      = (Ok (Some (validated_result prompt_ check_for_price high_model
                     budget_model attempt (strip t)
                     (total_cost s4))), s4)).
Proof.
  intros n H1 H2 H3 E12 E23 Hv Ht s4 loop.
  pose proof (attempt_body_agree rt prompt_ check_for_price high_model
                budget_model attempt s H1 H2 H3 E12 E23 Hv Ht) as Hb.
  fold s4 in Hb. subst loop. rewrite attempts_loop_cons.
  destruct (pystr_eqb (strip t) FALSE_sentinel) eqn:Hs;
    apply attempt_step_ok in Hb; rewrite Hb.
  - apply pystr_eqb_eq in Hs. repeat split; auto. intros Hn. contradiction.
  - apply pystr_eqb_neq in Hs. repeat split; auto.
    + intros Hx. discriminate.
    + intros Hx. contradiction.
    + intros Hx. contradiction.
Qed.

(** The budget model answers the sentinel followed by a newline in the
    first attempt: the loop goes on with the second. *)
Lemma rejected_iff_stripped_sentinel_witness :
  let rt := scripted (C := float) script_padded_sentinel in
  let loop := attempts_loop rt capital_prompt true (lit "gemini25pro")
                (lit "gemini25flash") in
  exists s4, loop [0; 1; 2; 3; 4]%nat initial_state = loop [1; 2; 3; 4]%nat s4
             /\ List.length (calls s4) = 4%nat.
Proof.
  intros rt loop. eexists. split.
  - refine (proj1 (proj2
      (rejected_iff_stripped_sentinel rt capital_prompt true
         (lit "gemini25pro") (lit "gemini25flash") 0 [1; 2; 3; 4]%nat
         initial_state (r1 := _) (r2 := _) (r3 := _) (v := _) (t := _)
         eq_refl eq_refl eq_refl eq_refl eq_refl eq_refl eq_refl)) eq_refl).
  - reflexivity.
Defined.

(** C2 as the specification words it fails: the verification answer
    [%FALSE%] followed by a newline is not the sentinel, and the attempt
    is rejected all the same; the result comes from the second attempt. *)
Lemma rejected_iff_exact_sentinel_counterexample :
  let rt := scripted (C := float) script_padded_sentinel in
  let verification := FALSE_sentinel ++ newline in
  (exists v,
     rt 3%nat (lit "gemini25flash")
        (validation_prompt capital_prompt
           [Some (lit "Paris"); Some (lit "Paris"); Some (lit "Paris")])
        true = Ok v
     /\ response v = Some verification)
  /\ verification <> FALSE_sentinel
  /\ fst (attempt_step rt capital_prompt true (lit "gemini25pro")
            (lit "gemini25flash") 0 initial_state) = Ok None
  /\ List.length
       (calls (snd (attempt_step rt capital_prompt true (lit "gemini25pro")
                      (lit "gemini25flash") 0 initial_state))) = 4%nat
  /\ exists res,
       fst (ai_call_checked (constructed demo_config rt)
           (lit "Gemini") capital_prompt true)
       = Ok res
       /\ attempts res = Some 2%Z.
Proof.
  intros rt verification. split; [|split; [|split; [|split]]].
  - eexists. split; reflexivity.
  - vm_compute. discriminate.
  - vm_compute. reflexivity.
  - vm_compute. reflexivity.
  - eexists. split; vm_compute; reflexivity.
Qed.

Lemma seq_cut (a n : nat) :
  (a < n)%nat -> seq 0 n = seq 0 a ++ a :: seq (S a) (n - S a).
Proof.
  intros Ha. replace n with (a + S (n - S a))%nat at 1 by lia.
  rewrite seq_app. reflexivity.
Qed.

(** The total of the final state is the sum of the costs charged for the
    calls of the run. *)
Lemma total_cost_is_sum {C : Type} `{Number C} (cfg : model_config C)
    (rt : router C) (vendor_ prompt_ : pystr) (check_for_price : bool) :
  let s' := snd (ai_call_checked (constructed cfg rt)
      vendor_ prompt_ check_for_price) in
  total_cost s' = sum_costs (charged prompt_ check_for_price (calls s')).
Proof.
  intros s'.
  destruct (ai_call_checked_extends cfg rt vendor_ prompt_ check_for_price)
    as (new & Hc & Ht & _ & _).
  fold s' in Hc, Ht. simpl in Hc, Ht. rewrite Hc. exact Ht.
Qed.

(** C3, as the code has it. When the attempts before attempt
    [attempt + 1] ended without a result and that attempt has consensus
    and a verification answer that, stripped, is not the sentinel, the
    call returns the stripped verification answer of the budget model,
    with status [validated], [attempts = attempt + 1] and, when a price
    was asked for, the total accumulated so far, which is the sum of the
    costs of the calls whose result was read. *)
Theorem success_returns_stripped_verification
    {C : Type} `{Number C} (cfg : model_config C) (rt : router C)
    (vendor_ prompt_ : pystr) (check_for_price : bool)
    (high_model budget_model : pystr) (attempt : nat) (s1 : state C)
    (r1 r2 r3 v : result_dict C) (t : pystr) :
  resolves cfg vendor_ high_model budget_model ->
  (attempt < 5)%nat ->
  attempts_loop rt prompt_ check_for_price high_model budget_model
    (seq 0 attempt) initial_state = (Ok None, s1) ->
  let n := List.length (calls s1) in
  rt n high_model prompt_ check_for_price = Ok r1 ->
  rt (n + 1) high_model prompt_ check_for_price = Ok r2 ->
  rt (n + 2) high_model prompt_ check_for_price = Ok r3 ->
  response r1 = response r2 -> response r2 = response r3 ->
  rt (n + 3) budget_model
     (validation_prompt prompt_ [response r1; response r2; response r3])
     check_for_price = Ok v ->
  response v = Some t ->
  strip t <> FALSE_sentinel ->
  let s' := after_verification prompt_ check_for_price high_model
              budget_model s1 r1 r2 r3 v in
  ai_call_checked (constructed cfg rt) vendor_ prompt_ check_for_price
  = (Ok {| prompt := Some prompt_;
           response := Some (strip t);
           model_used :=
             high_model ++ lit " (validated by " ++ budget_model ++ lit ")";
           finish_reason := lit "validated";
           attempts := Some (Z.of_nat attempt + 1)%Z;
           cost := if check_for_price then Some (total_cost s') else None |},
     s')
  /\ total_cost s' = sum_costs (charged prompt_ check_for_price (calls s')).
Proof.
  intros Hres Ha Hl n H1 H2 H3 E12 E23 Hv Htext Hs s'.
  assert (Hrun : ai_call_checked (constructed cfg rt) vendor_ prompt_
                   check_for_price
                 = (Ok (validated_result prompt_ check_for_price high_model
                          budget_model attempt (strip t)
                          (total_cost s')), s')).
  { rewrite (resolves_run rt prompt_ check_for_price Hres).
    rewrite (seq_cut Ha).
    rewrite attempts_loop_app with (s1 := s1) by exact Hl.
    rewrite attempts_loop_cons.
    pose proof (attempt_body_agree rt prompt_ check_for_price high_model
                  budget_model attempt s1 H1 H2 H3 E12 E23 Hv Htext) as Hb.
    apply pystr_eqb_neq in Hs. rewrite Hs in Hb.
    apply attempt_step_ok in Hb. rewrite Hb. reflexivity. }
  split; [exact Hrun|].
  pose proof (total_cost_is_sum cfg rt vendor_ prompt_ check_for_price) as Ht.
  rewrite Hrun in Ht. exact Ht.
Qed.

(** Success in the second attempt, after a rejected first one. *)
Lemma success_returns_stripped_verification_witness :
  exists res s',
    ai_call_checked (C := float) (constructed demo_config
      (scripted script_padded_sentinel)) (lit "Gemini") capital_prompt true
    = (Ok res, s')
    /\ response res = Some (lit "Paris")
    /\ finish_reason res = lit "validated"
    /\ attempts res = Some 2%Z
    /\ cost res = Some 20%float
    /\ total_cost s' = sum_costs (charged capital_prompt true (calls s')).
Proof.
  assert (Hres : resolves (C := float) demo_config (lit "Gemini")
                   (lit "gemini25pro") (lit "gemini25flash"))
    by (repeat split; discriminate).
  destruct (success_returns_stripped_verification
              (scripted (C := float) script_padded_sentinel) capital_prompt
              true (attempt := 1) (s1 := _) (r1 := _) (r2 := _) (r3 := _)
              (v := _) (t := _) Hres ltac:(lia) eq_refl eq_refl eq_refl
              eq_refl eq_refl eq_refl eq_refl eq_refl ltac:(discriminate))
    as [Hrun Hsum].
  eexists. eexists. split; [exact Hrun|].
  do 4 (split; [reflexivity|]). exact Hsum.
Defined.

(** C3 as the specification words it fails: the budget model answers
    ["Paris"] followed by a newline, the call succeeds in the first
    attempt, and the text returned is not that verification answer. *)
Lemma success_returns_verification_itself_counterexample :
  let rt := scripted (C := float) script_trailing_newline in
  let run := ai_call_checked (constructed demo_config rt)
      (lit "Gemini") capital_prompt
               true in
  exists res v,
    fst run = Ok res
    /\ finish_reason res = lit "validated"
    /\ attempts res = Some 1%Z
    /\ option_map (@call_outcome float) (nth_error (calls (snd run)) 3)
       = Some (Ok v)
    /\ response v = Some (lit "Paris" ++ newline)
    /\ response res = Some (lit "Paris")
    /\ response res <> response v.
Proof.
  intros rt run. eexists. eexists.
  split; [vm_compute; reflexivity|].
  split; [reflexivity|]. split; [reflexivity|].
  split; [vm_compute; reflexivity|].
  split; [reflexivity|]. split; [reflexivity|].
  vm_compute. discriminate.
Qed.

(** ** Failures of the router *)

Section Failure.
Context {C : Type} `{Number C}.
Variable rt : router C.
Variables (prompt_ : pystr) (check_for_price : bool).
Variables (high_model budget_model : pystr).

Ltac next_sample Hr :=
  rewrite sample_bind; cbn [calls total_cost]; rewrite ?length_app;
  cbn [List.length]; rewrite <- ?Nat.add_assoc; cbn [Nat.add]; rewrite Hr.

(** An attempt ends by an exception in two ways only. A router call
    raised it: a sample of the high model or the verification by the
    budget model, the last call made. Or the verification, the last call
    made, came back without a text, and [strip] raised. *)
Lemma attempt_body_raised (attempt : nat) (s s' : state C) (e : exn) :
  attempt_body rt prompt_ check_for_price high_model budget_model attempt s
  = (Raised e, s') ->
  exists earlier model_name p,
    (model_name = high_model /\ p = prompt_ \/ model_name = budget_model)
    /\ ((calls s' = earlier ++ [failed model_name p check_for_price e]
         /\ rt (List.length earlier) model_name p check_for_price = Raised e)
        \/ (exists v,
              calls s' = earlier ++ [returned model_name p check_for_price v]
              /\ rt (List.length earlier) model_name p check_for_price = Ok v
              /\ model_name = budget_model
              /\ response v = None
              /\ e = no_attribute "strip")).
Proof.
  unfold attempt_body. simpl seq.
  destruct (rt (List.length (calls s)) high_model prompt_ check_for_price)
    as [r1|e1] eqn:H1.
  2:{ next_sample H1. intros Hx. injection Hx as <- <-.
      exists (calls s), high_model, prompt_. auto. }
  destruct (rt (List.length (calls s) + 1) high_model prompt_ check_for_price)
    as [r2|e2] eqn:H2.
  2:{ next_sample H1. next_sample H2. intros Hx. injection Hx as <- <-.
      eexists _, high_model, prompt_. cbn [calls]. split; [auto|].
      left. split; [reflexivity|].
      rewrite length_app. cbn [List.length]. auto. }
  destruct (rt (List.length (calls s) + 2) high_model prompt_ check_for_price)
    as [r3|e3] eqn:H3.
  2:{ next_sample H1. next_sample H2. next_sample H3.
      intros Hx. injection Hx as <- <-.
      eexists _, high_model, prompt_. cbn [calls]. split; [auto|].
      left. split; [reflexivity|].
      rewrite !length_app. cbn [List.length].
      rewrite <- Nat.add_assoc. cbn [Nat.add]. auto. }
  next_sample H1. next_sample H2. next_sample H3.
  unfold bind at 1. cbn [sample ret app].
  destruct (len_set [response r1; response r2; response r3] =? 1)%nat;
    [|discriminate].
  rewrite verify_step. cbn [calls total_cost].
  rewrite !length_app. cbn [List.length].
  rewrite <- !Nat.add_assoc. cbn [Nat.add].
  destruct (rt (List.length (calls s) + 3) budget_model
              (validation_prompt prompt_
                 [response r1; response r2; response r3])
              check_for_price) as [v|ev] eqn:Hv.
  - destruct (response v) as [t|] eqn:Ht.
    + unfold bind, get, ret.
      destruct (pystr_eqb (strip t) FALSE_sentinel); discriminate.
    + intros Hx. injection Hx as <- <-.
      eexists _, budget_model, _. cbn [calls]. split; [auto|].
      right. exists v. split; [reflexivity|].
      rewrite !length_app. cbn [List.length].
      rewrite <- !Nat.add_assoc. cbn [Nat.add]. auto.
  - intros Hx. injection Hx as <- <-.
    eexists _, budget_model, _. cbn [calls]. split; [auto|].
    left. split; [reflexivity|].
    rewrite !length_app. cbn [List.length].
    rewrite <- !Nat.add_assoc. cbn [Nat.add]. auto.
Qed.
End Failure.



(** ** The accumulated cost *)

(** The [cost] key of a returned dictionary holds the final total, and is
    there exactly when a price was asked for. *)
Lemma returned_cost {C : Type} `{Number C} (cfg : model_config C)
    (rt : router C) (vendor_ prompt_ : pystr) (check_for_price : bool)
    (res : result_dict C) (s' : state C) :
  ai_call_checked (constructed cfg rt)
      vendor_ prompt_ check_for_price = (Ok res, s') ->
  cost res = if check_for_price then Some (total_cost s') else None.
Proof.
  intros Hrun.
  destruct (ai_call_checked_returns _ _ _ _ _ Hrun)
    as (hm & bm & Hf & [(a & s1 & Ha & Hl & Hb)|(Hl & ->)]).
  - apply attempt_body_returns in Hb.
    destruct Hb as (r1 & r2 & r3 & v & t & _ & _ & _ & _ & _ & _ & _ & _
                    & _ & ->).
    reflexivity.
  - reflexivity.
Qed.

(** Two floats differ when their binary64 values do. *)
Lemma float_neq (x y : float) : Prim2SF x <> Prim2SF y -> x <> y.
Proof. intros Hne Heq. apply Hne. now rewrite Heq. Qed.

(** C7: the checked call at the input on which the code misses the
    claim. Vendor OpenAI, price asked for; every reply reports 14 and 2
    tokens; the reply to the verification of the first attempt has no
    text. [strip] raises on it before the cost of that call is added, the
    exception is absorbed, and the second attempt is validated: the
    returned [cost] is 342, and the eight calls reported 360. *)
Theorem verification_without_text_is_not_charged :
  let rt := library_router (C := float) demo_config openai_no_content
              no_adapter gemini_paris in
  let run := ai_call_checked (constructed demo_config rt) (lit "OpenAI")
               capital_prompt true in
  exists res v,
    fst run = Ok res
    /\ finish_reason res = lit "validated"
    /\ attempts res = Some 2%Z
    /\ option_map (@call_outcome float) (nth_error (calls (snd run)) 3)
       = Some (Ok v)
    /\ response v = None /\ cost v = Some 18%float
    /\ reported_costs (calls (snd run))
       = [54; 54; 54; 18; 54; 54; 54; 18]%float
    /\ sum_costs (reported_costs (calls (snd run))) = 360%float
    /\ total_cost (snd run) = 342%float
    /\ cost res = Some 342%float
    /\ total_cost (snd run) <> sum_costs (reported_costs (calls (snd run))).
Proof.
  intros rt run. eexists. eexists.
  split; [vm_compute; reflexivity|].
  split; [reflexivity|]. split; [reflexivity|].
  split; [vm_compute; reflexivity|].
  split; [reflexivity|]. split; [reflexivity|].
  split; [vm_compute; reflexivity|].
  split; [vm_compute; reflexivity|].
  split; [vm_compute; reflexivity|].
  split; [reflexivity|].
  apply float_neq. vm_compute. discriminate.
Qed.

(** C10: the checked call at the input on which the code misses the
    claim. Vendor OpenAI, price asked for; every call comes back and
    reports a cost, 54 for a sample and 18 for a verification; the
    replies to the verifications of the first two attempts have no text.
    The third attempt is validated. The total returned is 504: the two
    costs of 18 that the unread verifications reported are not in it,
    and the sum over the calls that reported a cost is 540. *)
Theorem reported_cost_of_unread_verification_is_skipped :
  let rt := library_router (C := float) demo_config openai_no_content_twice
              no_adapter gemini_paris in
  let run := ai_call_checked (constructed demo_config rt) (lit "OpenAI")
               capital_prompt true in
  map reported_cost (calls (snd run))
  = map Some [54; 54; 54; 18; 54; 54; 54; 18; 54; 54; 54; 18]%float
  /\ map (fun c => match call_outcome c with
                   | Ok r => response r
                   | Raised _ => None
                   end) (calls (snd run))
     = [Some (lit "Paris"); Some (lit "Paris"); Some (lit "Paris"); None;
        Some (lit "Paris"); Some (lit "Paris"); Some (lit "Paris"); None;
        Some (lit "Paris"); Some (lit "Paris"); Some (lit "Paris");
        Some (lit "Paris")]
  /\ (exists res,
        fst run = Ok res /\ attempts res = Some 3%Z
        /\ cost res = Some 504%float)
  /\ sum_costs (reported_costs (calls (snd run))) = 540%float
  /\ total_cost (snd run) = 504%float
  /\ total_cost (snd run) <> sum_costs (reported_costs (calls (snd run))).
Proof.
  intros rt run.
  split; [vm_compute; reflexivity|].
  split; [vm_compute; reflexivity|].
  split; [eexists; split; [vm_compute; reflexivity|split; reflexivity]|].
  split; [vm_compute; reflexivity|].
  split; [vm_compute; reflexivity|].
  apply float_neq. vm_compute. discriminate.
Qed.

(** ** The adapters *)

Lemma estimate_rounds_down (t : pystr) :
  (4 * GeminiClient._estimate_tokens t <= len t
   < 4 * GeminiClient._estimate_tokens t + 4)%Z.
Proof.
  unfold GeminiClient._estimate_tokens.
  pose proof (Z.div_mod (len t) 4 ltac:(lia)) as Hd.
  pose proof (Z.mod_pos_bound (len t) 4 ltac:(lia)) as Hm. lia.
Qed.

(** The two adapters compute the cost by the same formula, which is the
    one of the specification for the token counts they are given; it
    raises when a count is too large for a float. *)
Lemma calculate_cost_openai {C : Type} `{Number C} (info : model_info C)
    (input_tokens output_tokens : Z) :
  OpenAIClient._calculate_cost info input_tokens output_tokens
  = match spec_cost info (input_tokens, output_tokens) with
    | Some c => Ok c
    | None => Raised too_large
    end.
Proof.
  unfold OpenAIClient._calculate_cost, spec_cost, int_times. simpl.
  destruct (of_int input_tokens), (of_int output_tokens); reflexivity.
Qed.

Lemma calculate_cost_gemini {C : Type} `{Number C} (info : model_info C)
    (input_tokens output_tokens : Z) :
  GeminiClient._calculate_cost info input_tokens output_tokens
  = match spec_cost info (input_tokens, output_tokens) with
    | Some c => Ok c
    | None => Raised too_large
    end.
Proof.
  unfold GeminiClient._calculate_cost, spec_cost, int_times. simpl.
  destruct (of_int input_tokens), (of_int output_tokens); reflexivity.
Qed.

(** What the OpenAI adapter makes of a reply. *)
Lemma openai_read_reply {C : Type} `{Number C} (info : model_info C)
    (calculate_cost : bool) (resp : OpenAIClient.completion)
    (r : result_dict C) :
  OpenAIClient.read_reply info calculate_cost resp = Ok r ->
  response r = OpenAIClient.content resp
  /\ model_used r = vendor_model_id info
  /\ finish_reason r = OpenAIClient.choice_finish_reason resp
  /\ prompt r = None /\ attempts r = None
  /\ (calculate_cost = false -> cost r = None)
  /\ (calculate_cost = true ->
      exists u,
        OpenAIClient.usage resp = Some u
        /\ cost r <> None
        /\ cost r = spec_cost info (OpenAIClient.prompt_tokens u,
                                    OpenAIClient.completion_tokens u)).
Proof.
  unfold OpenAIClient.read_reply. destruct calculate_cost.
  - destruct (OpenAIClient.usage resp) as [u|]; [|discriminate].
    rewrite calculate_cost_openai.
    destruct (spec_cost info _) as [c|] eqn:Hc; [|discriminate].
    intros Hx. injection Hx as <-. cbn.
    repeat split; try discriminate.
    intros _. exists u. repeat split; [discriminate|now rewrite Hc].
  - intros Hx. injection Hx as <-. cbn.
    repeat split; auto. discriminate.
Qed.

(** What the Gemini adapter makes of a reply. *)
Lemma gemini_read_reply {C : Type} `{Number C} (info : model_info C)
    (full : pystr) (calculate_cost : bool) (resp : GeminiClient.generation)
    (r : result_dict C) :
  GeminiClient.read_reply info full calculate_cost resp = Ok r ->
  response r = Some (GeminiClient.text resp)
  /\ model_used r = vendor_model_id info
  /\ finish_reason r = lit "stop"
  /\ prompt r = None /\ attempts r = None
  /\ (calculate_cost = false -> cost r = None)
  /\ (calculate_cost = true ->
      cost r <> None
      /\ cost r = spec_cost info
                    (GeminiClient._estimate_tokens full,
                     GeminiClient._estimate_tokens (GeminiClient.text resp))).
Proof.
  unfold GeminiClient.read_reply. destruct calculate_cost.
  - rewrite calculate_cost_gemini.
    destruct (spec_cost info _) as [c|] eqn:Hc; [|discriminate].
    intros Hx. injection Hx as <-. cbn.
    repeat split; try discriminate.
  - intros Hx. injection Hx as <-. cbn.
    repeat split; auto; discriminate.
Qed.

(** C8, as the code has it. A successful call of an adapter carries a
    cost exactly when one was asked for, and the cost is
    [input_tokens * price_in + output_tokens * price_out]. The OpenAI
    adapter takes the token counts from the usage report of the reply;
    when the reply has none it estimates nothing: the call fails. The
    Gemini adapter estimates the counts as the number of characters of
    the full prompt and of the generated text divided by 4, rounded down,
    whether or not the reply reports token counts: it uses the rule of
    the specification as if no report were available. *)
Theorem adapters_cost_from_token_counts
    {C : Type} `{Number C} (cfg : model_config C)
    (model_name prompt_ : pystr) (system_message : option pystr)
    (temperature : Q) (max_tokens : option Z) (calculate_cost : bool) :
  (forall create r,
     OpenAIClient.call_api cfg create model_name prompt_ system_message
       temperature max_tokens calculate_cost = Ok r ->
     exists info params resp,
       lookup cfg model_name = Some info
       /\ create params = Ok resp
       /\ (calculate_cost = false -> cost r = None)
       /\ (calculate_cost = true ->
           exists u,
             OpenAIClient.usage resp = Some u
             /\ cost r <> None
             /\ cost r
                = spec_cost info
                    (spec_token_counts
                       (Some (OpenAIClient.prompt_tokens u,
                              OpenAIClient.completion_tokens u))
                       prompt_ (py_str (OpenAIClient.content resp)))))
  /\ (forall create info resp,
        lookup cfg model_name = Some info ->
        vendor info = lit "OpenAI" ->
        (forall params, create params = Ok resp) ->
        OpenAIClient.usage resp = None ->
        OpenAIClient.call_api cfg create model_name prompt_ system_message
          temperature max_tokens true
        = Raised (Exception
                    (lit "OpenAI API call failed: "
                     ++ str_exn (no_attribute "prompt_tokens"))))
  /\ (forall generate_content r,
        GeminiClient.call_api cfg generate_content model_name prompt_
          system_message temperature max_tokens calculate_cost = Ok r ->
        exists info config resp,
          let full := GeminiClient.full_prompt prompt_ system_message in
          let counts :=
            spec_token_counts None full (GeminiClient.text resp) in
          lookup cfg model_name = Some info
          /\ generate_content (vendor_model_id info) config full = Ok resp
          /\ (calculate_cost = false -> cost r = None)
          /\ (calculate_cost = true ->
              cost r <> None /\ cost r = spec_cost info counts)
          /\ (4 * fst counts <= len full < 4 * fst counts + 4)%Z
          /\ (4 * snd counts <= len (GeminiClient.text resp)
              < 4 * snd counts + 4)%Z).
Proof.
  split; [|split].
  - intros create r.
    unfold OpenAIClient.call_api, OpenAIClient._get_model_info.
    destruct (lookup cfg model_name) as [info|]; [|discriminate].
    destruct (pystr_eqb (vendor info) (lit "OpenAI")); [|discriminate].
    match goal with
    | |- context [create ?p] => destruct (create p) as [resp|e] eqn:Hc
    end; [|discriminate].
    unfold reraise.
    destruct (OpenAIClient.read_reply info calculate_cost resp) as [r0|e]
      eqn:Hr; [|discriminate].
    intros Hx. injection Hx as <-.
    apply openai_read_reply in Hr.
    destruct Hr as (_ & _ & _ & _ & _ & Hoff & Hon).
    eexists info, _, resp. split; [reflexivity|]. split; [exact Hc|].
    split; [exact Hoff|]. exact Hon.
  - intros create info resp Hl Hv Hc Hu.
    unfold OpenAIClient.call_api, OpenAIClient._get_model_info.
    rewrite Hl, Hv, pystr_eqb_refl, Hc.
    unfold OpenAIClient.read_reply. rewrite Hu. reflexivity.
  - intros generate_content r.
    unfold GeminiClient.call_api, GeminiClient._get_model_info.
    destruct (lookup cfg model_name) as [info|]; [|discriminate].
    destruct (pystr_eqb (vendor info) (lit "Gemini")); [|discriminate].
    match goal with
    | |- context [generate_content ?a ?b ?c] =>
        destruct (generate_content a b c) as [resp|e] eqn:Hc
    end; [|discriminate].
    unfold reraise.
    match goal with
    | |- context [GeminiClient.read_reply ?i ?f ?c ?x] =>
        destruct (GeminiClient.read_reply i f c x) as [r0|e] eqn:Hr
    end; [|discriminate].
    intros Hx. injection Hx as <-.
    apply gemini_read_reply in Hr.
    destruct Hr as (_ & _ & _ & _ & _ & Hoff & Hon).
    eexists info, _, resp. cbv zeta.
    split; [reflexivity|]. split; [exact Hc|]. split; [exact Hoff|].
    split; [exact Hon|].
    split; apply estimate_rounds_down.
Qed.

(** One call of each adapter: 14 and 2 reported tokens at 3 and 6 for
    OpenAI; 30 and 5 characters, so 7 and 1 tokens, at 2 and 4 for
    Gemini, whose reply reports 8 and 2 tokens; and an OpenAI reply
    without usage. *)
Lemma adapters_cost_from_token_counts_witness :
  (exists r,
     OpenAIClient.call_api (C := float) demo_config (openai_paris 0)
       (lit "gpt4") capital_prompt None (7 # 10)%Q None true = Ok r
     /\ cost r = Some 54%float)
  /\ (exists e,
        OpenAIClient.call_api (C := float) demo_config
          (openai_without_usage 0) (lit "gpt4") capital_prompt None
          (7 # 10)%Q None true = Raised e)
  /\ (exists r,
        GeminiClient.call_api (C := float) demo_config (gemini_with_usage 0)
          (lit "gemini25pro") capital_prompt None (7 # 10)%Q None true = Ok r
        /\ cost r = Some 18%float).
Proof.
  pose proof (adapters_cost_from_token_counts (C := float) demo_config
                (lit "gpt4") capital_prompt None (7 # 10)%Q None true)
    as (Hopenai & Hnone & _).
  pose proof (adapters_cost_from_token_counts (C := float) demo_config
                (lit "gemini25pro") capital_prompt None (7 # 10)%Q None true)
    as (_ & _ & Hgemini).
  split; [|split].
  - eexists. split; [reflexivity|].
    destruct (Hopenai (openai_paris 0) _ eq_refl)
      as (info & params & resp & Hi & Hr & _ & Hon).
    destruct (Hon eq_refl) as (u & Hu & _ & Hc).
    injection Hi as <-. injection Hr as <-. injection Hu as <-.
    rewrite Hc. reflexivity.
  - eexists.
    exact (Hnone (openai_without_usage 0) _ _ eq_refl eq_refl
             (fun _ => eq_refl) eq_refl).
  - eexists. split; [reflexivity|].
    destruct (Hgemini (gemini_with_usage 0) _ eq_refl)
      as (info & config & resp & Hi & Hr & _ & Hon & _).
    destruct (Hon eq_refl) as [_ Hc].
    injection Hi as <-. injection Hr as <-. rewrite Hc. reflexivity.
Defined.

(** C8 as the specification words it fails. The reply of Gemini reports 8
    and 2 tokens: by the rule of the specification the cost is 24, and
    the adapter returns 18, from its estimates 7 and 1. The reply of
    OpenAI has no usage report: by the rule the cost is estimated, 27,
    and the adapter raises. *)
Lemma usage_report_when_available_counterexample :
  exists info_gemini info_openai resp r,
    lookup (C := float) demo_config (lit "gemini25pro") = Some info_gemini
    /\ lookup (C := float) demo_config (lit "gpt4") = Some info_openai
    /\ gemini_with_usage 0 (lit "gemini-2.5-pro")
         {| GeminiClient.temperature := (7 # 10)%Q;
            GeminiClient.max_output_tokens := None |} capital_prompt
       = Ok resp
    /\ GeminiClient.reply_usage resp
       = Some {| GeminiClient.prompt_token_count := 8;
                 GeminiClient.candidates_token_count := 2 |}
    /\ spec_cost info_gemini
         (spec_token_counts (Some (8, 2)%Z) capital_prompt
            (GeminiClient.text resp)) = Some 24%float
    /\ GeminiClient.call_api (C := float) demo_config (gemini_with_usage 0)
         (lit "gemini25pro") capital_prompt None (7 # 10)%Q None true = Ok r
    /\ cost r = Some 18%float
    /\ cost r <> spec_cost info_gemini
                   (spec_token_counts (Some (8, 2)%Z) capital_prompt
                      (GeminiClient.text resp))
    /\ spec_cost info_openai
         (spec_token_counts None capital_prompt (lit "Paris"))
       = Some 27%float
    /\ OpenAIClient.call_api (C := float) demo_config
         (openai_without_usage 0) (lit "gpt4") capital_prompt None
         (7 # 10)%Q None true
       = Raised (Exception
                   (lit "OpenAI API call failed: 'NoneType' object has no attribute 'prompt_tokens'")).
Proof.
  eexists. eexists. eexists. eexists.
  split; [reflexivity|]. split; [reflexivity|]. split; [reflexivity|].
  split; [reflexivity|]. split; [vm_compute; reflexivity|].
  split; [vm_compute; reflexivity|]. split; [reflexivity|].
  split; [|split; vm_compute; reflexivity].
  intros Heq.
  apply (f_equal (option_map Prim2SF)) in Heq. vm_compute in Heq.
  discriminate.
Qed.

(** C9. Every successful call of the Gemini adapter returns
    [finish_reason = "stop"], whatever reason the provider's reply gives
    for the end of the generation; it is never ["length"] and never
    ["other"]. *)
Theorem gemini_finish_reason_is_stop
    {C : Type} `{Number C} (cfg : model_config C)
    (generate_content :
       pystr -> GeminiClient.generation_config -> pystr ->
       outcome GeminiClient.generation)
    (model_name prompt_ : pystr) (system_message : option pystr)
    (temperature : Q) (max_tokens : option Z) (calculate_cost : bool)
    (r : result_dict C) :
  GeminiClient.call_api cfg generate_content model_name prompt_
    system_message temperature max_tokens calculate_cost = Ok r ->
  finish_reason r = lit "stop"
  /\ finish_reason r <> lit "length"
  /\ finish_reason r <> lit "other"
  /\ exists info config resp,
       lookup cfg model_name = Some info
       /\ generate_content (vendor_model_id info) config
            (GeminiClient.full_prompt prompt_ system_message) = Ok resp
       /\ response r = Some (GeminiClient.text resp).
Proof.
  unfold GeminiClient.call_api, GeminiClient._get_model_info.
  destruct (lookup cfg model_name) as [info|]; [|discriminate].
  destruct (pystr_eqb (vendor info) (lit "Gemini")); [|discriminate].
  match goal with
  | |- context [generate_content ?a ?b ?c] =>
      destruct (generate_content a b c) as [resp|e] eqn:Hc
  end; [|discriminate].
  unfold reraise.
  match goal with
  | |- context [GeminiClient.read_reply ?i ?f ?c ?x] =>
      destruct (GeminiClient.read_reply i f c x) as [r0|e] eqn:Hr
  end; [|discriminate].
  intros Hx. injection Hx as <-.
  apply gemini_read_reply in Hr.
  destruct Hr as (Hresp & _ & Hfin & _).
  rewrite Hfin.
  split; [reflexivity|]. split; [discriminate|]. split; [discriminate|].
  eexists info, _, resp. split; [reflexivity|]. split; [exact Hc|exact Hresp].
Qed.

(** A generation the provider cut off at the token limit is returned with
    [finish_reason = "stop"]. *)
Lemma gemini_finish_reason_is_stop_witness :
  exists r resp,
    gemini_paris 0 (lit "gemini-2.5-pro")
      {| GeminiClient.temperature := (7 # 10)%Q;
         GeminiClient.max_output_tokens := Some 1%Z |} capital_prompt
    = Ok resp
    /\ GeminiClient.candidate_finish_reason resp = lit "MAX_TOKENS"
    /\ GeminiClient.call_api (C := float) demo_config (gemini_paris 0)
         (lit "gemini25pro") capital_prompt None (7 # 10)%Q (Some 1%Z) false
       = Ok r
    /\ finish_reason r = lit "stop".
Proof.
  eexists. eexists. split; [reflexivity|]. split; [reflexivity|].
  split; [reflexivity|].
  refine (proj1 (gemini_finish_reason_is_stop (C := float) demo_config
                   (gemini_paris 0) (lit "gemini25pro") capital_prompt None
                   (7 # 10)%Q (Some 1%Z) false eq_refl)).
Defined.

(** ** The scenarios of the specification, run through the model *)

(** Through the router and the Gemini adapter: three samples ["Paris"],
    confirmed; one attempt, and a cost estimated from the lengths. *)
Example paris_through_gemini :
  let run := ai_call_checked (C := float) (constructed demo_config
               (library_router demo_config openai_paris no_adapter
                  gemini_paris))
               (lit "Gemini") capital_prompt true in
  fst run
  = Ok {| prompt := Some capital_prompt;
          response := Some (lit "Paris");
          model_used := lit "gemini25pro (validated by gemini25flash)";
          finish_reason := lit "validated";
          attempts := Some 1%Z;
          cost := Some 163%float |}
  /\ map (@call_model float) (calls (snd run))
     = [lit "gemini25pro"; lit "gemini25pro"; lit "gemini25pro";
        lit "gemini25flash"].
Proof. split; vm_compute; reflexivity. Qed.

(** Verification always answers the sentinel: twenty calls, status
    [validation_failed], and the cost of all of them. *)
Example exhausted_after_five_attempts :
  let run := ai_call_checked (C := float) (constructed demo_config
               (scripted script_exhausted)) (lit "Gemini") capital_prompt
               true in
  fst run
  = Ok {| prompt := Some capital_prompt;
          response :=
            Some (lit "ERROR: Failed to get validated response after 5 attempts for vendor: Gemini");
          model_used := lit "gemini25pro (validation failed)";
          finish_reason := lit "validation_failed";
          attempts := Some 5%Z;
          cost := Some 50%float |}
  /\ List.length (calls (snd run)) = 20%nat.
Proof. split; vm_compute; reflexivity. Qed.

(** A vendor outside the allow list is refused before anything else. *)
Example vendor_not_allowed :
  ai_call_checked (C := float)
      (constructed demo_config (scripted script_validated))
    (lit "DeepSeek") capital_prompt true
  = (Raised (ValueError
       (lit "Vendor 'DeepSeek' not allowed. Allowed vendors: ['OpenAI', 'Anthropic', 'Gemini']")),
     initial_state).
Proof. vm_compute. reflexivity. Qed.

(** binary64 addition rounds: three costs of a tenth do not sum to the
    decimal 0.3, and the total is still the sum in the order of the
    calls. *)
Example rounded_total :
  let tenth := answer (C := float) "Paris" (Some 0x1.999999999999ap-4%float) in
  let run := ai_call_checked (C := float) (constructed demo_config
               (scripted [tenth; tenth; tenth; answer "Paris" None]))
               (lit "Gemini") capital_prompt true in
  total_cost (snd run) = 0x1.3333333333334p-2%float
  /\ total_cost (snd run) = sum_costs (reported_costs (calls (snd run))).
Proof. split; vm_compute; reflexivity. Qed.

(** * Further properties *)

(** ** Every way an attempt can go *)

Section Cases.
Context {C : Type} `{Number C}.
Variable rt : router C.
Variables (prompt_ : pystr) (check_for_price : bool).
Variables (high_model budget_model : pystr).

Local Abbreviation body :=
  (attempt_body rt prompt_ check_for_price high_model budget_model).
Local Abbreviation sampled := (returned high_model prompt_ check_for_price).
Local Abbreviation ask := (fun n => rt n high_model prompt_ check_for_price).
Local Abbreviation verify :=
  (fun n r1 r2 r3 =>
     rt n budget_model
       (validation_prompt prompt_ [response r1; response r2; response r3])
       check_for_price).

Ltac next_sample Hr :=
  rewrite sample_bind; cbn [calls total_cost]; rewrite ?length_app;
  cbn [List.length]; rewrite <- ?Nat.add_assoc; cbn [Nat.add]; rewrite Hr.

(** The seven ways of an attempt: a sample raises (the first, the second
    or the third), the samples disagree, the verification raises, the
    verification comes back with a text, or it comes back without one and
    [strip] raises. *)
Lemma attempt_body_cases (attempt : nat) (s : state C) :
  let n := List.length (calls s) in
  let t0 := total_cost s in
  (exists e,
     ask n = Raised e
     /\ body attempt s
        = (Raised e,
           {| total_cost := t0;
              calls := calls s ++ [failed high_model prompt_ check_for_price e] |}))
  \/ (exists r1 e,
        ask n = Ok r1 /\ ask (n + 1)%nat = Raised e
        /\ body attempt s
           = (Raised e,
              {| total_cost := charge check_for_price r1 t0;
                 calls := calls s
                          ++ [sampled r1;
                              failed high_model prompt_ check_for_price e] |}))
  \/ (exists r1 r2 e,
        ask n = Ok r1 /\ ask (n + 1)%nat = Ok r2
        /\ ask (n + 2)%nat = Raised e
        /\ body attempt s
           = (Raised e,
              {| total_cost :=
                   charge check_for_price r2 (charge check_for_price r1 t0);
                 calls := calls s
                          ++ [sampled r1; sampled r2;
                              failed high_model prompt_ check_for_price e] |}))
  \/ (exists r1 r2 r3,
        ask n = Ok r1 /\ ask (n + 1)%nat = Ok r2 /\ ask (n + 2)%nat = Ok r3
        /\ ~ (response r1 = response r2 /\ response r2 = response r3)
        /\ body attempt s
           = (Ok None,
              {| total_cost :=
                   charge check_for_price r3
                     (charge check_for_price r2 (charge check_for_price r1 t0));
                 calls := calls s ++ [sampled r1; sampled r2; sampled r3] |}))
  \/ (exists r1 r2 r3 e,
        ask n = Ok r1 /\ ask (n + 1)%nat = Ok r2 /\ ask (n + 2)%nat = Ok r3
        /\ response r1 = response r2 /\ response r2 = response r3
        /\ verify (n + 3)%nat r1 r2 r3 = Raised e
        /\ body attempt s
           = (Raised e,
              {| total_cost :=
                   charge check_for_price r3
                     (charge check_for_price r2 (charge check_for_price r1 t0));
                 calls := calls s
                          ++ [sampled r1; sampled r2; sampled r3;
                              failed budget_model
                                (validation_prompt prompt_
                                   [response r1; response r2; response r3])
                                check_for_price e] |}))
  \/ (exists r1 r2 r3 v t,
        ask n = Ok r1 /\ ask (n + 1)%nat = Ok r2 /\ ask (n + 2)%nat = Ok r3
        /\ response r1 = response r2 /\ response r2 = response r3
        /\ verify (n + 3)%nat r1 r2 r3 = Ok v
        /\ response v = Some t
        /\ body attempt s
           = (if pystr_eqb (strip t) FALSE_sentinel then Ok None
              else Ok (Some (validated_result prompt_ check_for_price
                               high_model budget_model attempt
                               (strip t)
                               (total_cost
                                  (after_verification prompt_ check_for_price
                                     high_model budget_model s r1 r2 r3 v)))),
              after_verification prompt_ check_for_price high_model
                budget_model s r1 r2 r3 v))
  \/ (exists r1 r2 r3 v,
        ask n = Ok r1 /\ ask (n + 1)%nat = Ok r2 /\ ask (n + 2)%nat = Ok r3
        /\ response r1 = response r2 /\ response r2 = response r3
        /\ verify (n + 3)%nat r1 r2 r3 = Ok v
        /\ response v = None
        /\ body attempt s
           = (Raised (no_attribute "strip"),
              {| total_cost :=
                   charge check_for_price r3
                     (charge check_for_price r2 (charge check_for_price r1 t0));
                 calls := calls s
                          ++ [sampled r1; sampled r2; sampled r3;
                              returned budget_model
                                (validation_prompt prompt_
                                   [response r1; response r2; response r3])
                                check_for_price v] |})).
Proof.
  intros n t0. subst n t0.
  destruct (rt (List.length (calls s)) high_model prompt_ check_for_price)
    as [r1|e1] eqn:H1.
  2:{ left. exists e1. split; [reflexivity|].
      unfold attempt_body. simpl seq. next_sample H1. reflexivity. }
  right.
  destruct (rt (List.length (calls s) + 1) high_model prompt_ check_for_price)
    as [r2|e2] eqn:H2.
  2:{ left. exists r1, e2. split; [reflexivity|]. split; [reflexivity|].
      unfold attempt_body. simpl seq. next_sample H1. next_sample H2.
      rewrite <- app_assoc. reflexivity. }
  right.
  destruct (rt (List.length (calls s) + 2) high_model prompt_ check_for_price)
    as [r3|e3] eqn:H3.
  2:{ left. exists r1, r2, e3. do 3 (split; [reflexivity|]).
      unfold attempt_body. simpl seq. next_sample H1. next_sample H2.
      next_sample H3. rewrite <- !app_assoc. reflexivity. }
  right.
  destruct (len_set [response r1; response r2; response r3] =? 1)%nat
    eqn:Hset.
  2:{ left. exists r1, r2, r3. do 3 (split; [reflexivity|]). split.
      - intros Heq. apply len_set_three in Heq. congruence.
      - unfold attempt_body. simpl seq. next_sample H1. next_sample H2.
        next_sample H3. unfold bind at 1. cbn [sample ret app].
        rewrite Hset. unfold ret. rewrite <- !app_assoc. reflexivity. }
  right. apply len_set_three in Hset. destruct Hset as [E12 E23].
  destruct (rt (List.length (calls s) + 3) budget_model
              (validation_prompt prompt_
                 [response r1; response r2; response r3])
              check_for_price) as [v|ev] eqn:Hv.
  - right. destruct (response v) as [t|] eqn:Ht.
    + left. exists r1, r2, r3, v, t.
      repeat (split; [first [assumption | reflexivity]|]).
      exact (attempt_body_agree rt prompt_ check_for_price high_model
               budget_model attempt s H1 H2 H3 E12 E23 Hv Ht).
    + right. exists r1, r2, r3, v.
      repeat (split; [first [assumption | reflexivity]|]).
      rewrite (attempt_body_verdict rt prompt_ check_for_price high_model
                 budget_model attempt s H1 H2 H3 E12 E23 Hv).
      unfold verdict, after_verification, charge_verification.
      rewrite Ht. reflexivity.
  - left. exists r1, r2, r3, ev.
    repeat (split; [first [assumption | reflexivity]|]).
    unfold attempt_body. simpl seq. next_sample H1. next_sample H2.
    next_sample H3. unfold bind at 1. cbn [sample ret app].
    assert (Hset : (len_set [response r1; response r2; response r3] =? 1)%nat
                   = true) by (apply len_set_three; auto).
    rewrite Hset. rewrite verify_step.
    cbn [calls total_cost]. rewrite !length_app. cbn [List.length].
    rewrite <- !Nat.add_assoc. cbn [Nat.add]. rewrite Hv.
    rewrite <- !app_assoc. reflexivity.
Qed.
End Cases.

(** ** The calls a run makes *)

Section Groups.
Context {C : Type} `{Number C}.
Variable rt : router C.
Variables (prompt_ : pystr) (check_for_price : bool).
Variables (high_model budget_model : pystr).

Local Abbreviation body :=
  (attempt_body rt prompt_ check_for_price high_model budget_model).
Local Abbreviation step :=
  (attempt_step rt prompt_ check_for_price high_model budget_model).
Local Abbreviation loop :=
  (attempts_loop rt prompt_ check_for_price high_model budget_model).
Local Abbreviation group :=
  (attempt_calls prompt_ check_for_price high_model budget_model).
Local Abbreviation sampled := (returned high_model prompt_ check_for_price).

Lemma sampled_is_sample (r : result_dict C) :
  is_sample prompt_ check_for_price high_model (sampled r).
Proof. repeat split. Qed.

Lemma failed_is_sample (e : exn) :
  is_sample prompt_ check_for_price high_model
    (failed (C := C) high_model prompt_ check_for_price e).
Proof. repeat split. Qed.

Lemma samples_only (l : list (call C)) :
  Forall (is_sample prompt_ check_for_price high_model) l ->
  (1 <= List.length l <= 3)%nat -> group l.
Proof.
  intros Hl Hn. exists l, []. rewrite app_nil_r.
  split; [reflexivity|]. split; [exact Hl|]. split; [exact Hn|].
  split; [simpl; lia|]. intros c [].
Qed.

Lemma samples_then_verification (r1 r2 r3 : result_dict C) (c : call C) :
  response r1 = response r2 -> response r2 = response r3 ->
  is_verification prompt_ check_for_price budget_model (response r1) c ->
  group [sampled r1; sampled r2; sampled r3; c].
Proof.
  intros E12 E23 Hc. exists [sampled r1; sampled r2; sampled r3], [c].
  split; [reflexivity|]. split.
  - repeat constructor.
  - split; [simpl; lia|]. split; [simpl; lia|].
    intros c' [<-|[]]. split; [reflexivity|].
    exists (response r1). split; [|exact Hc].
    repeat constructor; eexists; split; try reflexivity; congruence.
Qed.

(** The calls an attempt adds are the calls of one attempt. *)
Lemma attempt_body_group (attempt : nat) (s : state C) :
  exists g, calls (snd (body attempt s)) = calls s ++ g /\ group g.
Proof.
  destruct (attempt_body_cases rt prompt_ check_for_price high_model
              budget_model attempt s)
    as [(e & _ & ->)|[(r1 & e & _ & _ & ->)|[(r1 & r2 & e & _ & _ & _ & ->)
       |[(r1 & r2 & r3 & _ & _ & _ & _ & ->)
        |[(r1 & r2 & r3 & e & _ & _ & _ & E12 & E23 & _ & ->)
         |[(r1 & r2 & r3 & v & t & _ & _ & _ & E12 & E23 & _ & _ & ->)
          |(r1 & r2 & r3 & v & _ & _ & _ & E12 & E23 & _ & _ & ->)]]]]]];
    cbn [snd calls]; eexists; (split; [reflexivity|]).
  - apply samples_only; [repeat constructor|simpl; lia].
  - apply samples_only; [repeat constructor|simpl; lia].
  - apply samples_only; [repeat constructor|simpl; lia].
  - apply samples_only; [repeat constructor|simpl; lia].
  - apply samples_then_verification; auto.
    repeat split. cbn [call_prompt failed]. now rewrite <- E23, <- E12.
  - apply samples_then_verification; auto.
    repeat split. cbn [call_prompt returned]. now rewrite <- E23, <- E12.
  - apply samples_then_verification; auto.
    repeat split. cbn [call_prompt returned]. now rewrite <- E23, <- E12.
Qed.

Lemma attempt_step_state (attempt : nat) (s : state C) :
  snd (step attempt s) = snd (body attempt s).
Proof.
  unfold attempt_step, try_except.
  destruct (body attempt s) as [[r|e] s1]; [reflexivity|].
  destruct (attempt =? 4)%nat; reflexivity.
Qed.

(** The calls of the loop over the attempts [a+1 .. a+n] are the calls of
    one attempt after the other; their number is the number of attempts
    begun. *)
Lemma attempts_loop_groups (n a : nat) (s : state C) :
  exists groups,
    calls (snd (loop (seq a n) s)) = calls s ++ List.concat groups
    /\ Forall group groups
    /\ (List.length groups <= n)%nat
    /\ match fst (loop (seq a n) s) with
       | Ok (Some res) =>
           attempts res = Some (Z.of_nat (a + List.length groups))
           /\ (1 <= List.length groups)%nat
       | Ok None => List.length groups = n
       | Raised _ => (a + List.length groups = 5)%nat
       end.
Proof.
  revert a s. induction n as [|n IH]; intros a s.
  - exists []. simpl. rewrite app_nil_r. auto.
  - cbn [seq]. rewrite attempts_loop_cons.
    destruct (attempt_body_group a s) as (g & Hg & Hgroup).
    rewrite <- attempt_step_state in Hg.
    destruct (step a s) as [[[res|]|e] s1] eqn:Hs; cbn [snd] in Hg.
    + exists [g]. cbn [fst snd List.concat]. rewrite app_nil_r.
      split; [exact Hg|]. split; [repeat constructor; exact Hgroup|].
      split; [simpl; lia|]. split; [|simpl; lia].
      apply attempt_step_some in Hs. apply attempt_body_returns in Hs.
      destruct Hs as (r1 & r2 & r3 & v & t & _ & _ & _ & _ & _ & _ & _ & _
                      & _ & ->).
      cbn [attempts validated_result List.length]. f_equal. lia.
    + destruct (IH (S a) s1) as (groups & Hc & Hall & Hlen & Hout).
      exists (g :: groups). cbn [List.concat List.length].
      split; [rewrite Hc, Hg; now rewrite app_assoc|].
      split; [constructor; assumption|]. split; [lia|].
      destruct (fst (loop (seq (S a) n) s1)) as [[res|]|e].
      * destruct Hout as [Ha Hl]. split; [|lia]. rewrite Ha. f_equal. lia.
      * lia.
      * lia.
    + exists [g]. cbn [fst snd List.concat List.length]. rewrite app_nil_r.
      split; [exact Hg|]. split; [repeat constructor; exact Hgroup|].
      split; [lia|]. apply attempt_step_raised in Hs. lia.
Qed.
End Groups.

Lemma group_length {C : Type} (prompt_ : pystr) (check_for_price : bool)
    (high_model budget_model : pystr) (g : list (call C)) :
  attempt_calls prompt_ check_for_price high_model budget_model g ->
  (1 <= List.length g <= 4)%nat.
Proof.
  intros (samples & verifications & -> & _ & Hs & Hv & _).
  rewrite length_app. lia.
Qed.

Lemma concat_length_bounds {A : Type} (groups : list (list A)) :
  Forall (fun g => 1 <= List.length g <= 4)%nat groups ->
  (List.length groups <= List.length (List.concat groups)
   <= 4 * List.length groups)%nat.
Proof.
  induction 1 as [|g groups Hg _ IH]; simpl; [lia|].
  rewrite length_app. lia.
Qed.

(** With both models found, the calls of a run are the calls of one to
    five attempts, one after the other. *)
Lemma run_groups {C : Type} `{Number C} (cfg : model_config C)
    (rt : router C) (vendor_ prompt_ : pystr) (check_for_price : bool)
    (high_model budget_model : pystr) :
  resolves cfg vendor_ high_model budget_model ->
  let run := ai_call_checked (constructed cfg rt)
      vendor_ prompt_ check_for_price in
  exists groups,
    calls (snd run) = List.concat groups
    /\ Forall (attempt_calls prompt_ check_for_price high_model budget_model)
         groups
    /\ (1 <= List.length groups <= 5)%nat
    /\ (forall res,
          fst run = Ok res ->
          attempts res = Some (Z.of_nat (List.length groups)))
    /\ (forall e, fst run = Raised e -> List.length groups = 5%nat).
Proof.
  intros Hres run. subst run.
  rewrite (resolves_run rt prompt_ check_for_price Hres).
  destruct (attempts_loop_groups rt prompt_ check_for_price high_model
              budget_model 5 0 initial_state)
    as (groups & Hc & Hall & Hlen & Hout).
  exists groups.
  destruct (attempts_loop rt prompt_ check_for_price high_model budget_model
              (seq 0 5) initial_state) as [[[res|]|e] s1];
    cbn [fst snd finish] in *.
  - destruct Hout as [Ha Hl].
    split; [exact Hc|]. split; [exact Hall|]. split; [lia|]. split.
    + intros res' Hx. injection Hx as <-. exact Ha.
    + intros e Hx. discriminate.
  - split; [exact Hc|]. split; [exact Hall|]. split; [lia|]. split.
    + intros res' Hx. injection Hx as <-. simpl. now rewrite Hout.
    + intros e Hx. discriminate.
  - split; [exact Hc|]. split; [exact Hall|]. split; [lia|]. split.
    + intros res' Hx. discriminate.
    + intros e' Hx. lia.
Qed.

Lemma demo_resolves {C : Type} `{Number C} :
  resolves (C := C) demo_config (lit "Gemini") (lit "gemini25pro")
    (lit "gemini25flash").
Proof. repeat split; discriminate. Qed.



(** X2. A returned dictionary with [attempts = k] was obtained with at
    least [k] and at most [4 k] router calls, so with at most twenty; and
    every call of the run, however it ends, is a sample or a
    verification: no other model is asked, the high model is asked
    nothing but the original prompt, and the flag [check_for_price] is
    passed on unchanged. *)
Theorem calls_between_attempts_and_four_times
    {C : Type} `{Number C} (cfg : model_config C) (rt : router C)
    (vendor_ prompt_ : pystr) (check_for_price : bool)
    (high_model budget_model : pystr) :
  resolves cfg vendor_ high_model budget_model ->
  let run := ai_call_checked (constructed cfg rt)
      vendor_ prompt_ check_for_price in
  Forall (fun c =>
            is_sample prompt_ check_for_price high_model c
            \/ exists t,
                 is_verification prompt_ check_for_price budget_model t c)
    (calls (snd run))
  /\ forall res k,
       fst run = Ok res -> attempts res = Some k ->
       (k <= Z.of_nat (List.length (calls (snd run))) <= 4 * k)%Z.
Proof.
  intros Hres run.
  destruct (run_groups rt prompt_ check_for_price Hres)
    as (groups & Hc & Hall & Hlen & Ha & _).
  fold run in Hc, Ha. split.
  - rewrite Hc. clear Hc Ha Hlen.
    induction Hall as [|g groups Hg _ IH]; [constructor|].
    cbn [List.concat]. apply Forall_app. split; [|exact IH].
    destruct Hg as (samples & verifications & -> & Hs & _ & _ & Hv).
    apply Forall_app. split.
    + eapply Forall_impl; [|exact Hs]. intros c Hcs. now left.
    + apply Forall_forall. intros c Hin.
      destruct (Hv c Hin) as (_ & t & _ & Ht). right. now exists t.
  - intros res k Hr Hk. rewrite (Ha _ Hr) in Hk. injection Hk as <-.
    assert (Hb : Forall (fun g : list (call C) =>
                           1 <= List.length g <= 4)%nat groups)
      by (eapply Forall_impl; [|exact Hall]; intros g; apply group_length).
    apply concat_length_bounds in Hb. rewrite Hc. lia.
Qed.

(** The exhausted run: five attempts, twenty calls. *)
Lemma calls_between_attempts_and_four_times_witness :
  let run := ai_call_checked (C := float) (constructed demo_config
               (scripted script_exhausted)) (lit "Gemini") capital_prompt
               true in
  (5 <= Z.of_nat (List.length (calls (snd run))) <= 4 * 5)%Z
  /\ List.length (calls (snd run)) = 20%nat.
Proof.
  intros run. split; [|vm_compute; reflexivity].
  assert (Hrun : fst run
                 = Ok (failure_result (lit "Gemini") capital_prompt true
                         (lit "gemini25pro") 50%float))
    by (vm_compute; reflexivity).
  pose proof (proj2 (calls_between_attempts_and_four_times
                       (scripted script_exhausted) capital_prompt true
                       (demo_resolves (C := float)))) as Hbounds.
  exact (Hbounds _ 5%Z Hrun eq_refl).
Defined.

(** ** Disagreement *)

(** Three samples that came back and do not all agree: no verification. *)
Lemma attempt_body_disagree {C : Type} `{Number C} (rt : router C)
    (prompt_ : pystr) (check_for_price : bool)
    (high_model budget_model : pystr) (attempt : nat) (s : state C)
    (r1 r2 r3 : result_dict C) :
  let n := List.length (calls s) in
  rt n high_model prompt_ check_for_price = Ok r1 ->
  rt (n + 1) high_model prompt_ check_for_price = Ok r2 ->
  rt (n + 2) high_model prompt_ check_for_price = Ok r3 ->
  ~ (response r1 = response r2 /\ response r2 = response r3) ->
  attempt_body rt prompt_ check_for_price high_model budget_model attempt s
  = (Ok None,
     {| total_cost :=
          charge check_for_price r3
            (charge check_for_price r2
               (charge check_for_price r1 (total_cost s)));
        calls := calls s
                 ++ [returned high_model prompt_ check_for_price r1;
                     returned high_model prompt_ check_for_price r2;
                     returned high_model prompt_ check_for_price r3] |}).
Proof.
  intros n H1 H2 H3 Hne. subst n.
  destruct (attempt_body_cases rt prompt_ check_for_price high_model
              budget_model attempt s)
    as [(e & Hx & _)|[(x1 & e & _ & Hx & _)|[(x1 & x2 & e & _ & _ & Hx & _)
       |[(x1 & x2 & x3 & G1 & G2 & G3 & _ & Hb)
        |[(x1 & x2 & x3 & e & G1 & G2 & G3 & E12 & E23 & _)
         |[(x1 & x2 & x3 & v & t & G1 & G2 & G3 & E12 & E23 & _)
          |(x1 & x2 & x3 & v & G1 & G2 & G3 & E12 & E23 & _)]]]]]];
    try congruence;
    rewrite H1 in G1; rewrite H2 in G2; rewrite H3 in G3;
    injection G1 as <-; injection G2 as <-; injection G3 as <-;
    exfalso; auto.
Qed.

(** X3. When the three samples come back and their texts are not all
    equal (any difference counts: case, white space), the attempt makes
    no verification call: it ends without a result after exactly these
    three calls, with their costs added, and the loop goes on with the
    next attempt. *)
Theorem disagreement_skips_verification
    {C : Type} `{Number C} (rt : router C) (prompt_ : pystr)
    (check_for_price : bool) (high_model budget_model : pystr)
    (attempt : nat) (range : list nat) (s : state C)
    (r1 r2 r3 : result_dict C) :
  let n := List.length (calls s) in
  rt n high_model prompt_ check_for_price = Ok r1 ->
  rt (n + 1) high_model prompt_ check_for_price = Ok r2 ->
  rt (n + 2) high_model prompt_ check_for_price = Ok r3 ->
  ~ (response r1 = response r2 /\ response r2 = response r3) ->
  let s3 :=
    {| total_cost :=
         charge check_for_price r3
           (charge check_for_price r2
              (charge check_for_price r1 (total_cost s)));
       calls := calls s
                ++ [returned high_model prompt_ check_for_price r1;
                    returned high_model prompt_ check_for_price r2;
                    returned high_model prompt_ check_for_price r3] |} in
  let loop := attempts_loop rt prompt_ check_for_price high_model
                budget_model in
  attempt_step rt prompt_ check_for_price high_model budget_model attempt s
  = (Ok None, s3)
  /\ loop (attempt :: range) s = loop range s3.
Proof.
  intros n H1 H2 H3 Hne s3 loop. subst n.
  pose proof (attempt_body_disagree rt prompt_ check_for_price high_model
                budget_model attempt s H1 H2 H3 Hne) as Hb.
  apply attempt_step_ok in Hb. split; [exact Hb|].
  subst loop s3. rewrite attempts_loop_cons, Hb. reflexivity.
Qed.

(** The broken run after its first call: the second attempt has the
    samples Paris, Berlin, Paris. *)
Lemma disagreement_skips_verification_witness :
  let rt := scripted (C := float) script_broken in
  let s1 := {| total_cost := 0%float;
               calls := [failed (lit "gemini25pro") capital_prompt true
                           (Exception (lit "API call failed for model 'gemini25pro' (vendor: Gemini): Gemini API call failed: 503"))] |} in
  exists s3,
    attempt_step rt capital_prompt true (lit "gemini25pro")
      (lit "gemini25flash") 1 s1 = (Ok None, s3)
    /\ List.length (calls s3) = 4%nat /\ total_cost s3 = 9%float.
Proof.
  intros rt s1. eexists. split.
  - refine (proj1 (disagreement_skips_verification rt capital_prompt true
                     (lit "gemini25pro") (lit "gemini25flash") 1 [] s1
                     (r1 := _) (r2 := _) (r3 := _)
                     eq_refl eq_refl eq_refl _)).
    intros [Hx _]. vm_compute in Hx. discriminate.
  - split; reflexivity.
Defined.

(** ** Cost tracking switched off *)

(** X4. Without cost tracking the total stays [0.0] whatever costs the
    router's answers carry, and a returned dictionary has no [cost]
    key. *)
Theorem no_cost_without_tracking
    {C : Type} `{Number C} (cfg : model_config C) (rt : router C)
    (vendor_ prompt_ : pystr) :
  let run := ai_call_checked (constructed cfg rt) vendor_ prompt_ false in
  total_cost (snd run) = nzero
  /\ forall res, fst run = Ok res -> cost res = None.
Proof.
  intros run. split.
  - exact (total_cost_is_sum cfg rt vendor_ prompt_ false).
  - intros res Hres.
    assert (Hrun : run = (Ok res, snd run))
      by (destruct run; simpl in *; congruence).
    exact (returned_cost _ _ _ _ _ Hrun).
Qed.

(** The confirmed run, whose answers all carry a cost. *)
Lemma no_cost_without_tracking_witness :
  let run := ai_call_checked (C := float) (constructed demo_config
               (scripted script_validated)) (lit "Gemini") capital_prompt
               false in
  exists res,
    fst run = Ok res /\ cost res = None /\ total_cost (snd run) = 0%float
    /\ reported_costs (calls (snd run))
       = [3%float; 3%float; 3%float; 1%float].
Proof.
  intros run.
  destruct (no_cost_without_tracking (C := float) demo_config
              (scripted script_validated) (lit "Gemini") capital_prompt)
    as [Ht Hc].
  fold run in Ht, Hc.
  assert (Hrun : fst run
                 = Ok (validated_result capital_prompt false
                         (lit "gemini25pro") (lit "gemini25flash") 0
                         (lit "Paris") 0%float))
    by (vm_compute; reflexivity).
  eexists. split; [exact Hrun|]. split; [exact (Hc _ Hrun)|].
  split; [exact Ht|vm_compute; reflexivity].
Defined.

(** ** [strip] *)

Lemma lstrip_spaces (s : pystr) :
  forallb isspace s = true -> lstrip s = [].
Proof.
  induction s as [|c s IH]; simpl; [reflexivity|].
  intros Hs. apply andb_prop in Hs. destruct Hs as [Hc Hs].
  rewrite Hc. auto.
Qed.

Lemma strip_spaces (s : pystr) : forallb isspace s = true -> strip s = [].
Proof. intros Hs. unfold strip. now rewrite lstrip_spaces. Qed.

(** What [lstrip] leaves is empty or begins with a character that is not
    white space. *)
Lemma lstrip_head (s : pystr) :
  match lstrip s with
  | [] => True
  | c :: _ => isspace c = false
  end.
Proof.
  induction s as [|c s IH]; simpl; [exact I|].
  destruct (isspace c) eqn:Hc; [exact IH|exact Hc].
Qed.

Lemma lstrip_fixed (s : pystr) :
  match s with [] => True | c :: _ => isspace c = false end ->
  lstrip s = s.
Proof. destruct s as [|c s]; simpl; [reflexivity|]. now intros ->. Qed.

Lemma lstrip_idempotent (s : pystr) : lstrip (lstrip s) = lstrip s.
Proof. apply lstrip_fixed, lstrip_head. Qed.

(** [lstrip] removes a prefix. *)
Lemma lstrip_suffix (s : pystr) : exists pre, s = pre ++ lstrip s.
Proof.
  induction s as [|c s [pre IH]]; simpl; [now exists []|].
  destruct (isspace c).
  - exists (c :: pre). simpl. now rewrite <- IH.
  - now exists [].
Qed.

(** [rstrip] removes a suffix. *)
Lemma rstrip_prefix (s : pystr) : exists suf, s = rstrip s ++ suf.
Proof.
  unfold rstrip. destruct (lstrip_suffix (rev s)) as [pre Hp].
  exists (rev pre).
  rewrite <- rev_app_distr, <- Hp. now rewrite rev_involutive.
Qed.

Lemma rstrip_idempotent (s : pystr) : rstrip (rstrip s) = rstrip s.
Proof.
  unfold rstrip. now rewrite rev_involutive, lstrip_idempotent.
Qed.

(** [rstrip] keeps the first character of what it leaves. *)
Lemma rstrip_head (s : pystr) :
  match s with [] => True | c :: _ => isspace c = false end ->
  match rstrip s with [] => True | c :: _ => isspace c = false end.
Proof.
  intros Hs. destruct (rstrip_prefix s) as [suf Heq].
  destruct (rstrip s) as [|c t]; [exact I|].
  rewrite Heq in Hs. exact Hs.
Qed.

Lemma strip_head (s : pystr) :
  match strip s with [] => True | c :: _ => isspace c = false end.
Proof. unfold strip. apply rstrip_head, lstrip_head. Qed.

Lemma strip_last (s : pystr) :
  match rev (strip s) with [] => True | c :: _ => isspace c = false end.
Proof.
  unfold strip, rstrip. rewrite rev_involutive. apply lstrip_head.
Qed.

Lemma strip_idempotent (s : pystr) : strip (strip s) = strip s.
Proof.
  unfold strip at 1. rewrite (lstrip_fixed _ (strip_head s)).
  unfold strip. apply rstrip_idempotent.
Qed.

(** ** The text of a validated result *)

(** X5. The text of a [validated] result has no white space at either
    end: it begins and ends with a character that is not white space or
    it is empty, stripping it again changes nothing, and it is never the
    sentinel [%FALSE%]. *)
Theorem validated_response_is_stripped
    {C : Type} `{Number C} (cfg : model_config C) (rt : router C)
    (vendor_ prompt_ : pystr) (check_for_price : bool)
    (res : result_dict C) (s' : state C) :
  ai_call_checked (constructed cfg rt)
      vendor_ prompt_ check_for_price = (Ok res, s') ->
  finish_reason res = lit "validated" ->
  exists text,
    response res = Some text
    /\ strip text = text
    /\ text <> FALSE_sentinel
    /\ match text with [] => True | c :: _ => isspace c = false end
    /\ match rev text with
       | [] => True
       | c :: _ => isspace c = false
       end.
Proof.
  intros Hrun Hfin.
  destruct (ai_call_checked_returns _ _ _ _ _ Hrun)
    as (hm & bm & Hf & [(a & s1 & Ha & Hl & Hb)|(Hl & ->)]).
  - apply attempt_body_returns in Hb.
    destruct Hb as (r1 & r2 & r3 & v & t & _ & _ & _ & _ & _ & _ & _ & Hs
                    & _ & ->).
    exists (strip t). cbn [response validated_result].
    split; [reflexivity|].
    split; [apply strip_idempotent|]. split; [exact Hs|].
    split; [apply strip_head|apply strip_last].
  - exfalso. exact (validated_not_failed Hfin).
Qed.

(** The answer ["Paris"] followed by a newline is returned as ["Paris"]. *)
Lemma validated_response_is_stripped_witness :
  exists res s',
    ai_call_checked (C := float) (constructed demo_config
      (scripted script_trailing_newline)) (lit "Gemini") capital_prompt true
    = (Ok res, s')
    /\ response res = Some (lit "Paris")
    /\ strip (lit "Paris") = lit "Paris".
Proof.
  eexists. eexists.
  assert (Hrun : ai_call_checked (C := float) (constructed demo_config
                   (scripted script_trailing_newline)) (lit "Gemini")
                   capital_prompt true
                 = (Ok (validated_result capital_prompt true
                          (lit "gemini25pro") (lit "gemini25flash") 0
                          (lit "Paris") 10%float),
                    snd (ai_call_checked (C := float) (constructed demo_config
                           (scripted script_trailing_newline)) (lit "Gemini")
                           capital_prompt true)))
    by (vm_compute; reflexivity).
  split; [exact Hrun|]. split; [reflexivity|].
  destruct (validated_response_is_stripped _ _ _ _ _ Hrun eq_refl)
    as (text & Ht & Hs & _).
  injection Ht as <-. exact Hs.
Defined.

(** X6. A verification answer that is empty or white space only is not
    the sentinel: after consensus it is accepted, and the attempt returns
    a [validated] result whose text is empty. *)
Theorem blank_verification_is_validated
    {C : Type} `{Number C} (rt : router C) (prompt_ : pystr)
    (check_for_price : bool) (high_model budget_model : pystr)
    (attempt : nat) (range : list nat) (s : state C)
    (r1 r2 r3 v : result_dict C) (t : pystr) :
  let n := List.length (calls s) in
  rt n high_model prompt_ check_for_price = Ok r1 ->
  rt (n + 1) high_model prompt_ check_for_price = Ok r2 ->
  rt (n + 2) high_model prompt_ check_for_price = Ok r3 ->
  response r1 = response r2 -> response r2 = response r3 ->
  rt (n + 3) budget_model
     (validation_prompt prompt_ [response r1; response r2; response r3])
     check_for_price = Ok v ->
  response v = Some t ->
  forallb isspace t = true ->
  let s4 := after_verification prompt_ check_for_price high_model
              budget_model s r1 r2 r3 v in
  attempts_loop rt prompt_ check_for_price high_model budget_model
    (attempt :: range) s
  = (Ok (Some (validated_result prompt_ check_for_price high_model
                 budget_model attempt [] (total_cost s4))), s4).
Proof.
  intros n H1 H2 H3 E12 E23 Hv Ht Hblank s4.
  pose proof (attempt_body_agree rt prompt_ check_for_price high_model
                budget_model attempt s H1 H2 H3 E12 E23 Hv Ht) as Hb.
  rewrite (strip_spaces _ Hblank) in Hb. fold s4 in Hb.
  change (pystr_eqb [] FALSE_sentinel) with false in Hb.
  apply attempt_step_ok in Hb.
  rewrite attempts_loop_cons, Hb. reflexivity.
Qed.

(** Consensus on ["Paris"], answered by a blank and a newline. *)
Lemma blank_verification_is_validated_witness :
  let blank := Ok {| prompt := None; response := Some [32%N; 10%N];
                     model_used := lit "mock"; finish_reason := lit "stop";
                     attempts := None; cost := Some 1%float |} in
  let rt := scripted [paris; paris; paris; blank] in
  exists res s4,
    attempts_loop rt capital_prompt true (lit "gemini25pro")
      (lit "gemini25flash") [0; 1; 2; 3; 4]%nat initial_state
    = (Ok (Some res), s4)
    /\ response res = Some [] /\ finish_reason res = lit "validated".
Proof.
  intros blank rt. eexists. eexists. split.
  - refine (blank_verification_is_validated rt capital_prompt true
              (lit "gemini25pro") (lit "gemini25flash") 0 [1; 2; 3; 4]%nat
              initial_state (r1 := _) (r2 := _) (r3 := _) (v := _) (t := _)
              eq_refl eq_refl eq_refl eq_refl eq_refl eq_refl eq_refl
              eq_refl).
  - split; reflexivity.
Defined.

(** ** Everything the call can raise, everything it can return *)

(** The ways the call can end by an exception once the router is
    constructed. *)
Lemma run_raised_cases
    {C : Type} `{Number C} (cfg : model_config C) (rt : router C)
    (vendor_ prompt_ : pystr) (check_for_price : bool)
    (e : exn) (s' : state C) :
  ai_call_checked (constructed cfg rt) vendor_ prompt_ check_for_price
  = (Raised e, s') ->
  (s' = initial_state
   /\ ((existsb (pystr_eqb vendor_) allowed_vendors = false
        /\ e = ValueError (not_allowed_msg vendor_))
       \/ (truthy (fst (find_models cfg vendor_)) = false
           /\ e = ValueError (no_high_msg vendor_))
       \/ (truthy (snd (find_models cfg vendor_)) = false
           /\ e = ValueError (no_budget_msg vendor_))))
  \/ (exists high_model budget_model s1 earlier model_name p,
        find_models cfg vendor_ = (Some high_model, Some budget_model)
        /\ attempts_loop rt prompt_ check_for_price high_model budget_model
             (seq 0 4) initial_state = (Ok None, s1)
        /\ (model_name = high_model \/ model_name = budget_model)
        /\ (5 <= List.length (calls s'))%nat
        /\ ((calls s' = earlier ++ [failed model_name p check_for_price e]
             /\ rt (List.length earlier) model_name p check_for_price
                = Raised e)
            \/ (exists v,
                  calls s'
                  = earlier ++ [returned model_name p check_for_price v]
                  /\ rt (List.length earlier) model_name p check_for_price
                     = Ok v
                  /\ model_name = budget_model
                  /\ response v = None
                  /\ e = no_attribute "strip"))).
Proof.
  intros Hrun.
  destruct (existsb (pystr_eqb vendor_) allowed_vendors) eqn:Hv.
  2:{ left. unfold ai_call_checked, constructed in Hrun. rewrite Hv in Hrun.
      cbn [negb] in Hrun. injection Hrun as <- <-. auto. }
  destruct (find_models cfg vendor_) as [hm bm] eqn:Hf.
  destruct hm as [[|c h]|].
  1,3: left; unfold ai_call_checked, constructed in Hrun;
       rewrite Hv, Hf in Hrun;
       cbn [negb] in Hrun; injection Hrun as <- <-; auto.
  destruct bm as [[|c' b]|].
  1,3: left; unfold ai_call_checked, constructed in Hrun;
       rewrite Hv, Hf in Hrun;
       cbn [negb] in Hrun; injection Hrun as <- <-; auto.
  right.
  assert (Hres : resolves cfg vendor_ (c :: h) (c' :: b))
    by (repeat split; auto; discriminate).
  pose proof (run_groups rt prompt_ check_for_price Hres)
    as (groups & Hc & Hall & _ & _ & Hfive).
  rewrite Hrun in Hc, Hfive. cbn [fst snd] in Hc, Hfive.
  specialize (Hfive e eq_refl).
  assert (Hb : Forall (fun g : list (call C) =>
                         1 <= List.length g <= 4)%nat groups)
    by (eapply Forall_impl; [|exact Hall]; intros g; apply group_length).
  apply concat_length_bounds in Hb. rewrite <- Hc, Hfive in Hb.
  rewrite (resolves_run rt prompt_ check_for_price Hres) in Hrun.
  destruct (attempts_loop rt prompt_ check_for_price (c :: h) (c' :: b)
              (seq 0 5) initial_state) as [[[res|]|e0] s0] eqn:Hl;
    cbn [finish] in Hrun; try discriminate.
  injection Hrun as -> ->.
  apply attempts_loop_raised in Hl.
  destruct Hl as (l1 & l2 & s1 & Hsplit & Hl1 & Hbody).
  apply seq_split in Hsplit. destruct Hsplit as (_ & _ & -> & _).
  apply attempt_body_raised in Hbody.
  destruct Hbody as (earlier & m & q & Hm & Hcalls).
  exists (c :: h), (c' :: b), s1, earlier, m, q.
  split; [reflexivity|]. split; [exact Hl1|]. split; [tauto|].
  split; [lia|]. exact Hcalls.
Qed.

(** X7. The checked call raises in four situations only. Before any
    router call: the [ValueError] of a vendor outside the allow list;
    whatever the construction of the router raised; the [ValueError] of a
    missing high or budget model. Or in the fifth attempt, after the four
    attempts before it ended without a result and at least five calls
    were made: the very exception the last router call raised, or the
    [AttributeError] of [strip] when the last call, the verification,
    came back without a text. *)
Theorem raises_only_configuration_or_fifth_attempt
    {C : Type} `{Number C} (new_router : construction C)
    (vendor_ prompt_ : pystr) (check_for_price : bool)
    (e : exn) (s' : state C) :
  ai_call_checked new_router vendor_ prompt_ check_for_price
  = (Raised e, s') ->
  (s' = initial_state
   /\ ((existsb (pystr_eqb vendor_) allowed_vendors = false
        /\ e = ValueError (not_allowed_msg vendor_))
       \/ (existsb (pystr_eqb vendor_) allowed_vendors = true
           /\ new_router = Raised e)
       \/ (exists cfg rt,
             new_router = constructed cfg rt
             /\ ((truthy (fst (find_models cfg vendor_)) = false
                  /\ e = ValueError (no_high_msg vendor_))
                 \/ (truthy (snd (find_models cfg vendor_)) = false
                     /\ e = ValueError (no_budget_msg vendor_))))))
  \/ (exists cfg rt high_model budget_model s1 earlier model_name p,
        new_router = constructed cfg rt
        /\ find_models cfg vendor_ = (Some high_model, Some budget_model)
        /\ attempts_loop rt prompt_ check_for_price high_model budget_model
             (seq 0 4) initial_state = (Ok None, s1)
        /\ (model_name = high_model \/ model_name = budget_model)
        /\ (5 <= List.length (calls s'))%nat
        /\ ((calls s' = earlier ++ [failed model_name p check_for_price e]
             /\ rt (List.length earlier) model_name p check_for_price
                = Raised e)
            \/ (exists v,
                  calls s'
                  = earlier ++ [returned model_name p check_for_price v]
                  /\ rt (List.length earlier) model_name p check_for_price
                     = Ok v
                  /\ model_name = budget_model
                  /\ response v = None
                  /\ e = no_attribute "strip"))).
Proof.
  intros Hrun. destruct new_router as [[cfg rt]|e0].
  - change (Ok (cfg, rt)) with (constructed cfg rt) in Hrun.
    destruct (run_raised_cases _ _ _ _ _ Hrun)
      as [(Hs & [Hv|Hm])|(hm & bm & s1 & earlier & m & q & Hrest)].
    + left. split; [exact Hs|]. now left.
    + left. split; [exact Hs|]. right. right. now exists cfg, rt.
    + right. exists cfg, rt, hm, bm, s1, earlier, m, q.
      split; [reflexivity|exact Hrest].
  - left. unfold ai_call_checked in Hrun.
    destruct (existsb (pystr_eqb vendor_) allowed_vendors) eqn:Hv;
      cbn [negb] in Hrun; injection Hrun as <- <-.
    + split; [reflexivity|]. right. left. auto.
    + split; [reflexivity|]. left. auto.
Qed.

(** The broken run raises the failure of its twelfth call; the run with
    OpenAI replies without a text raises the [AttributeError] of [strip]
    after twenty calls; and a router that cannot be constructed, for a
    missing key, raises before any call. *)
Lemma raises_only_configuration_or_fifth_attempt_witness :
  let rt := scripted (C := float) script_broken in
  let silent :=
    fixed (C := float)
      (Ok {| prompt := None; response := None; model_used := lit "mock";
             finish_reason := lit "content_filter"; attempts := None;
             cost := Some 1%float |}) in
  let no_key := ValueError (lit "GEMINI_KEY not found in secrets.env") in
  (exists e s' earlier model_name p,
     ai_call_checked (constructed demo_config rt) (lit "Gemini")
       capital_prompt true = (Raised e, s')
     /\ calls s' = earlier ++ [failed model_name p true e]
     /\ rt (List.length earlier) model_name p true = Raised e
     /\ List.length (calls s') = 12%nat)
  /\ (exists s',
        ai_call_checked (constructed demo_config silent) (lit "Gemini")
          capital_prompt true = (Raised (no_attribute "strip"), s')
        /\ List.length (calls s') = 20%nat
        /\ total_cost s' = 15%float)
  /\ ai_call_checked (C := float) (Raised no_key) (lit "Gemini")
       capital_prompt true = (Raised no_key, initial_state).
Proof.
  intros rt silent no_key. split; [|split].
  - assert (Hrun : ai_call_checked (constructed demo_config rt) (lit "Gemini")
                     capital_prompt true
                   = (broken,
                      snd (ai_call_checked (constructed demo_config rt)
                             (lit "Gemini") capital_prompt true)))
      by (vm_compute; reflexivity).
    destruct (raises_only_configuration_or_fifth_attempt _ _ _ _ Hrun)
      as [[Hinit _]
         |(cfg & rt' & hm & bm & s1 & earlier & m & q & Hnew & _ & _ & _ & _
           & [[Hc Hr]|(v & _ & _ & _ & _ & Hx)])].
    + exfalso. apply (f_equal (fun s => List.length (calls s))) in Hinit.
      vm_compute in Hinit. discriminate.
    + injection Hnew as <- <-.
      eexists. eexists. exists earlier, m, q.
      split; [exact Hrun|]. split; [exact Hc|]. split; [exact Hr|].
      vm_compute. reflexivity.
    + exfalso. vm_compute in Hx. discriminate.
  - eexists. split; [vm_compute; reflexivity|].
    split; vm_compute; reflexivity.
  - reflexivity.
Defined.

(** X8. Every dictionary the checked call returns echoes the prompt,
    carries [cost] exactly when a price was asked for (the final total),
    and is of one of two kinds: a [validated] result labelled with the
    high and the budget model found, or the failure dictionary with
    status [validation_failed], [attempts = 5] and the text
    ["ERROR: Failed to get validated response after 5 attempts for
    vendor: ..."]. *)
Theorem returned_dictionary_shape
    {C : Type} `{Number C} (cfg : model_config C) (rt : router C)
    (vendor_ prompt_ : pystr) (check_for_price : bool)
    (res : result_dict C) (s' : state C) :
  ai_call_checked (constructed cfg rt)
      vendor_ prompt_ check_for_price = (Ok res, s') ->
  exists high_model budget_model,
    find_models cfg vendor_ = (Some high_model, Some budget_model)
    /\ prompt res = Some prompt_
    /\ cost res = (if check_for_price then Some (total_cost s') else None)
    /\ ((finish_reason res = lit "validated"
         /\ model_used res
            = high_model ++ lit " (validated by " ++ budget_model ++ lit ")")
        \/ (finish_reason res = lit "validation_failed"
            /\ attempts res = Some 5%Z
            /\ response res = Some (lit "ERROR: " ++ failed_msg vendor_)
            /\ model_used res = high_model ++ lit " (validation failed)")).
Proof.
  intros Hrun.
  destruct (ai_call_checked_returns _ _ _ _ _ Hrun)
    as (hm & bm & Hf & [(a & s1 & Ha & Hl & Hb)|(Hl & ->)]);
    exists hm, bm; (split; [exact Hf|]).
  - apply attempt_body_returns in Hb.
    destruct Hb as (r1 & r2 & r3 & v & t & _ & _ & _ & _ & _ & _ & _ & _
                    & _ & ->).
    repeat split. left. split; reflexivity.
  - repeat split. right. repeat split.
Qed.

(** The exhausted run returns the failure dictionary. *)
Lemma returned_dictionary_shape_witness :
  exists res s',
    ai_call_checked (C := float)
        (constructed demo_config (scripted script_exhausted))
      (lit "Gemini") capital_prompt true = (Ok res, s')
    /\ prompt res = Some capital_prompt
    /\ cost res = Some (total_cost s')
    /\ finish_reason res = lit "validation_failed".
Proof.
  eexists. eexists.
  assert (Hrun : ai_call_checked (C := float) (constructed demo_config
                   (scripted script_exhausted)) (lit "Gemini")
                   capital_prompt true
                 = (Ok (failure_result (lit "Gemini") capital_prompt true
                          (lit "gemini25pro") 50%float),
                    snd (ai_call_checked (C := float) (constructed demo_config
                           (scripted script_exhausted)) (lit "Gemini")
                           capital_prompt true)))
    by (vm_compute; reflexivity).
  destruct (returned_dictionary_shape _ _ _ _ _ Hrun)
    as (hm & bm & _ & Hp & Hc & _).
  split; [exact Hrun|]. split; [exact Hp|]. split; [exact Hc|reflexivity].
Defined.

(** ** The models found *)

Lemma first_with_role_in {C : Type} (cfg : model_config C)
    (vendor_ role name : pystr) :
  first_with_role cfg vendor_ role = Some name ->
  exists info,
    In (name, info) cfg /\ vendor info = vendor_ /\ type info = role.
Proof.
  unfold first_with_role.
  destruct (find (has_role vendor_ role) cfg) as [[n info]|] eqn:Hfind;
    [|discriminate].
  simpl. intros Hx. injection Hx as ->.
  apply find_some in Hfind. destruct Hfind as [Hin Hrole].
  unfold has_role in Hrole. apply andb_prop in Hrole.
  destruct Hrole as [Hv Ht]. apply pystr_eqb_eq in Hv, Ht.
  exists info. auto.
Qed.

(** In a registry with distinct keys a name has one entry. *)
Lemma distinct_keys_one_entry {C : Type} (cfg : model_config C)
    (name : pystr) (i1 i2 : model_info C) :
  NoDup (map fst cfg) -> In (name, i1) cfg -> In (name, i2) cfg -> i1 = i2.
Proof.
  induction cfg as [|[n i] cfg IH]; simpl; [tauto|].
  intros Hnd [H1|H1] [H2|H2]; inversion Hnd as [|? ? Hnotin Hnd']; subst.
  - congruence.
  - injection H1 as -> ->. exfalso. apply Hnotin.
    change name with (fst (name, i2)). now apply in_map.
  - injection H2 as -> ->. exfalso. apply Hnotin.
    change name with (fst (name, i1)). now apply in_map.
  - auto.
Qed.

(** X9. The models the checked call works with are entries of the
    registry: the high model is a model of the vendor with type [high],
    the budget model a model of the vendor with type [budget]; and, the
    keys of the registry being distinct, they are two different models. *)
Theorem resolved_models_are_registry_entries
    {C : Type} (cfg : model_config C) (vendor_ : pystr)
    (high_model budget_model : pystr) :
  find_models cfg vendor_ = (Some high_model, Some budget_model) ->
  (exists info,
     In (high_model, info) cfg /\ vendor info = vendor_
     /\ type info = lit "high")
  /\ (exists info,
        In (budget_model, info) cfg /\ vendor info = vendor_
        /\ type info = lit "budget")
  /\ (NoDup (map fst cfg) -> high_model <> budget_model).
Proof.
  rewrite find_models_last. intros Hf. injection Hf as Hh Hb.
  unfold last_with_role in Hh, Hb.
  apply first_with_role_in in Hh, Hb.
  destruct Hh as (ih & Hih & Hvh & Hth), Hb as (ib & Hib & Hvb & Htb).
  apply in_rev in Hih, Hib.
  split; [exists ih; auto|]. split; [exists ib; auto|].
  intros Hnd Heq. subst budget_model.
  pose proof (distinct_keys_one_entry _ _ _ _ Hnd Hih Hib) as Hi.
  subst ib. rewrite Hth in Htb. discriminate.
Qed.

(** The registry of the scenarios for Gemini. *)
Lemma resolved_models_are_registry_entries_witness :
  (exists info,
     In (lit "gemini25pro", info) (demo_config (C := float))
     /\ vendor info = lit "Gemini" /\ type info = lit "high")
  /\ lit "gemini25pro" <> lit "gemini25flash".
Proof.
  destruct (resolved_models_are_registry_entries (C := float) demo_config
              (lit "Gemini") (high_model := lit "gemini25pro")
              (budget_model := lit "gemini25flash") eq_refl)
    as (Hh & _ & Hne).
  split; [exact Hh|]. apply Hne.
  repeat constructor; simpl; intuition discriminate.
Defined.

(** ** The router *)

Lemma vendor_names_differ :
  lit "OpenAI" <> lit "Anthropic" /\ lit "OpenAI" <> lit "Gemini"
  /\ lit "Anthropic" <> lit "Gemini".
Proof. repeat split; discriminate. Qed.

(** X10. The router dispatches on the vendor the registry declares for
    the model, and on nothing else. An unknown model name raises the
    [ValueError] "not found" and a vendor without client the [ValueError]
    "not supported", neither wrapped; for OpenAI, Anthropic and Gemini
    the outcome is the outcome of that vendor's adapter alone: a result
    is passed on unchanged, an exception of any class is raised again as
    an [Exception] naming model and vendor. The branch "not yet
    implemented" is never taken. *)
Theorem router_dispatches_by_registry_vendor
    {C : Type} (cfg : model_config C) (openai anthropic gemini : adapter C)
    (model_name prompt_ : pystr) (system_message : option pystr)
    (temperature : Q) (max_tokens : option Z) (check_for_price : bool) :
  let call :=
    APIRouter.communicate_with_ai openai anthropic gemini cfg model_name
      prompt_ system_message temperature max_tokens check_for_price in
  let through (a : adapter C) :=
    a model_name prompt_ system_message temperature max_tokens
      check_for_price in
  match lookup cfg model_name with
  | None => call = Raised (ValueError (not_found_msg model_name))
  | Some info =>
      (vendor info = lit "OpenAI" ->
       call = routed model_name (vendor info) (through openai))
      /\ (vendor info = lit "Anthropic" ->
          call = routed model_name (vendor info) (through anthropic))
      /\ (vendor info = lit "Gemini" ->
          call = routed model_name (vendor info) (through gemini))
      /\ (vendor info <> lit "OpenAI" -> vendor info <> lit "Anthropic" ->
          vendor info <> lit "Gemini" ->
          call = Raised (ValueError
                   (lit "Vendor '" ++ vendor info
                    ++ lit "' not supported or client not implemented")))
  end.
Proof.
  intros call through. subst call through.
  unfold APIRouter.communicate_with_ai, APIRouter._get_model_info.
  destruct (lookup cfg model_name) as [info|]; [|reflexivity].
  repeat split.
  - intros ->. reflexivity.
  - intros ->. reflexivity.
  - intros ->. reflexivity.
  - intros Ho Ha Hg. apply pystr_eqb_neq in Ho, Ha, Hg.
    unfold APIRouter.vendor_clients. cbn [existsb].
    rewrite Ho, Ha, Hg. reflexivity.
Qed.

(** A Gemini model goes to the Gemini adapter, whatever the others do. *)
Lemma router_dispatches_by_registry_vendor_witness :
  APIRouter.communicate_with_ai (C := float) (no_adapter 0) (no_adapter 0)
    (GeminiClient.call_api demo_config (gemini_paris 0)) demo_config
    (lit "gemini25flash") capital_prompt None (7 # 10)%Q None false
  = routed (lit "gemini25flash") (lit "Gemini")
      (GeminiClient.call_api demo_config (gemini_paris 0)
         (lit "gemini25flash") capital_prompt None (7 # 10)%Q None false).
Proof.
  pose proof (router_dispatches_by_registry_vendor (C := float) demo_config
                (no_adapter 0) (no_adapter 0)
                (GeminiClient.call_api demo_config (gemini_paris 0))
                (lit "gemini25flash") capital_prompt None (7 # 10)%Q None
                false) as Hr.
  cbv zeta in Hr.
  change (lookup (C := float) demo_config (lit "gemini25flash"))
    with (Some (snd (entry (C := float) "gemini25flash" "Gemini"
                       "gemini-2.5-flash" "budget" 1 1))) in Hr.
  exact (proj1 (proj2 (proj2 Hr)) eq_refl).
Defined.

(** ** The adapters' failures *)

(** Reading a reply of OpenAI raises only when a cost is asked for: the
    reply has no usage report, or a token count is too large for a
    float. *)
Lemma openai_read_reply_raised {C : Type} `{Number C} (info : model_info C)
    (calculate_cost : bool) (resp : OpenAIClient.completion) (e0 : exn) :
  OpenAIClient.read_reply info calculate_cost resp = Raised e0 ->
  calculate_cost = true
  /\ ((OpenAIClient.usage resp = None /\ e0 = no_attribute "prompt_tokens")
      \/ (exists u,
            OpenAIClient.usage resp = Some u
            /\ spec_cost info (OpenAIClient.prompt_tokens u,
                               OpenAIClient.completion_tokens u) = None
            /\ e0 = too_large)).
Proof.
  unfold OpenAIClient.read_reply. destruct calculate_cost; [|discriminate].
  destruct (OpenAIClient.usage resp) as [u|].
  - rewrite calculate_cost_openai.
    destruct (spec_cost info _) as [c|] eqn:Hc; [discriminate|].
    intros Hx. injection Hx as <-. split; [reflexivity|]. right.
    exists u. auto.
  - intros Hx. injection Hx as <-. auto.
Qed.

(** Reading a reply of Gemini raises only when a cost is asked for and
    an estimated token count is too large for a float. *)
Lemma gemini_read_reply_raised {C : Type} `{Number C} (info : model_info C)
    (full : pystr) (calculate_cost : bool) (resp : GeminiClient.generation)
    (e0 : exn) :
  GeminiClient.read_reply info full calculate_cost resp = Raised e0 ->
  calculate_cost = true
  /\ spec_cost info (spec_token_counts None full (GeminiClient.text resp))
     = None
  /\ e0 = too_large.
Proof.
  unfold GeminiClient.read_reply. destruct calculate_cost; [|discriminate].
  rewrite calculate_cost_gemini. unfold spec_token_counts.
  unfold GeminiClient._estimate_tokens.
  destruct (spec_cost info _) as [c|] eqn:Hc; [discriminate|].
  intros Hx. injection Hx as <-. auto.
Qed.

(** X11. An adapter raises in three situations only: the model name is
    not in the configuration ([ValueError] "not found"); the model
    belongs to another vendor ([ValueError] "is not an OpenAI model",
    "is not a Gemini model"); or the body of [try:] raised, and then the
    exception is an [Exception] whose text is the adapter's prefix
    followed by the text of that exception. The body of [try:] raises
    what the provider call raised, or, when a cost is asked for, what
    reading the reply raised: for OpenAI the [AttributeError] of a reply
    without usage report, for both the [OverflowError] of a token count
    too large for a float. *)
Theorem adapter_failures
    {C : Type} `{Number C} (cfg : model_config C)
    (model_name prompt_ : pystr) (system_message : option pystr)
    (temperature : Q) (max_tokens : option Z) (calculate_cost : bool)
    (e : exn) :
  (forall create,
     OpenAIClient.call_api cfg create model_name prompt_ system_message
       temperature max_tokens calculate_cost = Raised e ->
     (lookup cfg model_name = None
      /\ e = ValueError (not_found_msg model_name))
     \/ (exists info,
           lookup cfg model_name = Some info
           /\ vendor info <> lit "OpenAI"
           /\ e = ValueError (lit "Model '" ++ model_name
                              ++ lit "' is not an OpenAI model"))
     \/ (exists info params e0,
           lookup cfg model_name = Some info
           /\ vendor info = lit "OpenAI"
           /\ OpenAIClient.model params = vendor_model_id info
           /\ e = Exception (lit "OpenAI API call failed: " ++ str_exn e0)
           /\ (create params = Raised e0
               \/ exists resp,
                    create params = Ok resp
                    /\ calculate_cost = true
                    /\ ((OpenAIClient.usage resp = None
                         /\ e0 = no_attribute "prompt_tokens")
                        \/ (exists u,
                              OpenAIClient.usage resp = Some u
                              /\ spec_cost info
                                   (OpenAIClient.prompt_tokens u,
                                    OpenAIClient.completion_tokens u) = None
                              /\ e0 = too_large)))))
  /\ (forall generate_content,
        GeminiClient.call_api cfg generate_content model_name prompt_
          system_message temperature max_tokens calculate_cost = Raised e ->
        (lookup cfg model_name = None
         /\ e = ValueError (not_found_msg model_name))
        \/ (exists info,
              lookup cfg model_name = Some info
              /\ vendor info <> lit "Gemini"
              /\ e = ValueError (lit "Model '" ++ model_name
                                 ++ lit "' is not a Gemini model"))
        \/ (exists info config e0,
              let full := GeminiClient.full_prompt prompt_ system_message in
              lookup cfg model_name = Some info
              /\ vendor info = lit "Gemini"
              /\ e = Exception (lit "Gemini API call failed: "
                                ++ str_exn e0)
              /\ (generate_content (vendor_model_id info) config full
                  = Raised e0
                  \/ exists resp,
                       generate_content (vendor_model_id info) config full
                       = Ok resp
                       /\ calculate_cost = true
                       /\ spec_cost info
                            (spec_token_counts None full
                               (GeminiClient.text resp)) = None
                       /\ e0 = too_large))).
Proof.
  split.
  - intros create.
    unfold OpenAIClient.call_api, OpenAIClient._get_model_info.
    destruct (lookup cfg model_name) as [info|];
      [|intros Hx; injection Hx as <-; left; auto].
    destruct (pystr_eqb (vendor info) (lit "OpenAI")) eqn:Hv.
    2:{ intros Hx. injection Hx as <-. right. left.
        apply pystr_eqb_neq in Hv. exists info. auto. }
    apply pystr_eqb_eq in Hv. unfold reraise.
    match goal with
    | |- context [create ?p] => destruct (create p) as [resp|e0] eqn:Hc
    end.
    + destruct (OpenAIClient.read_reply info calculate_cost resp) as [r|e0]
        eqn:Hr; [discriminate|].
      intros Hx. injection Hx as <-. right. right.
      apply openai_read_reply_raised in Hr. destruct Hr as [Hcalc Hr].
      eexists info, _, e0. split; [reflexivity|]. split; [exact Hv|].
      split;
        [|split; [reflexivity
                 |right; exists resp; split; [exact Hc|];
                  split; [exact Hcalc|exact Hr]]].
      reflexivity.
    + intros Hx. injection Hx as <-. right. right.
      eexists info, _, e0. split; [reflexivity|]. split; [exact Hv|].
      split; [|split; [reflexivity|left; exact Hc]]. reflexivity.
  - intros generate_content.
    unfold GeminiClient.call_api, GeminiClient._get_model_info.
    destruct (lookup cfg model_name) as [info|];
      [|intros Hx; injection Hx as <-; left; auto].
    destruct (pystr_eqb (vendor info) (lit "Gemini")) eqn:Hv.
    2:{ intros Hx. injection Hx as <-. right. left.
        apply pystr_eqb_neq in Hv. exists info. auto. }
    apply pystr_eqb_eq in Hv. unfold reraise.
    match goal with
    | |- context [generate_content ?a ?b ?c] =>
        destruct (generate_content a b c) as [resp|e0] eqn:Hc
    end.
    + match goal with
      | |- context [GeminiClient.read_reply ?i ?f ?c ?x] =>
          destruct (GeminiClient.read_reply i f c x) as [r|e0] eqn:Hr
      end; [discriminate|].
      intros Hx. injection Hx as <-. right. right.
      apply gemini_read_reply_raised in Hr.
      destruct Hr as (Hcalc & Hcost & ->).
      eexists info, _, too_large. cbv zeta.
      split; [reflexivity|]. split; [exact Hv|]. split; [reflexivity|].
      right. exists resp. split; [exact Hc|]. auto.
    + intros Hx. injection Hx as <-. right. right.
      eexists info, _, e0. cbv zeta.
      split; [reflexivity|]. split; [exact Hv|]. split; [reflexivity|].
      left. exact Hc.
Qed.

(** The OpenAI adapter asked for a Gemini model. *)
Lemma adapter_failures_witness :
  exists e,
    OpenAIClient.call_api (C := float) demo_config (openai_paris 0)
      (lit "gemini25pro") capital_prompt None (7 # 10)%Q None true
    = Raised e
    /\ e = ValueError (lit "Model 'gemini25pro' is not an OpenAI model").
Proof.
  eexists. split; [reflexivity|].
  destruct (proj1 (adapter_failures (C := float) demo_config
                     (lit "gemini25pro") capital_prompt None (7 # 10)%Q None
                     true _) (openai_paris 0) eq_refl)
    as [[Hl _]|[(info & _ & _ & He)|(info & params & e0 & _ & _ & _ & He & _)]].
  - vm_compute in Hl. discriminate.
  - exact He.
  - discriminate.
Defined.

(** ** Router and adapters together *)

(** The ways a routed call can end by an exception. *)
Lemma routed_failure_cases
    {C : Type} `{Number C} (cfg : model_config C)
    (create : OpenAIClient.api_params -> outcome OpenAIClient.completion)
    (anthropic : adapter C)
    (generate_content :
       pystr -> GeminiClient.generation_config -> pystr ->
       outcome GeminiClient.generation)
    (model_name prompt_ : pystr) (system_message : option pystr)
    (temperature : Q) (max_tokens : option Z) (check_for_price : bool)
    (e : exn) :
  APIRouter.communicate_with_ai (OpenAIClient.call_api cfg create) anthropic
    (GeminiClient.call_api cfg generate_content) cfg model_name prompt_
    system_message temperature max_tokens check_for_price = Raised e ->
  let prefix vendor_ :=
    lit "API call failed for model '" ++ model_name
    ++ lit "' (vendor: " ++ vendor_ ++ lit "): " in
  (lookup cfg model_name = None /\ e = ValueError (not_found_msg model_name))
  \/ (exists info,
        lookup cfg model_name = Some info
        /\ existsb (pystr_eqb (vendor info)) APIRouter.vendor_clients = false
        /\ e = ValueError
                 (lit "Vendor '" ++ vendor info
                  ++ lit "' not supported or client not implemented"))
  \/ (exists info params e0,
        lookup cfg model_name = Some info
        /\ try_failed (create params)
             (OpenAIClient.read_reply info check_for_price) e0
        /\ e = Exception (prefix (lit "OpenAI")
                          ++ lit "OpenAI API call failed: " ++ str_exn e0))
  \/ (exists info model_id config full e0,
        lookup cfg model_name = Some info
        /\ try_failed (generate_content model_id config full)
             (GeminiClient.read_reply info full check_for_price) e0
        /\ e = Exception (prefix (lit "Gemini")
                          ++ lit "Gemini API call failed: " ++ str_exn e0))
  \/ (exists e0,
        anthropic model_name prompt_ system_message temperature max_tokens
          check_for_price = Raised e0
        /\ e = Exception (prefix (lit "Anthropic") ++ str_exn e0)).
Proof.
  intros Hcall prefix. subst prefix. revert Hcall.
  unfold APIRouter.communicate_with_ai, APIRouter._get_model_info.
  destruct (lookup cfg model_name) as [info|] eqn:Hl;
    [|intros Hx; injection Hx as <-; left; auto].
  destruct (existsb (pystr_eqb (vendor info)) APIRouter.vendor_clients)
    eqn:Hv; cbn [negb].
  2:{ intros Hx. injection Hx as <-. right. left. exists info. auto. }
  destruct (pystr_eqb (vendor info) (lit "OpenAI")) eqn:Ho.
  { apply pystr_eqb_eq in Ho.
    unfold OpenAIClient.call_api, OpenAIClient._get_model_info.
    rewrite Hl, Ho. cbn [pystr_eqb].
    change (pystr_eqb (lit "OpenAI") (lit "OpenAI")) with true. cbv iota.
    unfold reraise.
    match goal with
    | |- context [create ?p] => destruct (create p) as [resp|e0] eqn:Hc
    end.
    - destruct (OpenAIClient.read_reply info check_for_price resp) as [r|e0]
        eqn:Hr; [discriminate|].
      intros Hx. injection Hx as <-. right. right. left.
      eexists info, _, e0. split; [reflexivity|]. split.
      + right. exists resp. split; [exact Hc|exact Hr].
      + cbn [str_exn]. rewrite <- !app_assoc. reflexivity.
    - intros Hx. injection Hx as <-. right. right. left.
      eexists info, _, e0. split; [reflexivity|]. split.
      + left. exact Hc.
      + cbn [str_exn]. rewrite <- !app_assoc. reflexivity. }
  destruct (pystr_eqb (vendor info) (lit "Anthropic")) eqn:Ha.
  { apply pystr_eqb_eq in Ha.
    destruct (anthropic model_name prompt_ system_message temperature
                max_tokens check_for_price) as [r|e0] eqn:Hc; [discriminate|].
    intros Hx. injection Hx as <-. right. right. right. right.
    exists e0. split; [reflexivity|]. rewrite Ha.
    rewrite <- !app_assoc. reflexivity. }
  destruct (pystr_eqb (vendor info) (lit "Gemini")) eqn:Hg.
  { apply pystr_eqb_eq in Hg.
    unfold GeminiClient.call_api, GeminiClient._get_model_info.
    rewrite Hl, Hg.
    change (pystr_eqb (lit "Gemini") (lit "Gemini")) with true. cbv iota.
    unfold reraise.
    match goal with
    | |- context [generate_content ?a ?b ?c] =>
        destruct (generate_content a b c) as [resp|e0] eqn:Hc
    end.
    - match goal with
      | |- context [GeminiClient.read_reply ?i ?f ?c ?x] =>
          destruct (GeminiClient.read_reply i f c x) as [r|e0] eqn:Hr
      end; [discriminate|].
      intros Hx. injection Hx as <-. right. right. right. left.
      eexists info, _, _, _, e0. split; [reflexivity|]. split.
      + right. exists resp. split; [exact Hc|exact Hr].
      + cbn [str_exn]. rewrite <- !app_assoc. reflexivity.
    - intros Hx. injection Hx as <-. right. right. right. left.
      eexists info, _, _, _, e0. split; [reflexivity|]. split.
      + left. exact Hc.
      + cbn [str_exn]. rewrite <- !app_assoc. reflexivity. }
  unfold APIRouter.vendor_clients in Hv. cbn [existsb] in Hv.
  rewrite Ho, Ha, Hg in Hv. discriminate.
Qed.

(** X12. Through the router over the OpenAI and Gemini adapters, the
    adapters' own check of the vendor never fails. A call raises the
    [ValueError] "not found", the [ValueError] "not supported", or an
    [Exception] that wraps twice what the body of the adapter's [try:]
    raised, the provider's failure or the failure of reading its reply:
    the router's prefix, then the adapter's prefix, then the text of the
    exception (for Anthropic: the router's prefix and the text of what
    that adapter raised). *)
Theorem routed_failures_are_provider_failures
    {C : Type} `{Number C} (cfg : model_config C)
    (create : OpenAIClient.api_params -> outcome OpenAIClient.completion)
    (anthropic : adapter C)
    (generate_content :
       pystr -> GeminiClient.generation_config -> pystr ->
       outcome GeminiClient.generation)
    (model_name prompt_ : pystr) (system_message : option pystr)
    (temperature : Q) (max_tokens : option Z) (check_for_price : bool)
    (e : exn) :
  APIRouter.communicate_with_ai (OpenAIClient.call_api cfg create) anthropic
    (GeminiClient.call_api cfg generate_content) cfg model_name prompt_
    system_message temperature max_tokens check_for_price = Raised e ->
  let prefix vendor_ :=
    lit "API call failed for model '" ++ model_name
    ++ lit "' (vendor: " ++ vendor_ ++ lit "): " in
  (lookup cfg model_name = None /\ e = ValueError (not_found_msg model_name))
  \/ (exists info,
        lookup cfg model_name = Some info
        /\ existsb (pystr_eqb (vendor info)) APIRouter.vendor_clients = false
        /\ e = ValueError
                 (lit "Vendor '" ++ vendor info
                  ++ lit "' not supported or client not implemented"))
  \/ (exists info params e0,
        lookup cfg model_name = Some info
        /\ try_failed (create params)
             (OpenAIClient.read_reply info check_for_price) e0
        /\ e = Exception (prefix (lit "OpenAI")
                          ++ lit "OpenAI API call failed: " ++ str_exn e0))
  \/ (exists info model_id config full e0,
        lookup cfg model_name = Some info
        /\ try_failed (generate_content model_id config full)
             (GeminiClient.read_reply info full check_for_price) e0
        /\ e = Exception (prefix (lit "Gemini")
                          ++ lit "Gemini API call failed: " ++ str_exn e0))
  \/ (exists e0,
        anthropic model_name prompt_ system_message temperature max_tokens
          check_for_price = Raised e0
        /\ e = Exception (prefix (lit "Anthropic") ++ str_exn e0)).
Proof. apply routed_failure_cases. Qed.

(** A Gemini provider that is down. *)
Lemma routed_failures_are_provider_failures_witness :
  let down := fun (_ : pystr) (_ : GeminiClient.generation_config)
                  (_ : pystr) =>
                Raised (A := GeminiClient.generation)
                  (ProviderError (lit "503")) in
  APIRouter.communicate_with_ai (C := float)
    (OpenAIClient.call_api demo_config (openai_paris 0)) (no_adapter 0)
    (GeminiClient.call_api demo_config down) demo_config
    (lit "gemini25pro") capital_prompt None (7 # 10)%Q None true
  = Raised (Exception (lit "API call failed for model 'gemini25pro' (vendor: Gemini): Gemini API call failed: 503")).
Proof.
  intros down.
  assert (Hcall :
    APIRouter.communicate_with_ai (C := float)
      (OpenAIClient.call_api demo_config (openai_paris 0)) (no_adapter 0)
      (GeminiClient.call_api demo_config down) demo_config
      (lit "gemini25pro") capital_prompt None (7 # 10)%Q None true
    = Raised (Exception (lit "API call failed for model 'gemini25pro' (vendor: Gemini): Gemini API call failed: 503")))
    by (vm_compute; reflexivity).
  destruct (routed_failures_are_provider_failures _ _ _ _ _ _ _ _ _ _ Hcall)
    as [[_ He]|[(info & _ & _ & He)|[(info & params & e0 & _ & _ & _)
       |[(info & mid & config & full & e0 & _ & _ & _)|(e0 & _ & He)]]]];
    try discriminate.
  exact Hcall.
  exact Hcall.
Defined.

(** X13. [ai_call_simple] constructs the router, makes one call through
    it and the adapters, and adds the key [prompt]. For a Gemini model
    the dictionary has the generated text, the vendor's model id of the
    registry, [finish_reason = "stop"], no [attempts], and the estimated
    cost when asked for; for an OpenAI model the text (or [None]), model
    id and finish reason of the reply, and the cost from the reported
    usage. The provider receives the prompt as it is, temperature 0.7
    and no token limit. Nothing is retried or caught: what the
    construction raised is raised as it is, and a failure of the provider
    or of reading its reply is raised wrapped by the adapter and the
    router. *)
Theorem simple_call_through_router
    {C : Type} `{Number C} (cfg : model_config C)
    (openai_create :
       nat -> OpenAIClient.api_params -> outcome OpenAIClient.completion)
    (anthropic : nat -> adapter C)
    (gemini_generate :
       nat -> pystr -> GeminiClient.generation_config -> pystr ->
       outcome GeminiClient.generation)
    (model_name prompt_ : pystr) (check_for_price : bool)
    (info : model_info C) :
  lookup cfg model_name = Some info ->
  let call :=
    ai_call_simple
      (constructed cfg
         (library_router cfg openai_create anthropic gemini_generate))
      model_name prompt_ check_for_price in
  let wrapped vendor_ adapter_prefix e0 :=
    Raised (A := result_dict C)
      (Exception
         (lit "API call failed for model '" ++ model_name
          ++ lit "' (vendor: " ++ vendor_ ++ lit "): " ++ adapter_prefix
          ++ str_exn e0)) in
  (forall e, ai_call_simple (C := C) (Raised e) model_name prompt_
               check_for_price = Raised e)
  /\ (vendor info = lit "Gemini" ->
      match gemini_generate 0%nat (vendor_model_id info)
              {| GeminiClient.temperature := (7 # 10)%Q;
                 GeminiClient.max_output_tokens := None |} prompt_ with
      | Ok resp =>
          let result c :=
            {| prompt := Some prompt_;
               response := Some (GeminiClient.text resp);
               model_used := vendor_model_id info;
               finish_reason := lit "stop";
               attempts := None;
               cost := c |} in
          let estimate :=
            spec_cost info
              (spec_token_counts None prompt_ (GeminiClient.text resp)) in
          (check_for_price = false -> call = Ok (result None))
          /\ (forall c, check_for_price = true -> estimate = Some c ->
                        call = Ok (result (Some c)))
          /\ (check_for_price = true -> estimate = None ->
              call = wrapped (lit "Gemini")
                       (lit "Gemini API call failed: ") too_large)
      | Raised e0 =>
          call = wrapped (lit "Gemini") (lit "Gemini API call failed: ") e0
      end)
  /\ (vendor info = lit "OpenAI" ->
      match openai_create 0%nat
              {| OpenAIClient.model := vendor_model_id info;
                 OpenAIClient.messages := [(lit "user", prompt_)];
                 OpenAIClient.temperature := (7 # 10)%Q;
                 OpenAIClient.max_tokens := None |} with
      | Ok resp =>
          let result c :=
            {| prompt := Some prompt_;
               response := OpenAIClient.content resp;
               model_used := vendor_model_id info;
               finish_reason := OpenAIClient.choice_finish_reason resp;
               attempts := None;
               cost := c |} in
          let failed_with := wrapped (lit "OpenAI")
                               (lit "OpenAI API call failed: ") in
          (check_for_price = false -> call = Ok (result None))
          /\ (check_for_price = true -> OpenAIClient.usage resp = None ->
              call = failed_with (no_attribute "prompt_tokens"))
          /\ (forall u,
                check_for_price = true -> OpenAIClient.usage resp = Some u ->
                match spec_cost info (OpenAIClient.prompt_tokens u,
                                      OpenAIClient.completion_tokens u) with
                | Some c => call = Ok (result (Some c))
                | None => call = failed_with too_large
                end)
      | Raised e0 =>
          call = wrapped (lit "OpenAI") (lit "OpenAI API call failed: ") e0
      end).
Proof.
  intros Hl call wrapped. subst call wrapped.
  split; [reflexivity|].
  unfold ai_call_simple, constructed, library_router,
    APIRouter.communicate_with_ai, APIRouter._get_model_info.
  rewrite Hl. split.
  - intros Hv. rewrite Hv.
    unfold GeminiClient.call_api, GeminiClient._get_model_info.
    rewrite Hl, Hv. cbn.
    destruct (gemini_generate 0%nat (vendor_model_id info)
                {| GeminiClient.temperature := (7 # 10)%Q;
                   GeminiClient.max_output_tokens := None |} prompt_)
      as [resp|e0]; cbn.
    + unfold GeminiClient.read_reply. rewrite calculate_cost_gemini.
      unfold spec_token_counts, GeminiClient._estimate_tokens.
      split; [intros ->; reflexivity|]. split.
      * intros c -> Hc. rewrite Hc. reflexivity.
      * intros -> Hc. rewrite Hc. reflexivity.
    + reflexivity.
  - intros Hv. rewrite Hv.
    unfold OpenAIClient.call_api, OpenAIClient._get_model_info.
    rewrite Hl, Hv. cbn.
    match goal with
    | |- context [openai_create 0%nat ?p] =>
        destruct (openai_create 0%nat p) as [resp|e0]
    end; cbn.
    + unfold OpenAIClient.read_reply.
      split; [intros ->; reflexivity|]. split.
      * intros -> Hu. rewrite Hu. reflexivity.
      * intros u -> Hu. rewrite Hu, calculate_cost_openai.
        destruct (spec_cost info _); reflexivity.
    + reflexivity.
Qed.

(** The two simple calls of the scenarios, an OpenAI reply without usage
    report, and a router that cannot be constructed. *)
Lemma simple_call_through_router_witness :
  let new_router :=
    constructed demo_config
      (library_router (C := float) demo_config openai_paris no_adapter
         gemini_paris) in
  (exists r,
     ai_call_simple new_router (lit "gemini25flash") capital_prompt true
     = Ok r
     /\ finish_reason r = lit "stop" /\ cost r = Some 8%float
     /\ prompt r = Some capital_prompt)
  /\ (exists r,
        ai_call_simple new_router (lit "gpt35") capital_prompt true = Ok r
        /\ model_used r = lit "gpt-3.5-turbo" /\ cost r = Some 18%float)
  /\ (exists e,
        ai_call_simple
          (constructed demo_config
             (library_router (C := float) demo_config openai_without_usage
                no_adapter gemini_paris))
          (lit "gpt35") capital_prompt true = Raised e).
Proof.
  intros new_router. split; [|split].
  - pose proof (proj1 (proj2 (simple_call_through_router (C := float)
                         demo_config
                         openai_paris no_adapter gemini_paris
                         (lit "gemini25flash") capital_prompt true
                         (info := snd (entry "gemini25flash" "Gemini"
                                         "gemini-2.5-flash" "budget" 1 1))
                         eq_refl)) eq_refl) as Hg.
    cbv zeta in Hg. destruct Hg as (_ & Hg & _).
    eexists. split; [exact (Hg _ eq_refl eq_refl)|].
    repeat split; reflexivity.
  - pose proof (proj2 (proj2 (simple_call_through_router (C := float)
                         demo_config
                         openai_paris no_adapter gemini_paris
                         (lit "gpt35") capital_prompt true
                         (info := snd (entry "gpt35" "OpenAI"
                                         "gpt-3.5-turbo" "budget" 1 2))
                         eq_refl)) eq_refl) as Ho.
    cbv zeta in Ho. destruct Ho as (_ & _ & Ho).
    specialize (Ho _ eq_refl eq_refl).
    eexists. split; [exact Ho|]. repeat split; reflexivity.
  - pose proof (proj2 (proj2 (simple_call_through_router (C := float)
                         demo_config
                         openai_without_usage no_adapter gemini_paris
                         (lit "gpt35") capital_prompt true
                         (info := snd (entry "gpt35" "OpenAI"
                                         "gpt-3.5-turbo" "budget" 1 2))
                         eq_refl)) eq_refl) as Ho.
    cbv zeta in Ho. destruct Ho as (_ & Ho & _).
    eexists. exact (Ho eq_refl eq_refl).
Defined.

(** ** The token estimate of the Gemini adapter *)

Lemma len_app (a b : pystr) : len (a ++ b) = (len a + len b)%Z.
Proof. unfold len. rewrite length_app. lia. Qed.

Lemma len_nonneg (a : pystr) : (0 <= len a)%Z.
Proof. unfold len. lia. Qed.

(** X14. The estimate of the Gemini adapter is zero exactly for texts of
    fewer than four characters, never decreases when the text gets
    longer, and the estimate of a concatenation is the sum of the
    estimates or one more. *)
Theorem estimate_tokens_bounds (a b : pystr) :
  (GeminiClient._estimate_tokens a = 0%Z <-> (len a < 4)%Z)
  /\ ((len a <= len b)%Z ->
      (GeminiClient._estimate_tokens a <= GeminiClient._estimate_tokens b)%Z)
  /\ (GeminiClient._estimate_tokens a + GeminiClient._estimate_tokens b
      <= GeminiClient._estimate_tokens (a ++ b)
      <= GeminiClient._estimate_tokens a + GeminiClient._estimate_tokens b
         + 1)%Z.
Proof.
  pose proof (estimate_rounds_down a) as Ha.
  pose proof (estimate_rounds_down b) as Hb.
  pose proof (estimate_rounds_down (a ++ b)) as Hab.
  pose proof (len_nonneg a) as Hna.
  rewrite len_app in Hab.
  repeat split; try lia.
Qed.

(** A three-letter answer costs no output token. *)
Lemma estimate_tokens_bounds_witness :
  GeminiClient._estimate_tokens (lit "Yes") = 0%Z
  /\ (GeminiClient._estimate_tokens (lit "Yes")
      <= GeminiClient._estimate_tokens (lit "Paris"))%Z.
Proof.
  destruct (estimate_tokens_bounds (lit "Yes") (lit "Paris"))
    as (Hz & Hm & _).
  split; [apply Hz; vm_compute; reflexivity|].
  apply Hm. vm_compute. discriminate.
Defined.

(** X15. A Gemini call is charged for the system message: with a
    non-empty system message the text sent, and estimated, is the prompt
    behind the tag ["[System: ...]"] and two newlines, twelve characters
    more than message and prompt together, so exactly three tokens more
    than their joint estimate; an empty system message is the same as
    none. *)
Theorem gemini_system_message_is_charged (prompt_ sm : pystr) :
  GeminiClient.full_prompt prompt_ (Some []) = prompt_
  /\ GeminiClient.full_prompt prompt_ None = prompt_
  /\ (sm <> [] ->
      GeminiClient.full_prompt prompt_ (Some sm)
      = lit "[System: " ++ sm ++ lit "]" ++ newline ++ newline ++ prompt_
      /\ len (GeminiClient.full_prompt prompt_ (Some sm))
         = (len sm + len prompt_ + 12)%Z
      /\ GeminiClient._estimate_tokens
           (GeminiClient.full_prompt prompt_ (Some sm))
         = (GeminiClient._estimate_tokens (sm ++ prompt_) + 3)%Z).
Proof.
  split; [reflexivity|]. split; [reflexivity|].
  intros Hsm.
  assert (Hlen : len (GeminiClient.full_prompt prompt_ (Some sm))
                 = (len sm + len prompt_ + 12)%Z).
  { destruct sm as [|c m]; [congruence|].
    unfold GeminiClient.full_prompt. rewrite !len_app.
    change (len (lit "[System: ")) with 9%Z.
    change (len (lit "]")) with 1%Z. change (len newline) with 1%Z. lia. }
  split; [destruct sm; [congruence|reflexivity]|]. split; [exact Hlen|].
  assert (He : forall t, GeminiClient._estimate_tokens t = (len t / 4)%Z)
    by reflexivity.
  rewrite !He, Hlen, len_app.
  replace (len sm + len prompt_ + 12)%Z
    with (3 * 4 + (len sm + len prompt_))%Z by lia.
  rewrite Z.div_add_l by lia. lia.
Qed.

(** A system message of eight characters before a prompt of thirty. *)
Lemma gemini_system_message_is_charged_witness :
  GeminiClient._estimate_tokens
    (GeminiClient.full_prompt capital_prompt (Some (lit "Be brief")))
  = 12%Z
  /\ GeminiClient._estimate_tokens capital_prompt = 7%Z.
Proof.
  split; [|reflexivity].
  destruct (gemini_system_message_is_charged capital_prompt
              (lit "Be brief")) as (_ & _ & Hs).
  destruct (Hs ltac:(discriminate)) as (_ & _ & He).
  rewrite He. reflexivity.
Defined.

(** ** The registry accessors *)

Lemma lookup_in {C : Type} (cfg : model_config C) (name : pystr)
    (info : model_info C) :
  lookup cfg name = Some info -> In (name, info) cfg.
Proof.
  induction cfg as [|[n i] cfg IH]; simpl; [discriminate|].
  destruct (pystr_eqb n name) eqn:Hn.
  - apply pystr_eqb_eq in Hn. intros Hx. injection Hx as ->. left. congruence.
  - intros Hx. right. auto.
Qed.

Lemma lookup_none {C : Type} (cfg : model_config C) (name : pystr) :
  lookup cfg name = None <-> ~ In name (map fst cfg).
Proof.
  induction cfg as [|[n i] cfg IH]; simpl; [tauto|].
  destruct (pystr_eqb n name) eqn:Hn.
  - apply pystr_eqb_eq in Hn. split; [discriminate|]. intros Hx. tauto.
  - apply pystr_eqb_neq in Hn. rewrite IH. tauto.
Qed.

(** X16. [get_model_info] and the registry agree: what it returns for a
    name is an entry of the registry under that name; with distinct keys
    it returns the entry of every name of the registry; and it raises,
    the [ValueError] "not found", exactly for the names that are not keys
    of the registry. *)
Theorem get_model_info_round_trip
    {C : Type} (cfg : model_config C) (model_name : pystr) :
  (forall info,
     get_model_info cfg model_name = Ok info -> In (model_name, info) cfg)
  /\ (forall info,
        NoDup (map fst cfg) -> In (model_name, info) cfg ->
        get_model_info cfg model_name = Ok info)
  /\ (forall e,
        get_model_info cfg model_name = Raised e ->
        e = ValueError (not_found_msg model_name))
  /\ ((exists e, get_model_info cfg model_name = Raised e)
      <-> ~ In model_name (map fst cfg)).
Proof.
  unfold get_model_info, APIRouter._get_model_info.
  destruct (lookup cfg model_name) as [i|] eqn:Hl.
  - pose proof (lookup_in _ _ Hl) as Hin.
    split; [intros info Hx; injection Hx as <-; exact Hin|].
    split.
    { intros info Hnd Hin'. f_equal.
      exact (distinct_keys_one_entry _ _ _ _ Hnd Hin Hin'). }
    split; [discriminate|]. split.
    + intros [e He]. discriminate.
    + intros Hnot. exfalso. apply Hnot.
      change model_name with (fst (model_name, i)). now apply in_map.
  - apply lookup_none in Hl.
    split; [discriminate|]. split.
    { intros info _ Hin. exfalso. apply Hl.
      change model_name with (fst (model_name, info)). now apply in_map. }
    split; [intros e Hx; injection Hx as <-; reflexivity|].
    split; [intros _; exact Hl|intros _; eexists; reflexivity].
Qed.

(** A model of the scenarios, and a name that is not in them. *)
Lemma get_model_info_round_trip_witness :
  (exists info,
     get_model_info (C := float) demo_config (lit "gpt35") = Ok info
     /\ vendor_model_id info = lit "gpt-3.5-turbo")
  /\ get_model_info (C := float) demo_config (lit "gpt5")
     = Raised (ValueError (lit "Model 'gpt5' not found in configuration")).
Proof.
  split.
  - eexists. split.
    + apply (proj1 (proj2 (get_model_info_round_trip (C := float)
                             demo_config (lit "gpt35")))).
      * repeat constructor; simpl; intuition discriminate.
      * right. left. reflexivity.
    + reflexivity.
  - destruct (get_model_info (C := float) demo_config (lit "gpt5"))
      as [i|e] eqn:Hg; [vm_compute in Hg; discriminate|].
    f_equal.
    exact (proj1 (proj2 (proj2 (get_model_info_round_trip (C := float)
                                  demo_config (lit "gpt5")))) e Hg).
Defined.

Lemma dict_get_last {A : Type} (d : dict A) (k v : pystr) (x : A) :
  dict_get (d ++ [(k, x)]) v
  = match dict_get d v with
    | Some y => Some y
    | None => if pystr_eqb k v then Some x else None
    end.
Proof.
  induction d as [|[k' y] d IH]; simpl; [reflexivity|].
  destruct (pystr_eqb k' v); [reflexivity|exact IH].
Qed.

Lemma dict_get_append_same {A : Type} (d : dict (list A)) (k : pystr)
    (x : A) (l : list A) :
  dict_get d k = Some l -> dict_get (dict_append d k x) k = Some (l ++ [x]).
Proof.
  induction d as [|[k' y] d IH]; simpl; [discriminate|].
  destruct (pystr_eqb k' k) eqn:Hk; simpl; rewrite Hk.
  - intros Hx. now injection Hx as ->.
  - exact IH.
Qed.

Lemma dict_get_append_other {A : Type} (d : dict (list A)) (k v : pystr)
    (x : A) :
  k <> v -> dict_get (dict_append d k x) v = dict_get d v.
Proof.
  intros Hkv. induction d as [|[k' y] d IH]; simpl; [reflexivity|].
  destruct (pystr_eqb k' k) eqn:Hk; simpl.
  - apply pystr_eqb_eq in Hk. subst k'.
    apply pystr_eqb_neq in Hkv. now rewrite Hkv.
  - destruct (pystr_eqb k' v); [reflexivity|exact IH].
Qed.

Lemma dict_append_keys {A : Type} (d : dict (list A)) (k : pystr) (x : A) :
  map fst (dict_append d k x) = map fst d.
Proof.
  induction d as [|[k' y] d IH]; simpl; [reflexivity|].
  destruct (pystr_eqb k' k); simpl; [reflexivity|now rewrite IH].
Qed.

Lemma dict_get_none {A : Type} (d : dict A) (k : pystr) :
  dict_get d k = None <-> ~ In k (map fst d).
Proof.
  induction d as [|[k' y] d IH]; simpl; [tauto|].
  destruct (pystr_eqb k' k) eqn:Hk.
  - apply pystr_eqb_eq in Hk. split; [discriminate|tauto].
  - apply pystr_eqb_neq in Hk. rewrite IH. tauto.
Qed.

Lemma dict_append_count {A : Type} (d : dict (list A)) (k : pystr) (x : A)
    (l : list A) :
  dict_get d k = Some l ->
  List.length (List.concat (map snd (dict_append d k x)))
  = S (List.length (List.concat (map snd d))).
Proof.
  induction d as [|[k' y] d IH]; simpl; [discriminate|].
  destruct (pystr_eqb k' k); simpl.
  - intros _. rewrite !length_app. simpl. lia.
  - intros Hx. rewrite !length_app, (IH Hx). lia.
Qed.

Lemma models_of_last {C : Type} (cfg : model_config C) (name : pystr)
    (info : model_info C) (v : pystr) :
  models_of (cfg ++ [(name, info)]) v
  = models_of cfg v ++ (if pystr_eqb (vendor info) v then [name] else []).
Proof.
  unfold models_of. rewrite filter_app, map_app. simpl.
  destruct (pystr_eqb (vendor info) v); reflexivity.
Qed.

(** The groups after each entry of the registry. *)
Lemma list_available_models_invariant {C : Type} (cfg : model_config C) :
  let d := list_available_models cfg in
  (forall v,
     dict_get d v
     = match models_of cfg v with [] => None | l => Some l end)
  /\ NoDup (map fst d)
  /\ List.length (List.concat (map snd d)) = List.length cfg.
Proof.
  induction cfg as [|[name info] cfg IH] using rev_ind.
  - simpl. repeat split; constructor.
  - destruct IH as (Hget & Hnd & Hcount).
    unfold list_available_models in *. rewrite fold_left_app.
    cbn [fold_left].
    match type of Hnd with
    | NoDup (map fst ?D) => set (d := D) in *
    end.
    unfold dict_mem.
    pose proof (Hget (vendor info)) as Hv.
    destruct (dict_get d (vendor info)) as [l|] eqn:Hd; cbn [negb].
    + split; [|split].
      * intros v. rewrite models_of_last.
        destruct (pystr_eqb (vendor info) v) eqn:Hvv.
        -- apply pystr_eqb_eq in Hvv. subst v.
           rewrite (dict_get_append_same _ _ _ Hd).
           destruct (models_of cfg (vendor info)) as [|m ms];
             [discriminate|].
           injection Hv as ->. reflexivity.
        -- apply pystr_eqb_neq in Hvv.
           rewrite dict_get_append_other by exact Hvv.
           rewrite app_nil_r. apply Hget.
      * now rewrite dict_append_keys.
      * rewrite (dict_append_count _ _ _ Hd), Hcount, length_app.
        simpl. lia.
    + assert (Hd1 : dict_get (d ++ [(vendor info, [])]) (vendor info)
                    = Some []).
      { rewrite dict_get_last, Hd, pystr_eqb_refl. reflexivity. }
      split; [|split].
      * intros v. rewrite models_of_last.
        destruct (pystr_eqb (vendor info) v) eqn:Hvv.
        -- apply pystr_eqb_eq in Hvv. subst v.
           rewrite (dict_get_append_same _ _ _ Hd1).
           destruct (models_of cfg (vendor info)) as [|m ms];
             [reflexivity|discriminate].
        -- pose proof Hvv as Hne. apply pystr_eqb_neq in Hne.
           rewrite dict_get_append_other by exact Hne.
           rewrite dict_get_last, Hvv, app_nil_r.
           rewrite Hget. destruct (models_of cfg v); reflexivity.
      * rewrite dict_append_keys, map_app. simpl.
        apply NoDup_app_remove_l with (l := []). simpl.
        apply dict_get_none in Hd.
        clear - Hnd Hd. induction (map fst d) as [|k ks IHk]; simpl.
        -- constructor; [tauto|constructor].
        -- inversion Hnd; subst. constructor.
           ++ rewrite in_app_iff. simpl. intros [Hx|[Hx|[]]]; [tauto|].
              apply Hd. left. congruence.
           ++ apply IHk; [assumption|]. intros Hx. apply Hd. now right.
      * rewrite (dict_append_count _ _ _ Hd1), map_app, concat_app.
        simpl. rewrite app_nil_r, Hcount, length_app. simpl. lia.
Qed.

(** X17. [list_available_models] groups the registry by vendor: the
    entry of a vendor is the list of the names of its models, in the
    order of the registry; a vendor without model has no entry, so no
    list is empty; no vendor has two entries; and the lists together hold
    as many names as the registry has entries. *)
Theorem models_grouped_by_vendor
    {C : Type} (cfg : model_config C) (vendor_ : pystr) :
  let groups := list_available_models cfg in
  dict_get groups vendor_
  = match models_of cfg vendor_ with [] => None | l => Some l end
  /\ dict_get groups vendor_ <> Some []
  /\ NoDup (map fst groups)
  /\ List.length (List.concat (map snd groups)) = List.length cfg.
Proof.
  intros groups.
  destruct (list_available_models_invariant cfg) as (Hget & Hnd & Hcount).
  fold groups in Hget, Hnd, Hcount.
  split; [apply Hget|]. split; [|split; assumption].
  rewrite Hget. destruct (models_of cfg vendor_); discriminate.
Qed.

(** X18. Every model of the registry is listed under the vendor the
    registry declares for it; and, the keys of the registry being
    distinct, under no other vendor. *)
Theorem every_model_is_listed_under_its_vendor
    {C : Type} (cfg : model_config C) (model_name : pystr)
    (info : model_info C) :
  In (model_name, info) cfg ->
  let groups := list_available_models cfg in
  (exists names,
     dict_get groups (vendor info) = Some names /\ In model_name names)
  /\ (NoDup (map fst cfg) ->
      forall vendor_ names,
        dict_get groups vendor_ = Some names -> In model_name names ->
        vendor_ = vendor info).
Proof.
  intros Hin groups.
  destruct (list_available_models_invariant cfg) as (Hget & _ & _).
  fold groups in Hget. split.
  - assert (Hm : In model_name (models_of cfg (vendor info))).
    { unfold models_of. change model_name with (fst (model_name, info)).
      apply in_map. apply filter_In. split; [exact Hin|].
      apply pystr_eqb_refl. }
    rewrite Hget. destruct (models_of cfg (vendor info)) as [|m ms];
      [contradiction|]. eexists. split; [reflexivity|exact Hm].
  - intros Hnd v names Hg Hn. rewrite Hget in Hg.
    assert (Hm : In model_name (models_of cfg v))
      by (destruct (models_of cfg v); [discriminate|];
          injection Hg as <-; exact Hn).
    unfold models_of in Hm. apply in_map_iff in Hm.
    destruct Hm as ([n i] & Hfst & Hf). simpl in Hfst. subst n.
    apply filter_In in Hf. destruct Hf as [Hin' Hv].
    apply pystr_eqb_eq in Hv. simpl in Hv.
    rewrite (distinct_keys_one_entry _ _ _ _ Hnd Hin Hin'). congruence.
Qed.

(** The registry of the scenarios by vendor. *)
Lemma every_model_is_listed_under_its_vendor_witness :
  list_available_models (C := float) demo_config
  = [(lit "OpenAI", [lit "gpt4"; lit "gpt35"]);
     (lit "Gemini",
      [lit "gemini25pro"; lit "gemini25flash"; lit "gemini15flash"])]
  /\ exists names,
       dict_get (list_available_models (C := float) demo_config)
         (lit "Gemini") = Some names
       /\ In (lit "gemini25flash") names.
Proof.
  split; [vm_compute; reflexivity|].
  exact (proj1 (every_model_is_listed_under_its_vendor (C := float)
                  demo_config (lit "gemini25flash")
                  (snd (entry "gemini25flash" "Gemini" "gemini-2.5-flash"
                          "budget" 1 1))
                  ltac:(right; right; right; left; reflexivity))).
Defined.

(** ** Only the answers consumed matter *)

Section Local.
Context {C : Type} `{Number C}.
Variables (rt rt' : router C).
Variables (prompt_ : pystr) (check_for_price : bool).
Variables (high_model budget_model : pystr).

Local Abbreviation body r :=
  (attempt_body r prompt_ check_for_price high_model budget_model).
Local Abbreviation step r :=
  (attempt_step r prompt_ check_for_price high_model budget_model).
Local Abbreviation loop r :=
  (attempts_loop r prompt_ check_for_price high_model budget_model).

Local Abbreviation same_answers :=
  (same_answers rt rt' check_for_price).

Lemma same_answers_weaken (a a' b b' : nat) :
  (a <= a')%nat -> (b' <= b)%nat -> same_answers a b -> same_answers a' b'.
Proof. intros Ha Hb Hs n m p Hn. apply Hs. lia. Qed.

Ltac use_answers Hs :=
  repeat match goal with
         | G : rt ?n ?m ?p ?c = _ |- _ =>
             rewrite <- (Hs n m p) in G by (rewrite ?length_app; simpl; lia)
         end.

(** An attempt asks the router nothing beyond the calls it records. *)
Lemma attempt_body_local (attempt : nat) (s : state C) :
  same_answers (List.length (calls s))
    (List.length (calls (snd (body rt attempt s)))) ->
  body rt' attempt s = body rt attempt s.
Proof.
  intros Hs.
  destruct (attempt_body_cases rt prompt_ check_for_price high_model
              budget_model attempt s)
    as [(e & G1 & Hb)|[(r1 & e & G1 & G2 & Hb)
       |[(r1 & r2 & e & G1 & G2 & G3 & Hb)
        |[(r1 & r2 & r3 & G1 & G2 & G3 & Hne & Hb)
         |[(r1 & r2 & r3 & e & G1 & G2 & G3 & E12 & E23 & G4 & Hb)
          |[(r1 & r2 & r3 & v & t & G1 & G2 & G3 & E12 & E23 & G4 & T & Hb)
           |(r1 & r2 & r3 & v & G1 & G2 & G3 & E12 & E23 & G4 & T & Hb)]]]]]];
    rewrite Hb in Hs |- *; unfold after_verification in Hs;
    cbn [snd calls] in Hs; use_answers Hs;
    destruct (attempt_body_cases rt' prompt_ check_for_price high_model
                budget_model attempt s)
      as [(e' & F1 & Hb')|[(x1 & e' & F1 & F2 & Hb')
         |[(x1 & x2 & e' & F1 & F2 & F3 & Hb')
          |[(x1 & x2 & x3 & F1 & F2 & F3 & Hne' & Hb')
           |[(x1 & x2 & x3 & e' & F1 & F2 & F3 & E12' & E23' & F4 & Hb')
            |[(x1 & x2 & x3 & v' & t' & F1 & F2 & F3 & E12' & E23' & F4 & T'
               & Hb')
             |(x1 & x2 & x3 & v' & F1 & F2 & F3 & E12' & E23' & F4 & T'
               & Hb')]]]]]];
    rewrite Hb';
    try congruence;
    try (rewrite G1 in F1; try discriminate; injection F1 as <-);
    try (rewrite G2 in F2; try discriminate; injection F2 as <-);
    try (rewrite G3 in F3; try discriminate; injection F3 as <-);
    try (rewrite G4 in F4; try discriminate; injection F4 as <-);
    try (rewrite T in T'; try discriminate; try injection T' as <-);
    try reflexivity; try (exfalso; auto; fail).
Qed.
End Local.

Lemma extends_length {C : Type} `{Number C} (rt : router C)
    (prompt_ : pystr) (check_for_price : bool) (k : nat) (s s' : state C) :
  extends rt prompt_ check_for_price k s s' ->
  (List.length (calls s) <= List.length (calls s'))%nat.
Proof. intros (new & -> & _). rewrite length_app. lia. Qed.

Section LocalLoop.
Context {C : Type} `{Number C}.
Variables (rt rt' : router C).
Variables (prompt_ : pystr) (check_for_price : bool).
Variables (high_model budget_model : pystr).

Local Abbreviation step r :=
  (attempt_step r prompt_ check_for_price high_model budget_model).
Local Abbreviation loop r :=
  (attempts_loop r prompt_ check_for_price high_model budget_model).
Local Abbreviation same := (same_answers rt rt' check_for_price).

Lemma attempt_step_local (attempt : nat) (s : state C) :
  same (List.length (calls s)) (List.length (calls (snd (step rt attempt s)))) ->
  step rt' attempt s = step rt attempt s.
Proof.
  intros Hs. rewrite attempt_step_state in Hs.
  unfold attempt_step, try_except.
  rewrite attempt_body_local with (rt := rt) by exact Hs. reflexivity.
Qed.

(** The loop asks the router nothing beyond the calls it records. *)
Lemma attempts_loop_local (range : list nat) (s : state C) :
  same (List.length (calls s)) (List.length (calls (snd (loop rt range s)))) ->
  loop rt' range s = loop rt range s.
Proof.
  revert s. induction range as [|a range IH]; intros s Hs; [reflexivity|].
  rewrite !attempts_loop_cons. rewrite attempts_loop_cons in Hs.
  pose proof (preserves_attempt_step rt prompt_ check_for_price high_model
                budget_model a s) as Hgrow1.
  apply extends_length in Hgrow1.
  destruct (step rt a s) as [[[res|]|e] s1] eqn:Hstep; cbn [snd] in *.
  - rewrite attempt_step_local; rewrite Hstep; [reflexivity|exact Hs].
  - pose proof (preserves_attempts_loop rt prompt_ check_for_price high_model
                  budget_model range s1) as Hgrow2.
    apply extends_length in Hgrow2.
    rewrite attempt_step_local; rewrite Hstep.
    + apply IH. intros n m p Hn. apply Hs. lia.
    + intros n m p Hn. cbn [snd] in Hn. apply Hs. lia.
  - rewrite attempt_step_local; rewrite Hstep; [reflexivity|exact Hs].
Qed.
End LocalLoop.

(** X19. The outcome of a checked call depends on the router only
    through the answers to the calls it made: a router that gives the
    same answers to these calls, whatever it would answer afterwards,
    leads to the same result or exception, the same calls and the same
    total. In particular nothing is asked of the router after the
    attempt that returned. *)
Theorem outcome_depends_on_consumed_answers
    {C : Type} `{Number C} (cfg : model_config C) (rt rt' : router C)
    (vendor_ prompt_ : pystr) (check_for_price : bool) :
  let run := ai_call_checked (constructed cfg rt)
      vendor_ prompt_ check_for_price in
  same_answers rt rt' check_for_price 0 (List.length (calls (snd run))) ->
  ai_call_checked (constructed cfg rt') vendor_ prompt_ check_for_price = run.
Proof.
  intros run. subst run. unfold ai_call_checked, constructed.
  destruct (negb (existsb (pystr_eqb vendor_) allowed_vendors));
    [reflexivity|].
  destruct (find_models cfg vendor_) as [[[|c h]|] [[|c' b]|]];
    try reflexivity.
  rewrite !validate_finish. intros Hs.
  rewrite attempts_loop_local with (rt := rt); [reflexivity|].
  destruct (attempts_loop rt prompt_ check_for_price (c :: h) (c' :: b)
              (seq 0 5) initial_state) as [[[res|]|e] s1];
    cbn [finish snd] in Hs |- *; exact Hs.
Qed.

(** After the confirmed first attempt the router is not asked again: a
    router that fails from the fifth call on gives the same run. *)
Lemma outcome_depends_on_consumed_answers_witness :
  ai_call_checked (C := float) (constructed demo_config
    (scripted (script_validated ++ [broken; broken])))
    (lit "Gemini") capital_prompt true
  = ai_call_checked (C := float)
      (constructed demo_config (scripted script_validated))
      (lit "Gemini") capital_prompt true.
Proof.
  apply outcome_depends_on_consumed_answers.
  intros n m p Hn.
  change (List.length
            (calls (snd (ai_call_checked (C := float) (constructed demo_config
                           (scripted script_validated)) (lit "Gemini")
                           capital_prompt true)))) with 4%nat in Hn.
  unfold scripted.
  do 4 (destruct n as [|n]; [reflexivity|]). lia.
Defined.

(** ** The checked call over the router and the adapters *)

(** With distinct keys, an entry of the registry is what the lookup of
    its name gives. *)
Lemma lookup_distinct {C : Type} (cfg : model_config C) (name : pystr)
    (info : model_info C) :
  NoDup (map fst cfg) -> In (name, info) cfg -> lookup cfg name = Some info.
Proof.
  intros Hnd Hin. destruct (lookup cfg name) as [i|] eqn:Hl.
  - apply lookup_in in Hl. f_equal.
    exact (distinct_keys_one_entry _ _ _ _ Hnd Hl Hin).
  - exfalso. apply lookup_none in Hl. apply Hl.
    change name with (fst (name, info)). now apply in_map.
Qed.

(** What the router of the library returns for a Gemini model has a
    text. *)
Lemma gemini_routed_text {C : Type} `{Number C} (cfg : model_config C)
    (openai_create :
       nat -> OpenAIClient.api_params -> outcome OpenAIClient.completion)
    (anthropic : nat -> adapter C)
    (gemini_generate :
       nat -> pystr -> GeminiClient.generation_config -> pystr ->
       outcome GeminiClient.generation)
    (n : nat) (model_name p : pystr) (check_for_price : bool)
    (info : model_info C) (r : result_dict C) :
  lookup cfg model_name = Some info -> vendor info = lit "Gemini" ->
  library_router cfg openai_create anthropic gemini_generate n model_name p
    check_for_price = Ok r ->
  response r <> None.
Proof.
  intros Hl Hv.
  unfold library_router, APIRouter.communicate_with_ai,
    APIRouter._get_model_info.
  rewrite Hl, Hv. cbn.
  unfold GeminiClient.call_api, GeminiClient._get_model_info.
  rewrite Hl, Hv. cbn. unfold reraise.
  match goal with
  | |- context [gemini_generate n ?a ?b ?c] =>
      destruct (gemini_generate n a b c) as [resp|e0]
  end; [|discriminate].
  match goal with
  | |- context [GeminiClient.read_reply ?i ?f ?c ?x] =>
      destruct (GeminiClient.read_reply i f c x) as [r0|e] eqn:Hr
  end; [|discriminate].
  intros Hx. injection Hx as <-.
  apply gemini_read_reply in Hr. destruct Hr as (Hresp & _).
  rewrite Hresp. discriminate.
Qed.

(** X20. Over the router of the library and a registry with distinct
    keys, a checked call whose models were found never fails with "not
    found" or "not supported": the names it asks for are keys of the
    registry and their vendor has a client. If it raises, the last call,
    made for the high or the budget model as the fifth call of the
    invocation or later, decided it: the call raised, and the exception
    is the wrapped failure of the adapter's [try:] (the provider's
    failure or that of reading its reply; for Anthropic what that adapter
    raised); or the call was a verification that came back without a
    text, and the exception is the [AttributeError] of [strip], which
    cannot happen with Gemini, whose adapter always returns a text. *)
Theorem checked_call_failures_come_from_the_provider
    {C : Type} `{Number C} (cfg : model_config C)
    (openai_create :
       nat -> OpenAIClient.api_params -> outcome OpenAIClient.completion)
    (anthropic : nat -> adapter C)
    (gemini_generate :
       nat -> pystr -> GeminiClient.generation_config -> pystr ->
       outcome GeminiClient.generation)
    (vendor_ prompt_ : pystr) (check_for_price : bool)
    (high_model budget_model : pystr) (e : exn) (s' : state C) :
  NoDup (map fst cfg) ->
  resolves cfg vendor_ high_model budget_model ->
  let rt := library_router cfg openai_create anthropic gemini_generate in
  ai_call_checked (constructed cfg rt) vendor_ prompt_ check_for_price
  = (Raised e, s') ->
  exists n model_name info,
    (4 <= n)%nat
    /\ (model_name = high_model \/ model_name = budget_model)
    /\ lookup cfg model_name = Some info
    /\ vendor info = vendor_
    /\ let prefix vendor_ :=
         lit "API call failed for model '" ++ model_name
         ++ lit "' (vendor: " ++ vendor_ ++ lit "): " in
       (exists params e0,
          try_failed (openai_create n params)
            (OpenAIClient.read_reply info check_for_price) e0
          /\ e = Exception (prefix (lit "OpenAI")
                            ++ lit "OpenAI API call failed: " ++ str_exn e0))
       \/ (exists model_id config full e0,
             try_failed (gemini_generate n model_id config full)
               (GeminiClient.read_reply info full check_for_price) e0
             /\ e = Exception (prefix (lit "Gemini")
                               ++ lit "Gemini API call failed: "
                               ++ str_exn e0))
       \/ (exists p e0,
             anthropic n model_name p None (7 # 10)%Q None check_for_price
             = Raised e0
             /\ e = Exception (prefix (lit "Anthropic") ++ str_exn e0))
       \/ (exists p v,
             rt n budget_model p check_for_price = Ok v
             /\ model_name = budget_model
             /\ response v = None
             /\ vendor_ <> lit "Gemini"
             /\ e = no_attribute "strip").
Proof.
  intros Hnd Hres rt Hrun.
  pose proof Hres as (Hallowed & Hfind & Hh & Hb).
  destruct (run_raised_cases _ _ _ _ _ Hrun)
    as [(_ & [[Hx _]|[[Hx _]|[Hx _]]])
       |(hm & bm & s1 & earlier & m & q & Hf & _ & Hm & Hlen & Hlast)].
  - congruence.
  - rewrite Hfind in Hx. destruct high_model; [congruence|discriminate].
  - rewrite Hfind in Hx. destruct budget_model; [congruence|discriminate].
  - rewrite Hfind in Hf. injection Hf as <- <-.
    assert (Hin : exists info, In (m, info) cfg /\ vendor info = vendor_).
    { rewrite find_models_last in Hfind. injection Hfind as Hfh Hfb.
      unfold last_with_role in Hfh, Hfb.
      apply first_with_role_in in Hfh, Hfb.
      destruct Hfh as (ih & Hih & Hvh & _), Hfb as (ib & Hib & Hvb & _).
      apply in_rev in Hih, Hib.
      destruct Hm as [-> | ->]; eauto. }
    destruct Hin as (info & Hin & Hv).
    pose proof (lookup_distinct _ _ _ Hnd Hin) as Hlook.
    exists (List.length earlier), m, info.
    assert (Hn : (4 <= List.length earlier)%nat).
    { destruct Hlast as [[Hc _]|(v & Hc & _)];
        rewrite Hc, length_app in Hlen; simpl in Hlen; lia. }
    split; [exact Hn|]. split; [exact Hm|]. split; [exact Hlook|].
    split; [exact Hv|]. cbv zeta.
    destruct Hlast as [[Hc Hr]|(v & Hc & Hr & -> & Hnone & ->)].
    + unfold rt, library_router in Hr.
      destruct (routed_failure_cases _ _ _ _ _ _ _ _ _ _ Hr)
        as [[Hl _]|[(info' & Hl & Hx & _)
           |[(info' & params & e0 & Hl & Hp)
            |[(info' & mid & config & full & e0 & Hl & Hp)|Hp]]]].
      * congruence.
      * exfalso. rewrite Hlook in Hl. injection Hl as <-. rewrite Hv in Hx.
        change APIRouter.vendor_clients with allowed_vendors in Hx.
        congruence.
      * left. rewrite Hlook in Hl. injection Hl as <-. eauto.
      * right. left. rewrite Hlook in Hl. injection Hl as <-.
        exists mid, config, full, e0. exact Hp.
      * right. right. left. destruct Hp as (e0 & Ha & He).
        exists q, e0. auto.
    + right. right. right. exists q, v.
      split; [exact Hr|]. split; [reflexivity|]. split; [exact Hnone|].
      split; [|reflexivity].
      intros Hg. rewrite Hg in Hv.
      exact (gemini_routed_text _ _ _ _ _ _ _ _ Hlook Hv Hr Hnone).
Qed.

(** The Gemini provider refuses four calls as rate limited and is down
    at the fifth: every attempt fails at its first sample, and the fifth
    raises that failure, wrapped twice. *)
Lemma checked_call_failures_come_from_the_provider_witness :
  let unstable := fun (n : nat) (model_id : pystr)
                      (config : GeminiClient.generation_config)
                      (full : pystr) =>
                    if (n <? 4)%nat
                    then Raised (A := GeminiClient.generation)
                           (ProviderError (lit "429"))
                    else Raised (ProviderError (lit "503")) in
  exists s',
    ai_call_checked (C := float) (constructed demo_config
      (library_router demo_config openai_paris no_adapter unstable))
      (lit "Gemini") capital_prompt true
    = (Raised (Exception (lit "API call failed for model 'gemini25pro' (vendor: Gemini): Gemini API call failed: 503")),
       s')
    /\ List.length (calls s') = 5%nat.
Proof.
  intros unstable. eexists.
  assert (Hrun :
    ai_call_checked (C := float) (constructed demo_config
      (library_router demo_config openai_paris no_adapter unstable))
      (lit "Gemini") capital_prompt true
    = (Raised (Exception (lit "API call failed for model 'gemini25pro' (vendor: Gemini): Gemini API call failed: 503")),
       snd (ai_call_checked (C := float) (constructed demo_config
              (library_router demo_config openai_paris no_adapter unstable))
              (lit "Gemini") capital_prompt true)))
    by (vm_compute; reflexivity).
  assert (Hnd : NoDup (map fst (demo_config (C := float))))
    by (repeat constructor; simpl; intuition discriminate).
  destruct (@checked_call_failures_come_from_the_provider float _
              demo_config openai_paris no_adapter unstable (lit "Gemini")
              capital_prompt true _ _ _ _ Hnd demo_resolves Hrun)
    as (n & m & info & Hn & _).
  split; [exact Hrun|]. vm_compute. reflexivity.
Defined.

(** ** The three ways of using up the attempts *)

Section Extremes.
Context {C : Type} `{Number C}.
Variable rt : router C.
Variables (prompt_ : pystr) (check_for_price : bool).
Variables (high_model budget_model : pystr).

Local Abbreviation body :=
  (attempt_body rt prompt_ check_for_price high_model budget_model).
Local Abbreviation step :=
  (attempt_step rt prompt_ check_for_price high_model budget_model).
Local Abbreviation loop :=
  (attempts_loop rt prompt_ check_for_price high_model budget_model).

(** Consensus on [t] in every attempt, rejected every time. *)
Lemma attempts_loop_all_rejected (t : option pystr) (range : list nat)
    (s : state C) :
  (forall n, exists r,
     rt n high_model prompt_ check_for_price = Ok r /\ response r = t) ->
  (forall n p, exists v u,
     rt n budget_model p check_for_price = Ok v
     /\ response v = Some u /\ strip u = FALSE_sentinel) ->
  exists new,
    loop range s
    = (Ok None,
       {| total_cost :=
            fold_left nadd
              (if check_for_price then reported_costs new else [])
              (total_cost s);
          calls := calls s ++ new |})
    /\ List.length new = (4 * List.length range)%nat.
Proof.
  intros Hhigh Hbudget. revert s.
  induction range as [|a range IH]; intros s.
  - exists []. destruct check_for_price, s; simpl; rewrite app_nil_r;
      split; reflexivity.
  - destruct (Hhigh (List.length (calls s))) as (r1 & H1 & T1).
    destruct (Hhigh (List.length (calls s) + 1)%nat) as (r2 & H2 & T2).
    destruct (Hhigh (List.length (calls s) + 2)%nat) as (r3 & H3 & T3).
    destruct (Hbudget (List.length (calls s) + 3)%nat
                (validation_prompt prompt_
                   [response r1; response r2; response r3]))
      as (v & u & Hv & Hu & Hs).
    pose proof (attempt_body_agree rt prompt_ check_for_price high_model
                  budget_model a s H1 H2 H3 (eq_trans T1 (eq_sym T2))
                  (eq_trans T2 (eq_sym T3)) Hv Hu) as Hb.
    rewrite Hs, pystr_eqb_refl in Hb. apply attempt_step_ok in Hb.
    destruct (IH (after_verification prompt_ check_for_price high_model
                    budget_model s r1 r2 r3 v)) as (new & Hl & Hlen).
    exists ([returned high_model prompt_ check_for_price r1;
             returned high_model prompt_ check_for_price r2;
             returned high_model prompt_ check_for_price r3;
             returned budget_model
               (validation_prompt prompt_
                  [response r1; response r2; response r3])
               check_for_price v] ++ new).
    rewrite attempts_loop_cons, Hb, Hl.
    cbn [after_verification calls total_cost]. split.
    + f_equal. f_equal.
      * unfold charge_verification, charge. rewrite Hu.
        destruct check_for_price; [|reflexivity].
        rewrite reported_costs_app, fold_left_app. f_equal.
        cbn [reported_costs reported_cost returned call_outcome].
        destruct (cost r1), (cost r2), (cost r3), (cost v); reflexivity.
      * now rewrite <- app_assoc.
    + rewrite length_app, Hlen. simpl. lia.
Qed.

(** Samples whose texts change from each call to the next. *)
Lemma attempts_loop_never_consensus (text : nat -> option pystr)
    (range : list nat) (s : state C) :
  (forall n, exists r,
     rt n high_model prompt_ check_for_price = Ok r /\ response r = text n) ->
  (forall n, text n <> text (S n)) ->
  exists new,
    loop range s
    = (Ok None,
       {| total_cost :=
            fold_left nadd
              (if check_for_price then reported_costs new else [])
              (total_cost s);
          calls := calls s ++ new |})
    /\ Forall (is_sample prompt_ check_for_price high_model) new
    /\ List.length new = (3 * List.length range)%nat.
Proof.
  intros Hhigh Hdiff. revert s.
  induction range as [|a range IH]; intros s.
  - exists []. destruct check_for_price, s; simpl;
      rewrite app_nil_r; repeat split; constructor.
  - destruct (Hhigh (List.length (calls s))) as (r1 & H1 & T1).
    destruct (Hhigh (List.length (calls s) + 1)%nat) as (r2 & H2 & T2).
    destruct (Hhigh (List.length (calls s) + 2)%nat) as (r3 & H3 & T3).
    assert (Hne : ~ (response r1 = response r2 /\ response r2 = response r3)).
    { intros [E12 _]. rewrite T1, T2, Nat.add_1_r in E12.
      exact (Hdiff _ E12). }
    pose proof (attempt_body_disagree rt prompt_ check_for_price high_model
                  budget_model a s H1 H2 H3 Hne) as Hb.
    apply attempt_step_ok in Hb.
    match type of Hb with
    | _ = (_, ?s3) => destruct (IH s3) as (new & Hl & Hall & Hlen)
    end.
    exists ([returned high_model prompt_ check_for_price r1;
             returned high_model prompt_ check_for_price r2;
             returned high_model prompt_ check_for_price r3] ++ new).
    rewrite attempts_loop_cons, Hb, Hl. cbn [total_cost calls].
    split.
    + f_equal. f_equal.
      * unfold charge.
        destruct check_for_price; [|reflexivity].
        rewrite reported_costs_app, fold_left_app. f_equal.
        cbn [reported_costs reported_cost returned call_outcome].
        destruct (cost r1), (cost r2), (cost r3); reflexivity.
      * now rewrite <- app_assoc.
    + split.
      * apply Forall_app. split; [repeat constructor|exact Hall].
      * rewrite length_app, Hlen. simpl. lia.
Qed.

(** A router that raises at every call. *)
Lemma attempts_loop_router_down (range : list nat) (s : state C) :
  (forall n model_name p, exists e,
     rt n model_name p check_for_price = Raised e) ->
  Forall (fun a => a <> 4%nat) range ->
  exists s',
    loop range s = (Ok None, s')
    /\ List.length (calls s')
       = (List.length (calls s) + List.length range)%nat.
Proof.
  intros Hdown Hrange. revert s.
  induction Hrange as [|a range Ha _ IH]; intros s.
  - exists s. split; [reflexivity|simpl; lia].
  - destruct (attempt_body_cases rt prompt_ check_for_price high_model
                budget_model a s)
      as [(e & G1 & Hb)|[(r1 & e & G1 & _)|[(r1 & r2 & e & G1 & _)
         |[(r1 & r2 & r3 & G1 & _)|[(r1 & r2 & r3 & e & G1 & _)
          |[(r1 & r2 & r3 & v & t & G1 & _)
           |(r1 & r2 & r3 & v & G1 & _)]]]]]];
      try (destruct (Hdown (List.length (calls s)) high_model prompt_)
             as [e0 He0]; congruence).
    apply attempt_step_absorbs in Hb; [|exact Ha].
    match type of Hb with
    | _ = (_, ?s1) => destruct (IH s1) as (s' & Hl & Hlen)
    end.
    exists s'. rewrite attempts_loop_cons, Hb. split; [exact Hl|].
    rewrite Hlen. cbn [calls]. rewrite length_app. simpl. lia.
Qed.
End Extremes.

(** X21. When the high model gives the same text at every call (or no
    text at every call) and the budget model rejects it every time, the
    call makes exactly twenty router calls and returns the failure
    dictionary with the total of all of them: the sum of every cost the
    calls reported. *)
Theorem always_rejected_uses_twenty_calls
    {C : Type} `{Number C} (cfg : model_config C) (rt : router C)
    (vendor_ prompt_ : pystr) (check_for_price : bool)
    (high_model budget_model : pystr) (t : option pystr) :
  resolves cfg vendor_ high_model budget_model ->
  (forall n, exists r,
     rt n high_model prompt_ check_for_price = Ok r /\ response r = t) ->
  (forall n p, exists v u,
     rt n budget_model p check_for_price = Ok v
     /\ response v = Some u /\ strip u = FALSE_sentinel) ->
  exists s',
    ai_call_checked (constructed cfg rt) vendor_ prompt_ check_for_price
    = (Ok (failure_result vendor_ prompt_ check_for_price high_model
             (total_cost s')), s')
    /\ List.length (calls s') = 20%nat
    /\ total_cost s'
       = sum_costs (if check_for_price then reported_costs (calls s')
                    else []).
Proof.
  intros Hres Hhigh Hbudget.
  destruct (attempts_loop_all_rejected rt prompt_ check_for_price
              high_model budget_model (seq 0 5) initial_state Hhigh Hbudget)
    as (new & Hl & Hlen).
  eexists. split; [|split].
  - rewrite (resolves_run rt prompt_ check_for_price Hres), Hl. reflexivity.
  - exact Hlen.
  - reflexivity.
Qed.

(** The high model always says Paris, the budget model always the
    sentinel. *)
Lemma always_rejected_uses_twenty_calls_witness :
  exists s',
    ai_call_checked (C := float) (constructed demo_config
      (by_model (lit "gemini25pro") paris
         (answer "%FALSE%" (Some 1%float))))
      (lit "Gemini") capital_prompt true
    = (Ok (failure_result (lit "Gemini") capital_prompt true
             (lit "gemini25pro") (total_cost s')), s')
    /\ List.length (calls s') = 20%nat.
Proof.
  destruct (always_rejected_uses_twenty_calls
              (by_model (lit "gemini25pro") paris
                 (answer "%FALSE%" (Some 1%float)))
              capital_prompt true (t := Some (lit "Paris"))
              (demo_resolves (C := float)))
    as (s' & Hrun & Hlen & _).
  - intros n. eexists. split; reflexivity.
  - intros n p. eexists. eexists. split; [reflexivity|].
    split; reflexivity.
  - exists s'. auto.
Defined.

(** X22. When the samples never agree (here: each answer of the high
    model differs from the one before), the budget model is never asked:
    the call makes exactly fifteen router calls, all of them samples, and
    returns the failure dictionary. *)
Theorem never_consensus_uses_fifteen_samples
    {C : Type} `{Number C} (cfg : model_config C) (rt : router C)
    (vendor_ prompt_ : pystr) (check_for_price : bool)
    (high_model budget_model : pystr) (text : nat -> option pystr) :
  resolves cfg vendor_ high_model budget_model ->
  (forall n, exists r,
     rt n high_model prompt_ check_for_price = Ok r /\ response r = text n) ->
  (forall n, text n <> text (S n)) ->
  exists s',
    ai_call_checked (constructed cfg rt) vendor_ prompt_ check_for_price
    = (Ok (failure_result vendor_ prompt_ check_for_price high_model
             (total_cost s')), s')
    /\ List.length (calls s') = 15%nat
    /\ Forall (is_sample prompt_ check_for_price high_model) (calls s').
Proof.
  intros Hres Hhigh Hdiff.
  destruct (attempts_loop_never_consensus rt prompt_ check_for_price
              high_model budget_model text (seq 0 5) initial_state Hhigh
              Hdiff) as (new & Hl & Hall & Hlen).
  eexists. split.
  - rewrite (resolves_run rt prompt_ check_for_price Hres), Hl. reflexivity.
  - split; [exact Hlen|exact Hall].
Qed.

(** A router whose answers get longer from call to call. *)
Lemma never_consensus_uses_fifteen_samples_witness :
  exists s',
    ai_call_checked (C := float) (constructed demo_config counting)
        (lit "Gemini")
      capital_prompt true
    = (Ok (failure_result (lit "Gemini") capital_prompt true
             (lit "gemini25pro") (total_cost s')), s')
    /\ List.length (calls s') = 15%nat.
Proof.
  destruct (never_consensus_uses_fifteen_samples counting
              capital_prompt true (fun n => Some (repeat 97%N n))
              (demo_resolves (C := float)))
    as (s' & Hrun & Hlen & _).
  - intros n. eexists. split; reflexivity.
  - intros n Heq. injection Heq as Heq.
    apply (f_equal (@List.length N)) in Heq.
    cbn [List.length] in Heq. rewrite !repeat_length in Heq. lia.
  - exists s'. auto.
Defined.

(** X23. When every router call raises, each attempt stops at its first
    sample: the call makes exactly five router calls, absorbs the first
    four failures and raises the fifth, with the total still zero. *)
Theorem router_down_raises_after_five_calls
    {C : Type} `{Number C} (cfg : model_config C) (rt : router C)
    (vendor_ prompt_ : pystr) (check_for_price : bool)
    (high_model budget_model : pystr) :
  resolves cfg vendor_ high_model budget_model ->
  (forall n model_name p, exists e,
     rt n model_name p check_for_price = Raised e) ->
  exists e s',
    ai_call_checked (constructed cfg rt)
        vendor_ prompt_ check_for_price = (Raised e, s')
    /\ rt 4%nat high_model prompt_ check_for_price = Raised e
    /\ List.length (calls s') = 5%nat
    /\ reported_costs (calls s') = [].
Proof.
  intros Hres Hdown.
  destruct (attempts_loop_router_down rt prompt_ check_for_price
              high_model budget_model (range := seq 0 4) initial_state Hdown)
    as (s1 & Hl & Hlen); [repeat constructor; discriminate|].
  cbn in Hlen.
  destruct (attempt_body_cases rt prompt_ check_for_price high_model
              budget_model 4 s1)
    as [(e & G1 & Hb)|[(r1 & e & G1 & _)|[(r1 & r2 & e & G1 & _)
       |[(r1 & r2 & r3 & G1 & _)|[(r1 & r2 & r3 & e & G1 & _)
        |[(r1 & r2 & r3 & v & t & G1 & _)
         |(r1 & r2 & r3 & v & G1 & _)]]]]]];
    try (destruct (Hdown (List.length (calls s1)) high_model prompt_)
           as [e0 He0]; congruence).
  rewrite Hlen in G1.
  eexists e, _.
  assert (Hrun : ai_call_checked (constructed cfg rt)
      vendor_ prompt_ check_for_price
                 = (Raised e,
                    {| total_cost := total_cost s1;
                       calls := calls s1
                                ++ [failed high_model prompt_
                                      check_for_price e] |})).
  { rewrite (resolves_run rt prompt_ check_for_price Hres).
    change (seq 0 5) with (seq 0 4 ++ [4%nat]).
    rewrite attempts_loop_app with (s1 := s1) by exact Hl.
    rewrite attempts_loop_cons.
    apply attempt_step_last in Hb. rewrite Hb. reflexivity. }
  split; [exact Hrun|]. split; [exact G1|]. cbn [calls]. split.
  - rewrite length_app, Hlen. reflexivity.
  - pose proof (ai_call_checked_extends cfg rt vendor_ prompt_
                  check_for_price) as (new & Hc & _ & Hf & _).
    rewrite Hrun in Hc. cbn [snd calls initial_state app] in Hc, Hf.
    rewrite Hc. clear - Hf Hdown.
    change (List.length (@nil (call C))) with 0%nat in Hf.
    revert Hf. generalize 0%nat.
    induction new as [|c new IH]; intros n Hf; [reflexivity|].
    destruct Hf as [[Ho _] Hf]. cbn [reported_costs].
    unfold reported_cost. rewrite Ho.
    destruct (Hdown n (call_model c) (call_prompt c)) as [e He].
    rewrite He. exact (IH _ Hf).
Qed.

(** A router that is down. *)
Lemma router_down_raises_after_five_calls_witness :
  exists e s',
    ai_call_checked (C := float) (constructed demo_config (fixed broken))
        (lit "Gemini")
      capital_prompt true = (Raised e, s')
    /\ List.length (calls s') = 5%nat.
Proof.
  destruct (router_down_raises_after_five_calls (fixed broken)
              capital_prompt true (demo_resolves (C := float)))
    as (e & s' & Hrun & _ & Hlen & _).
  - intros n m p. eexists. reflexivity.
  - exists e, s'. auto.
Defined.

(** ** What the total accounts for *)

Lemma read_all {C : Type} (prompt_ : pystr) (l : list (call C)) :
  (forall c, In c l -> unread prompt_ c = false) -> read prompt_ l = l.
Proof.
  intros Hall. unfold read. induction l as [|c l IH]; [reflexivity|].
  cbn [filter]. rewrite (Hall c (or_introl eq_refl)). cbn [negb].
  f_equal. apply IH. intros c' Hin. apply Hall. now right.
Qed.

(** X24. The total of a checked call is the sum, in the order of the
    calls, of the costs reported by the calls whose result was read to
    the end: every call that came back, except a verification that came
    back without a text, on which [strip] raises before the cost is
    added. A call that raised or reported no cost adds nothing. A
    returned dictionary carries that sum when a price was asked for, and
    when no verification came back without a text it is the sum of all
    the costs reported. An attempt, however it ends, adds at most four
    calls and their costs read. *)
Theorem total_is_sum_of_costs_read
    {C : Type} `{Number C} (cfg : model_config C) (rt : router C)
    (vendor_ prompt_ : pystr) (check_for_price : bool) :
  let run := ai_call_checked (constructed cfg rt) vendor_ prompt_
               check_for_price in
  let sum := sum_costs (charged prompt_ check_for_price (calls (snd run))) in
  total_cost (snd run) = sum
  /\ (forall res,
        fst run = Ok res ->
        cost res = if check_for_price then Some sum else None)
  /\ ((forall c, In c (calls (snd run)) -> unread prompt_ c = false) ->
      total_cost (snd run)
      = sum_costs (if check_for_price then reported_costs (calls (snd run))
                   else []))
  /\ (forall high_model budget_model attempt s,
        let s' := snd (attempt_step rt prompt_ check_for_price high_model
                         budget_model attempt s) in
        exists new,
          calls s' = calls s ++ new /\ (List.length new <= 4)%nat
          /\ total_cost s'
             = fold_left nadd (charged prompt_ check_for_price new)
                 (total_cost s)).
Proof.
  intros run sum.
  pose proof (total_cost_is_sum cfg rt vendor_ prompt_ check_for_price)
    as Hsum.
  fold run in Hsum. cbv zeta in Hsum. fold sum in Hsum.
  split; [exact Hsum|]. split; [|split].
  - intros res Hres.
    assert (Hrun : run = (Ok res, snd run))
      by (destruct run; simpl in *; congruence).
    rewrite (returned_cost _ _ _ _ _ Hrun). now rewrite Hsum.
  - intros Hall. rewrite Hsum. unfold sum, charged.
    now rewrite (read_all _ _ Hall).
  - intros hm bm attempt s s'.
    destruct (preserves_attempt_step rt prompt_ check_for_price hm bm
                attempt s) as (new & Hc & Ht & _ & Hl).
    exists new. auto.
Qed.

(** The run whose first verification comes back without a text: the
    total 13 is the sum of the five costs read, and the costs reported
    are six. *)
Lemma total_is_sum_of_costs_read_witness :
  let run := ai_call_checked (C := float)
               (constructed demo_config (scripted script_unread_verification))
               (lit "Gemini") capital_prompt true in
  total_cost (snd run)
  = sum_costs (charged capital_prompt true (calls (snd run)))
  /\ charged capital_prompt true (calls (snd run))
     = [3; 3; 3; 3; 1]%float
  /\ reported_costs (calls (snd run)) = [3; 1; 3; 3; 3; 1]%float.
Proof.
  intros run.
  split; [|split; vm_compute; reflexivity].
  exact (proj1 (total_is_sum_of_costs_read (C := float) demo_config
                  (scripted script_unread_verification) (lit "Gemini")
                  capital_prompt true)).
Defined.

(** X25. A verification that comes back without a text is never read:
    after consensus, [strip] raises the [AttributeError] of [None]
    inside [try:], after the call was made and before its cost is added.
    In the attempts 1 to 4 the exception is absorbed and the loop goes on
    from that state; in the fifth attempt it is raised to the caller. *)
Theorem verification_without_text_raises
    {C : Type} `{Number C} (rt : router C) (prompt_ : pystr)
    (check_for_price : bool) (high_model budget_model : pystr)
    (attempt : nat) (range : list nat) (s : state C)
    (r1 r2 r3 v : result_dict C) :
  let n := List.length (calls s) in
  rt n high_model prompt_ check_for_price = Ok r1 ->
  rt (n + 1) high_model prompt_ check_for_price = Ok r2 ->
  rt (n + 2) high_model prompt_ check_for_price = Ok r3 ->
  response r1 = response r2 -> response r2 = response r3 ->
  rt (n + 3) budget_model
     (validation_prompt prompt_ [response r1; response r2; response r3])
     check_for_price = Ok v ->
  response v = None ->
  let s4 :=
    {| total_cost :=
         charge check_for_price r3
           (charge check_for_price r2
              (charge check_for_price r1 (total_cost s)));
       calls :=
         calls s
         ++ [returned high_model prompt_ check_for_price r1;
             returned high_model prompt_ check_for_price r2;
             returned high_model prompt_ check_for_price r3;
             returned budget_model
               (validation_prompt prompt_
                  [response r1; response r2; response r3])
               check_for_price v] |} in
  let loop := attempts_loop rt prompt_ check_for_price high_model
                budget_model in
  attempt_body rt prompt_ check_for_price high_model budget_model attempt s
  = (Raised (no_attribute "strip"), s4)
  /\ (attempt <> 4%nat -> loop (attempt :: range) s = loop range s4)
  /\ (attempt = 4%nat ->
      loop (attempt :: range) s = (Raised (no_attribute "strip"), s4)).
Proof.
  intros n H1 H2 H3 E12 E23 Hv Ht s4 loop.
  destruct (attempt_body_no_text rt prompt_ check_for_price high_model
              budget_model attempt s H1 H2 H3 E12 E23 Hv Ht) as [Hb Htotal].
  assert (Hs4 : after_verification prompt_ check_for_price high_model
                  budget_model s r1 r2 r3 v = s4).
  { unfold s4, after_verification. f_equal. exact Htotal. }
  rewrite Hs4 in Hb. split; [exact Hb|]. subst loop. split.
  - intros Ha. rewrite attempts_loop_cons.
    apply attempt_step_absorbs in Hb; [|exact Ha]. rewrite Hb. reflexivity.
  - intros ->. rewrite attempts_loop_cons.
    apply attempt_step_last in Hb. rewrite Hb. reflexivity.
Qed.

(** The first attempt of the run whose verification has no text: four
    calls, the total 3, and the loop goes on. *)
Lemma verification_without_text_raises_witness :
  let rt := scripted (C := float) script_unread_verification in
  exists s4,
    attempt_body rt capital_prompt true (lit "gemini25pro")
      (lit "gemini25flash") 0 initial_state
    = (Raised (no_attribute "strip"), s4)
    /\ List.length (calls s4) = 4%nat
    /\ total_cost s4 = 3%float.
Proof.
  intros rt. eexists. split.
  - refine (proj1 (verification_without_text_raises rt capital_prompt true
                     (lit "gemini25pro") (lit "gemini25flash") 0 []
                     initial_state (r1 := _) (r2 := _) (r3 := _) (v := _)
                     eq_refl eq_refl eq_refl eq_refl eq_refl eq_refl
                     eq_refl)).
  - split; reflexivity.
Defined.
